(** * Video Audio Normalizer: a shallow embedding of [normalizer.py]

    The development follows the source file top to bottom: text
    helpers and Python's [float()], the [pathlib] fragment the script
    uses, and the external world (clock, file system, child processes)
    as an oracle indexed by the number of interactions made so far.
    [get_file_size], [get_video_files], [get_video_duration],
    [process_video] and [main] are then written in a small monad that
    threads that count, carries Python's exceptions and records every
    visible event in order.  The properties come after all the
    definitions. *)

From Stdlib Require Import String Ascii List Bool Arith NArith ZArith QArith Lia.
Import ListNotations.

Set Warnings "-register-all".

Local Open Scope string_scope.
Local Open Scope list_scope.

(** ** Text helpers (Python [str] methods used by the script)

    Text is a string of 8-bit characters; case and blanks are those of
    ASCII. *)

Module PyStr.

(** ASCII whitespace as recognised by [str.strip()]. *)
Definition is_space (c : ascii) : bool :=
  let n := nat_of_ascii c in
  ((9 <=? n) && (n <=? 13) || (28 <=? n) && (n <=? 32))%nat.

Fixpoint lstrip (s : string) : string :=
  match s with
  | String c s' => if is_space c then lstrip s' else s
  | EmptyString => s
  end.

(** Drops trailing whitespace: a character is kept when something
    non-blank follows it or it is itself non-blank. *)
Fixpoint rstrip (s : string) : string :=
  match s with
  | String c s' =>
      match rstrip s' with
      | EmptyString => if is_space c then EmptyString else String c EmptyString
      | r => String c r
      end
  | EmptyString => EmptyString
  end.

Definition strip (s : string) : string := rstrip (lstrip s).

Definition lower_char (c : ascii) : ascii :=
  let n := nat_of_ascii c in
  if ((65 <=? n) && (n <=? 90))%nat then ascii_of_nat (n + 32) else c.

Fixpoint lower (s : string) : string :=
  match s with
  | String c s' => String (lower_char c) (lower s')
  | EmptyString => EmptyString
  end.

(** [needle in hay] *)
Fixpoint contains (needle hay : string) : bool :=
  prefix needle hay
  || match hay with
     | String _ hay' => contains needle hay'
     | EmptyString => false
     end.

(** [sep.join(parts)] *)
Fixpoint join (sep : string) (parts : list string) : string :=
  match parts with
  | [] => ""
  | [p] => p
  | p :: rest => p ++ sep ++ join sep rest
  end.

Definition concat_all (parts : list string) : string :=
  fold_right append "" parts.

End PyStr.

(** ** Python floats

    The script only parses, returns and compares durations, so a float
    is kept as the exact value its decimal text denotes; rounding to
    binary64 is not modelled (it never changes on which side of zero a
    value lies, and the sign of a zero is dropped). *)

Module PyFloat.

Inductive pyfloat :=
| Finite (q : Q)
| Inf (negative : bool)
| NaN.

(** The literal [0.0]. *)
Definition zero : pyfloat := Finite 0.

(** [x >= 0] on floats: false for NaN. *)
Definition is_nonneg (x : pyfloat) : bool :=
  match x with
  | Finite q => Qle_bool 0 q
  | Inf negative => negb negative
  | NaN => false
  end.

Definition digit_val (c : ascii) : option N :=
  let n := N_of_ascii c in
  if ((48 <=? n) && (n <=? 57))%N then Some (n - 48)%N else None.

Definition is_underscore (c : ascii) : bool := Ascii.eqb c "_".

(** digitpart ::= digit (["_"] digit)*  -- the part after the first
    digit.  Carries the value read so far and the number of digits. *)
Fixpoint digits_tail (s : string) (acc : N) (cnt : nat) : N * nat * string :=
  match s with
  | String c s' =>
      match digit_val c with
      | Some d => digits_tail s' (acc * 10 + d)%N (S cnt)
      | None =>
          if is_underscore c then
            match s' with
            | String c2 s'' =>
                match digit_val c2 with
                | Some d => digits_tail s'' (acc * 10 + d)%N (S cnt)
                | None => (acc, cnt, s)
                end
            | EmptyString => (acc, cnt, s)
            end
          else (acc, cnt, s)
      end
  | EmptyString => (acc, cnt, s)
  end.

Definition digitpart (s : string) (acc : N) : option (N * nat * string) :=
  match s with
  | String c s' =>
      match digit_val c with
      | Some d => Some (digits_tail s' (acc * 10 + d)%N 1)
      | None => None
      end
  | EmptyString => None
  end.

(** number ::= [digitpart] "." digitpart | digitpart ["."]
    Returns the digits read as one integer, how many of them stand
    after the point, and the unread rest. *)
Definition number (s : string) : option (N * nat * string) :=
  match digitpart s 0 with
  | Some (i, _, String "." rest) =>
      match digitpart rest i with
      | Some r => Some r
      | None => Some (i, 0%nat, rest)
      end
  | Some (i, _, rest) => Some (i, 0%nat, rest)
  | None =>
      match s with
      | String "." rest => digitpart rest 0
      | _ => None
      end
  end.

Definition sign (s : string) : bool * string :=
  match s with
  | String "-" s' => (true, s')
  | String "+" s' => (false, s')
  | _ => (false, s)
  end.

(** exponent ::= ("e" | "E") [sign] digitpart ; absent exponent is 0.
    [None] when an exponent marker is not followed by digits or when
    text is left over. *)
Definition exponent (s : string) : option Z :=
  match s with
  | EmptyString => Some 0%Z
  | String c s' =>
      if Ascii.eqb c "e" || Ascii.eqb c "E" then
        let '(neg, s'') := sign s' in
        match digitpart s'' 0 with
        | Some (e, _, EmptyString) =>
            Some (if neg then - Z.of_N e else Z.of_N e)%Z
        | _ => None
        end
      else None
  end.

(** mantissa * 10^e10 as a reduced fraction. *)
Definition decimal (negative : bool) (mantissa : N) (e10 : Z) : Q :=
  let m := (if negative then - Z.of_N mantissa else Z.of_N mantissa)%Z in
  Qred (if (0 <=? e10)%Z then Qmake (m * 10 ^ e10) 1
        else Qmake m (Z.to_pos (10 ^ (- e10)))).

(** [float(s)] for a string argument; [None] stands for ValueError. *)
Definition of_string (s : string) : option pyfloat :=
  let '(neg, body) := sign (PyStr.strip s) in
  let word := PyStr.lower body in
  if String.eqb word "inf" || String.eqb word "infinity" then Some (Inf neg)
  else if String.eqb word "nan" then Some NaN
  else
    match number body with
    | Some (m, frac, rest) =>
        match exponent rest with
        | Some e => Some (Finite (decimal neg m (e - Z.of_nat frac)))
        | None => None
        end
    | None => None
    end.

End PyFloat.

(** ** The [pathlib] fragment (pure paths, POSIX flavour)

    A path is its root ("", "/" or "//") and its list of components,
    as [PurePosixPath] keeps them.  The Windows flavour differs in the
    separators it accepts and in drive prefixes; [name], [parent] and
    joining a plain component look at neither. *)

Module Pathlib.

Record PurePath := mkPath { root : string; tail : list string }.

Definition slash : ascii := "/".
Definition dot : ascii := ".".

(** [s.split(sep)] for a one-character separator. *)
Fixpoint split (sep : ascii) (s : string) : list string :=
  match s with
  | EmptyString => [""]
  | String c s' =>
      if Ascii.eqb c sep then "" :: split sep s'
      else match split sep s' with
           | h :: t => String c h :: t
           | [] => [String c ""]
           end
  end.

(** [posixpath.splitroot]: exactly two leading slashes are kept as
    the root "//"; with one, or with three and more, the root is "/"
    and the rest starts after the first slash. *)
Definition splitroot (s : string) : string * string :=
  match s with
  | String "/" (String "/" (String "/" _ as rest)) => ("/", String "/" rest)
  | String "/" (String "/" rest) => ("//", rest)
  | String "/" rest => ("/", rest)
  | _ => ("", s)
  end.

Definition keep_component (c : string) : bool :=
  negb (String.eqb c "") && negb (String.eqb c ".").

(** [PurePath(s)]: empty components and "." are dropped. *)
Definition parse (s : string) : PurePath :=
  let '(r, rel) := splitroot s in
  mkPath r (filter keep_component (split slash rel)).

(** [str(p)] *)
Definition to_string (p : PurePath) : string :=
  match root p, tail p with
  | EmptyString, [] => "."
  | r, t => r ++ PyStr.join "/" t
  end.

(** [p.name] *)
Definition name (p : PurePath) : string := last (tail p) "".

(** [p.parent] *)
Definition parent (p : PurePath) : PurePath :=
  mkPath (root p) (removelast (tail p)).

(** [s.rfind(c)]; [None] stands for -1. *)
Fixpoint rfind (c : ascii) (s : string) : option nat :=
  match s with
  | EmptyString => None
  | String a s' =>
      match rfind c s' with
      | Some i => Some (S i)
      | None => if Ascii.eqb a c then Some 0%nat else None
      end
  end.

(** The index at which [p.suffix] starts, when there is a suffix:
    [i = name.rfind('.')] with [0 < i < len(name) - 1]. *)
Definition suffix_start (nm : string) : option nat :=
  match rfind dot nm with
  | Some i => if ((0 <? i) && (i <? String.length nm - 1))%nat then Some i else None
  | None => None
  end.

Definition suffix_of_name (nm : string) : string :=
  match suffix_start nm with
  | Some i => substring i (String.length nm - i) nm
  | None => ""
  end.

Definition stem_of_name (nm : string) : string :=
  match suffix_start nm with
  | Some i => substring 0 i nm
  | None => nm
  end.

(** [p.suffix] and [p.stem] *)
Definition suffix (p : PurePath) : string := suffix_of_name (name p).
Definition stem (p : PurePath) : string := stem_of_name (name p).

(** [p / key] for a string key: the key is parsed; a key with a root
    of its own replaces the path, otherwise its components are
    appended. *)
Definition truediv (p : PurePath) (key : string) : PurePath :=
  let k := parse key in
  match root k with
  | EmptyString => mkPath (root p) (tail p ++ tail k)
  | _ => k
  end.

(** [p._make_child_relpath(name)], used by the glob selectors for a
    directory entry. *)
Definition make_child_relpath (p : PurePath) (nm : string) : PurePath :=
  mkPath (root p) (tail p ++ [nm]).

Definition eqb (p q : PurePath) : bool :=
  String.eqb (root p) (root q)
  && (if list_eq_dec string_dec (tail p) (tail q) then true else false).

(** The text [str] puts in front of the last component of a path
    below [dir]. *)
Definition dir_prefix (dir : PurePath) : string :=
  match tail dir with
  | [] => root dir
  | t => root dir ++ PyStr.join "/" t ++ "/"
  end.

(** A component the parser can produce: non-empty, not ".", and
    without a separator. *)
Definition valid_component (c : string) : Prop :=
  c <> "" /\ c <> "." /\ rfind slash c = None.

Definition wf (p : PurePath) : Prop := Forall valid_component (tail p).

End Pathlib.

(** ** Directory snapshots and the glob selectors *)

Module Glob.
Import Pathlib.

(** What the file system holds below a directory at one instant:
    entries in enumeration order.  [Unreadable] is a path that cannot
    be examined: asking for its status fails with an error other than
    "not found" (no permission on a parent, a name too long). *)
Inductive node :=
| File
| Dir (entries : list (string * node))
| Unreadable.

(** [_WildcardSelector('*')]: every entry of the directory. *)
Definition wildcard_select (p : PurePath) (entries : list (string * node)) : list PurePath :=
  map (fun e => make_child_relpath p (fst e)) entries.

(** [_RecursiveWildcardSelector._iterate_directories]: the directory
    itself, then each sub-directory in turn, depth first.  Anything
    that is not a directory is not a starting point. *)
Fixpoint iterate_directories (p : PurePath) (n : node)
  : list (PurePath * list (string * node)) :=
  match n with
  | Dir entries =>
      (p, entries)
        :: flat_map (fun e => iterate_directories (make_child_relpath p (fst e)) (snd e))
                    entries
  | _ => []
  end.

(** The [yielded] set of the recursive selector: a path is yielded
    the first time it is met. *)
Fixpoint unique (seen : list PurePath) (l : list PurePath) : list PurePath :=
  match l with
  | [] => []
  | x :: r =>
      if existsb (eqb x) seen then unique seen r
      else x :: unique (x :: seen) r
  end.

(** [p.glob('*')] on a snapshot; [None] is a path that does not exist. *)
Definition glob_star (p : PurePath) (snapshot : option node) : list PurePath :=
  match snapshot with
  | Some (Dir entries) => wildcard_select p entries
  | _ => []
  end.

(** [p.rglob('*')] *)
Definition rglob_star (p : PurePath) (snapshot : option node) : list PurePath :=
  match snapshot with
  | Some (Dir entries) =>
      unique [] (flat_map (fun d => wildcard_select (fst d) (snd d))
                          (iterate_directories p (Dir entries)))
  | _ => []
  end.

End Glob.

(** ** Exceptions, events and the external world *)

Module Py.
Import Pathlib.

(** The exception classes the script can meet.  All of them derive from
    [Exception]; [CalledProcessError] derives from [SubprocessError],
    and the two Unicode errors of encoding and decoding text derive
    from [ValueError]. *)
Inductive exn :=
| ValueError
| ZeroDivisionError
| OSError
| SubprocessError
| CalledProcessError (output : string)
| PlainException (msg : string).

Definition is_SubprocessError (e : exn) : bool :=
  match e with
  | SubprocessError | CalledProcessError _ => true
  | _ => false
  end.

Definition is_ValueError (e : exn) : bool :=
  match e with ValueError => true | _ => false end.

Definition is_CalledProcessError (e : exn) : bool :=
  match e with CalledProcessError _ => true | _ => false end.

(** [except Exception] *)
Definition is_Exception (e : exn) : bool := true.

(** What a library call can raise by itself: an OS error (a missing
    program, a closed stream), an error of encoding or decoding text
    (a ValueError), or an error of the [subprocess] module. *)
Inductive LibError := LibOSError | LibValueError | LibSubprocessError.

Definition exn_of_lib (e : LibError) : exn :=
  match e with
  | LibOSError => OSError
  | LibValueError => ValueError
  | LibSubprocessError => SubprocessError
  end.

Inductive outcome (A : Type) :=
| Return (a : A)
| Raise (e : exn).
Arguments Return {A} a.
Arguments Raise {A} e.

(** File-system calls a process can make on a path. *)
Inductive FsOp := OpStat | OpScandir | OpWrite | OpUnlink.

(** What the script prints, one constructor per [print] in the source.
    The report of a failure carries the exception whose text [str(e)]
    is printed after the path. *)
Inductive Msg :=
| MsgProcessing (video_path : PurePath)
| MsgInputSize (mb : Q)
| MsgFileOf (current_file total_files : nat)
| MsgStarting
| MsgProgress (line : string)
| MsgFFmpegError (error_message : string)
| MsgCompleted
| MsgTimeTaken (whole_seconds : Z)
| MsgAverageSpeed (mb_per_s : Q)
| MsgOutputSize (mb : Q)
| MsgProcessError (output : string)
| MsgScanning (video_directory : string)
| MsgFound (total_files : nat)
| MsgErrorProcessing (video_path : PurePath) (e : exn)
| MsgFullDetails (e : exn).

(** Everything the script does that is visible from outside.  A
    file-system call records whether it succeeded; [EvPopen] is a child
    that started, [EvPoll (Some status)] the moment its exit is seen.
    The last three are calls that raised: a [print] whose text could
    not be written, and a [readline()] or [read()] of the child's
    diagnostic stream whose data could not be decoded. *)
Inductive Event :=
| EvTime (now : Q)
| EvFs (op : FsOp) (path : string) (ok : bool)
| EvRun (cmd : list string)
| EvPopen (cmd : list string)
| EvSpawnFailed (cmd : list string)
| EvPoll (status : option Z)
| EvReadline (line : string)
| EvRead (rest : string)
| EvPrint (m : Msg)
| EvPrintFailed (m : Msg)
| EvReadlineFailed
| EvReadFailed.

(** A child started with [Popen]: how many times [poll()] still answers
    [None], the lines its diagnostic stream will deliver, and its exit
    status.  A child that never exits has no such description. *)
Record Proc := mkProc {
  alive_polls : nat;
  stderr_lines : list string;
  returncode : Z
}.

(** [subprocess.run(cmd, capture_output=True, text=True)] *)
Inductive RunResult :=
| Completed (status : Z) (stdout : string)
| RunRaises (e : LibError).

(** The world outside the script.  Each answer may depend on how many
    interactions happened before it, so files can appear, clocks can
    move and commands can answer differently each time.  [env_print]
    says whether writing a message to standard output raises, and
    [env_decode] whether decoding a piece of the child's diagnostic
    stream does. *)
Record Env := mkEnv {
  env_time : nat -> Q;
  env_getsize : nat -> string -> option N;
  env_run : nat -> list string -> RunResult;
  env_popen : nat -> list string -> option Proc;
  env_snapshot : nat -> PurePath -> option Glob.node;
  env_abspath : string -> string;
  env_print : nat -> Msg -> option LibError;
  env_decode : nat -> string -> option LibError
}.

(** What a computation leaves behind when started at a given count of
    interactions: its result, the count afterwards, and the events it
    produced, oldest first. *)
Record Run (A : Type) := mkRun {
  result : outcome A;
  clock : nat;
  trace : list Event
}.
Arguments mkRun {A} result clock trace.
Arguments result {A} r.
Arguments clock {A} r.
Arguments trace {A} r.

Definition M (A : Type) : Type := nat -> Run A.

Definition ret {A} (a : A) : M A := fun t => mkRun (Return a) t [].

Definition raise {A} (e : exn) : M A := fun t => mkRun (Raise e) t [].

(** Runs [k] after [r], keeping the events of both. *)
Definition and_then {A B} (r : Run A) (k : nat -> Run B) : Run B :=
  let r' := k (clock r) in
  mkRun (result r') (clock r') (trace r ++ trace r').

Definition bind {A B} (c : M A) (k : A -> M B) : M B :=
  fun t =>
    let r := c t in
    match result r with
    | Return a => and_then r (k a)
    | Raise e => mkRun (Raise e) (clock r) (trace r)
    end.

(** [try: body  except <classes>: handler]; an exception outside the
    listed classes passes through. *)
Definition try_except {A} (body : M A) (catches : exn -> bool) (handler : exn -> M A) : M A :=
  fun t =>
    let r := body t in
    match result r with
    | Raise e => if catches e then and_then r (handler e) else r
    | Return _ => r
    end.

Definition emit (e : Event) : M unit := fun t => mkRun (Return tt) t [e].

(** One interaction with the world: the count advances. *)
Definition tick : M nat := fun t => mkRun (Return t) (S t) [].

End Py.

Declare Scope py_scope.
Delimit Scope py_scope with py.
Notation "x <- c ;; k" := (Py.bind c (fun x => k))
  (at level 61, c at next level, right associativity) : py_scope.
Notation "c ;; k" := (Py.bind c (fun _ => k))
  (at level 61, right associativity) : py_scope.

(** ** The script

    Sizes in MB and clock readings are exact rationals; durations are
    the floats of [PyFloat]. *)

Module Normalizer.
Import Pathlib Py.
Local Open Scope py_scope.

Definition FFMPEG_PATH : string := "C:\Program Files\ffmpeg\bin\ffmpeg.exe".

Definition video_extensions : list string :=
  [".mp4"; ".mkv"; ".avi"; ".mov"; ".wmv"; ".flv"].

(** [f.suffix.lower() in video_extensions] *)
Definition is_video (f : PurePath) : bool :=
  existsb (String.eqb (PyStr.lower (suffix f))) video_extensions.

(** [a / b] as Python performs it: a zero divisor raises.  It is used
    by [input_size / process_time if process_time > 0 else 0]. *)
Definition py_truediv (a b : Q) : M Q :=
  if Qeq_bool b 0 then raise ZeroDivisionError else ret (a / b)%Q.

(** [a > b] on floats *)
Definition Qgt_bool (a b : Q) : bool := negb (Qle_bool a b).

Definition average_speed (input_size process_time : Q) : M Q :=
  if Qgt_bool process_time 0 then py_truediv input_size process_time
  else ret 0%Q.

(** [str(timedelta(seconds=int(seconds)))]: the whole seconds, [int()]
    truncating towards zero; the H:MM:SS rendering is left out. *)
Definition format_time (seconds : Q) : Z :=
  Z.quot (Qnum seconds) (Zpos (Qden seconds)).

(** [float(s)] raising ValueError *)
Definition py_float (s : string) : M PyFloat.pyfloat :=
  match PyFloat.of_string s with
  | Some x => ret x
  | None => raise ValueError
  end.

Definition primary_cmd (video_path : string) : list string :=
  [FFMPEG_PATH; "-i"; video_path; "-v"; "error";
   "-select_streams"; "v:0";
   "-show_entries"; "stream=duration";
   "-of"; "default=noprint_wrappers=1:nokey=1"].

Definition fallback_cmd (video_path : string) : list string :=
  [FFMPEG_PATH; "-i"; video_path; "-v"; "error";
   "-show_entries"; "format=duration";
   "-of"; "default=noprint_wrappers=1:nokey=1"].

Definition extract_cmd (video_path output_path : string) : list string :=
  [FFMPEG_PATH; "-hwaccel"; "auto"; "-hide_banner";
   "-i"; video_path;
   "-map"; "0"; "-threads"; "auto";
   "-c:v"; "copy"; "-c:s"; "copy"; "-c:a"; "aac"; "-b:a"; "192k";
   "-af"; "loudnorm=I=-14:LRA=11:TP=-1.5";
   "-stats"; "-v"; "info"; "-y"; output_path].

(** [video_path.parent / f"normalized_{video_path.name}"] *)
Definition output_path_of (video_path : PurePath) : PurePath :=
  truediv (parent video_path) ("normalized_" ++ name video_path).

Section WithEnv.
Variable env : Env.

(** *** Calls into the world *)

Definition time_time : M Q :=
  t <- tick ;;
  let now := env_time env t in
  emit (EvTime now) ;;
  ret now.

Definition os_path_getsize (file_path : string) : M N :=
  t <- tick ;;
  match env_getsize env t file_path with
  | Some n => emit (EvFs OpStat file_path true) ;; ret n
  | None => emit (EvFs OpStat file_path false) ;; raise OSError
  end.

(** Returns the captured standard output. *)
Definition subprocess_run (cmd : list string) : M string :=
  t <- tick ;;
  emit (EvRun cmd) ;;
  match env_run env t cmd with
  | Completed _ stdout => ret stdout
  | RunRaises e => raise (exn_of_lib e)
  end.

Definition subprocess_Popen (cmd : list string) : M Proc :=
  t <- tick ;;
  match env_popen env t cmd with
  | Some p => emit (EvPopen cmd) ;; ret p
  | None => emit (EvSpawnFailed cmd) ;; raise OSError
  end.

(** [print(...)]: the message is written, or the write raises (the
    text cannot be encoded for the terminal, the stream is closed) and
    nothing more of the message is seen.  Printing is not counted as
    an interaction. *)
Definition print (m : Msg) : M unit :=
  fun t =>
    match env_print env t m with
    | None => mkRun (Return tt) t [EvPrint m]
    | Some e => mkRun (Raise (exn_of_lib e)) t [EvPrintFailed m]
    end.

(** The error, if any, of decoding a piece of the child's diagnostic
    stream (opened with [universal_newlines=True]); there is nothing
    to decode in an empty piece. *)
Definition decode_error (t : nat) (data : string) : option LibError :=
  if String.eqb data "" then None else env_decode env t data.

(** [process.stderr.readline()]: the next line, or the empty string at
    the end of the stream; it raises when the line cannot be decoded. *)
Definition stderr_readline (lines : list string) : M (string * list string) :=
  fun t =>
    let line := hd "" lines in
    match decode_error t line with
    | None => mkRun (Return (line, List.tl lines)) t [EvReadline line]
    | Some e => mkRun (Raise (exn_of_lib e)) t [EvReadlineFailed]
    end.

(** [process.stderr.read()]: all that is left, decoded in one go. *)
Definition stderr_read (lines : list string) : M string :=
  fun t =>
    let rest := PyStr.concat_all lines in
    match decode_error t rest with
    | None => mkRun (Return rest) t [EvRead rest]
    | Some e => mkRun (Raise (exn_of_lib e)) t [EvReadFailed]
    end.

(** The directory listing discovery works on.  [Path.glob] first asks
    whether the root is a directory; an error of that question other
    than "not found" is raised to the caller. *)
Definition scandir_snapshot (directory_path : PurePath) : M (option Glob.node) :=
  t <- tick ;;
  let snapshot := env_snapshot env t directory_path in
  match snapshot with
  | Some Glob.Unreadable =>
      emit (EvFs OpScandir (to_string directory_path) false) ;;
      raise OSError
  | _ =>
      emit (EvFs OpScandir (to_string directory_path)
                 (match snapshot with Some (Glob.Dir _) => true | _ => false end)) ;;
      ret snapshot
  end.

(** *** [get_file_size] *)
Definition get_file_size (file_path : string) : M Q :=
  n <- os_path_getsize file_path ;;
  ret (inject_Z (Z.of_N n) / inject_Z (1024 * 1024))%Q.

(** *** [get_video_files] *)
Definition get_video_files (directory : string) (recursive : bool) : M (list PurePath) :=
  let directory_path := parse directory in
  snapshot <- scandir_snapshot directory_path ;;
  if recursive
  then ret (filter is_video (Glob.rglob_star directory_path snapshot))
  else ret (filter is_video (Glob.glob_star directory_path snapshot)).

(** *** [get_video_duration] *)
Definition get_video_duration (video_path : PurePath) : M PyFloat.pyfloat :=
  try_except
    (stdout <- subprocess_run (primary_cmd (to_string video_path)) ;;
     duration <- py_float (PyStr.strip stdout) ;;
     ret duration)
    (fun e => is_ValueError e || is_SubprocessError e)
    (fun _ =>
       stdout <- subprocess_run (fallback_cmd (to_string video_path)) ;;
       try_except
         (py_float (PyStr.strip stdout))
         is_ValueError
         (fun _ => ret PyFloat.zero)).

(** *** [process_video] *)

(** [line and ('frame=' in line or 'time=' in line)] *)
Definition is_progress (line : string) : bool :=
  negb (String.eqb line "")
  && (PyStr.contains "frame=" line || PyStr.contains "time=" line).

(** The monitoring loop [while process.poll() is None: ...].  It runs
    once per [None] the child still answers and returns the part of the
    diagnostic stream it has not read.  An error raised by the read or
    the print inside it leaves the loop at once, before the exit of
    the child has been seen. *)
Fixpoint monitor (alive : nat) (status : Z) (lines : list string) : M (list string) :=
  match alive with
  | O => emit (EvPoll (Some status)) ;; ret lines
  | S alive' =>
      emit (EvPoll None) ;;
      r <- stderr_readline lines ;;
      (if is_progress (fst r) then print (MsgProgress (PyStr.strip (fst r))) else ret tt) ;;
      monitor alive' status (snd r)
  end.

Definition process_video (video_path : PurePath) (current_file total_files : nat) : M unit :=
  start_time <- time_time ;;
  print (MsgProcessing video_path) ;;
  let output_path := output_path_of video_path in
  input_size <- get_file_size (to_string video_path) ;;
  duration <- get_video_duration video_path ;;
  print (MsgInputSize input_size) ;;
  let cmd := extract_cmd (to_string video_path) (to_string output_path) in
  try_except
    (print (MsgFileOf current_file total_files) ;;
     print MsgStarting ;;
     process <- subprocess_Popen cmd ;;
     unread <- monitor (alive_polls process) (returncode process) (stderr_lines process) ;;
     if negb (Z.eqb (returncode process) 0) then
       error_message <- stderr_read unread ;;
       print (MsgFFmpegError error_message) ;;
       raise (PlainException error_message)
     else
       end_time <- time_time ;;
       let process_time := (end_time - start_time)%Q in
       output_size <- get_file_size (to_string output_path) ;;
       speed <- average_speed input_size process_time ;;
       print MsgCompleted ;;
       print (MsgTimeTaken (format_time process_time)) ;;
       print (MsgAverageSpeed speed) ;;
       print (MsgOutputSize output_size))
    is_CalledProcessError
    (fun e =>
       print (MsgProcessError (match e with CalledProcessError o => o | _ => "" end)) ;;
       raise e).

(** *** [main] *)

(** One turn of [for index, video_path in enumerate(video_files, 1)].
    The two prints of the handler are outside any [try]. *)
Definition process_one (total_files index : nat) (video_path : PurePath) : M unit :=
  try_except
    (process_video video_path index total_files)
    is_Exception
    (fun e =>
       print (MsgErrorProcessing video_path e) ;;
       print (MsgFullDetails e)).

Fixpoint process_all (total_files index : nat) (video_files : list PurePath) : M unit :=
  match video_files with
  | [] => ret tt
  | video_path :: rest =>
      process_one total_files index video_path ;;
      process_all total_files (S index) rest
  end.

(** The two arguments are the operator's answers to the two prompts. *)
Definition main (directory_answer recursive_answer : string) : M unit :=
  let recursive := String.eqb (PyStr.lower recursive_answer) "y" in
  let video_directory := env_abspath env directory_answer in
  print (MsgScanning video_directory) ;;
  video_files <- get_video_files video_directory recursive ;;
  let total_files := length video_files in
  print (MsgFound total_files) ;;
  process_all total_files 1 video_files.

End WithEnv.

(** The script starts before any interaction. *)
Definition initial : nat := 0%nat.

End Normalizer.

(** ** Reading the log, and worlds used as examples *)

Module Scenario.
Import Pathlib Py Normalizer.

(** The commands given to [subprocess.run], in order. *)
Definition runs_of (l : list Event) : list (list string) :=
  flat_map (fun e => match e with EvRun cmd => [cmd] | _ => [] end) l.

(** How many times a command was run. *)
Definition run_count (cmd : list string) (l : list Event) : nat :=
  count_occ (list_eq_dec string_dec) (runs_of l) cmd.

(** [float(stdout.strip())], or the given default when that raises. *)
Definition parsed_or (default : PyFloat.pyfloat) (stdout : string) : PyFloat.pyfloat :=
  match PyFloat.of_string (PyStr.strip stdout) with
  | Some d => d
  | None => default
  end.

(** The primary probe gave nothing usable: its output does not parse,
    or running it raised an error the first handler catches. *)
Definition primary_unusable (r : RunResult) : bool :=
  match r with
  | Completed _ stdout =>
      match PyFloat.of_string (PyStr.strip stdout) with
      | Some _ => false
      | None => true
      end
  | RunRaises e => is_ValueError (exn_of_lib e) || is_SubprocessError (exn_of_lib e)
  end.

(** A call that returned [d] after running the listed commands, one
    after the other, and nothing else. *)
Definition returned_after {A} (t : nat) (d : A) (cmds : list (list string)) : Run A :=
  mkRun (Return d) (length cmds + t) (map EvRun cmds).

(** *** Worlds *)

(** Nothing that is printed or decoded raises. *)
Definition never_fails {A} : nat -> A -> option LibError := fun _ _ => None.

(** A world whose probes print the two given texts: the primary probe
    is the first interaction, the fallback the second. *)
Definition probe_env (primary fallback : string) : Env :=
  mkEnv (fun _ => 0%Q)
        (fun _ _ => Some 0%N)
        (fun t _ => match t with
                    | O => Completed 0 primary
                    | _ => Completed 0 fallback
                    end)
        (fun _ _ => None)
        (fun _ _ => None)
        (fun s => s)
        never_fails
        never_fails.

Definition clip : PurePath := parse "/videos/clip.mp4".

(** A small studio: three videos, a text file and a sub-directory
    under /videos, and a directory /locked that cannot be examined.
    The clock advances one second per interaction, every file measures
    10 MB, both probes print a duration, the engine fails on b.mkv
    only, and every print and every read of a stream succeeds. *)
Definition studio_tree : Glob.node :=
  Glob.Dir [("a.mp4", Glob.File); ("notes.txt", Glob.File); ("b.mkv", Glob.File);
            ("sub", Glob.Dir [("d.MP4", Glob.File); ("e.srt", Glob.File)]);
            ("c.avi", Glob.File)].

Definition studio_engine (cmd : list string) : Proc :=
  if String.eqb (last cmd "") "/videos/normalized_b.mkv"
  then mkProc 2 ["frame=  10 fps=0.0 time=00:00:00.40";
                 "Conversion failed!";
                 "b.mkv: Invalid data"] 1
  else mkProc 1 ["frame=  25 fps=0.0 time=00:00:01.00";
                 "video:0kB audio:470kB"] 0.

Definition studio : Env :=
  mkEnv (fun t => inject_Z (Z.of_nat t))
        (fun _ _ => Some 10485760%N)
        (fun _ _ => Completed 0 "30.000000")
        (fun _ cmd => Some (studio_engine cmd))
        (fun _ p => if eqb p (parse "/videos") then Some studio_tree
                    else if eqb p (parse "/locked") then Some Glob.Unreadable
                    else None)
        (fun s => s)
        never_fails
        never_fails.

(** A world with one of its answers replaced. *)
Definition with_getsize (env : Env) (getsize : nat -> string -> option N) : Env :=
  mkEnv (env_time env) getsize (env_run env) (env_popen env)
        (env_snapshot env) (env_abspath env) (env_print env) (env_decode env).

Definition with_run (env : Env) (run : nat -> list string -> RunResult) : Env :=
  mkEnv (env_time env) (env_getsize env) run (env_popen env)
        (env_snapshot env) (env_abspath env) (env_print env) (env_decode env).

Definition with_popen (env : Env) (popen : nat -> list string -> option Proc) : Env :=
  mkEnv (env_time env) (env_getsize env) (env_run env) popen
        (env_snapshot env) (env_abspath env) (env_print env) (env_decode env).

Definition with_print (env : Env) (refuses : nat -> Msg -> option LibError) : Env :=
  mkEnv (env_time env) (env_getsize env) (env_run env) (env_popen env)
        (env_snapshot env) (env_abspath env) refuses (env_decode env).

Definition with_decode (env : Env) (garbles : nat -> string -> option LibError) : Env :=
  mkEnv (env_time env) (env_getsize env) (env_run env) (env_popen env)
        (env_snapshot env) (env_abspath env) (env_print env) garbles.

(** The same studio, except that the engine's output cannot be found
    after it has exited with status 0. *)
Definition lost_output : Env :=
  with_popen
    (with_getsize studio
       (fun _ path => if String.eqb path "/videos/normalized_clip.mp4"
                      then None else Some 10485760%N))
    (fun _ cmd => Some (mkProc 1 ["frame=  25 fps=0.0 time=00:00:01.00"] 0)).

(** The studio with a primary probe that exits with a failure status
    and still prints a number. *)
Definition failing_probe : Env :=
  with_run studio (fun _ _ => Completed 1 "30.5").

(** The studio with an engine whose progress lines cannot be decoded
    in the locale of the script. *)
Definition garbled : Env :=
  with_decode studio
    (fun _ line => if PyStr.contains "frame=" line then Some LibValueError else None).

Definition a_mp4 : PurePath := parse "/videos/a.mp4".
Definition b_mkv : PurePath := parse "/videos/b.mkv".
Definition c_avi : PurePath := parse "/videos/c.avi".


(** *** Conditions on a world *)

(** Nothing the script prints raises. *)
Definition prints_succeed (env : Env) : Prop :=
  forall t m, env_print env t m = None.


(** Nothing raises inside the monitoring loop: every line of the
    diagnostic stream decodes and every progress line can be shown. *)
Definition quiet_stream (env : Env) : Prop :=
  (forall t data, env_decode env t data = None)
  /\ (forall t line, env_print env t (MsgProgress line) = None).

(** Whatever the child writes to its diagnostic stream decodes. *)
Definition stream_decodes (env : Env) : Prop :=
  forall t data, env_decode env t data = None.

(** *** Reading a trace *)

(** The files whose processing was begun, in order: each announcement
    "Processing: ...", whether it could be written or not. *)
Definition processing_order (l : list Event) : list PurePath :=
  flat_map (fun e => match e with
                     | EvPrint (MsgProcessing p) | EvPrintFailed (MsgProcessing p) => [p]
                     | _ => []
                     end) l.

(** The failures recorded by "Error processing ...: ...": the path and
    the error whose text was printed, in order. *)
Definition failures (l : list Event) : list (PurePath * exn) :=
  flat_map (fun e => match e with
                     | EvPrint (MsgErrorProcessing p e) => [(p, e)]
                     | _ => []
                     end) l.




(** A message [process_video] may print for its file: no file is
    announced again, no failure is reported, nothing of [main] is
    printed, and the progress banner bears this file's number. *)
Definition own_msg (current total : nat) (m : Msg) : Prop :=
  match m with
  | MsgProcessing _ | MsgErrorProcessing _ _ | MsgFullDetails _
  | MsgScanning _ | MsgFound _ => False
  | MsgFileOf i n => i = current /\ n = total
  | _ => True
  end.

(** An event [process_video] may produce after it has announced its
    file: a message as above, written or not; a child started with
    this file's command only; the size of this file or of its output
    read, and nothing else done to any file; this file's two probes. *)
Definition own_event (current total : nat) (p : PurePath) (e : Event) : Prop :=
  match e with
  | EvPrint m | EvPrintFailed m => own_msg current total m
  | EvPopen cmd | EvSpawnFailed cmd =>
      cmd = extract_cmd (to_string p) (to_string (output_path_of p))
  | EvFs op path _ =>
      op = OpStat /\ (path = to_string p \/ path = to_string (output_path_of p))
  | EvRun cmd =>
      cmd = primary_cmd (to_string p) \/ cmd = fallback_cmd (to_string p)
  | _ => True
  end.

(** An event of a file's turn in the batch: one of the above, or the
    report of this file's failure. *)
Definition in_turn (current total : nat) (p : PurePath) (e : Event) : Prop :=
  match e with
  | EvPrint (MsgErrorProcessing q _) | EvPrintFailed (MsgErrorProcessing q _) => q = p
  | EvPrint (MsgFullDetails _) | EvPrintFailed (MsgFullDetails _) => True
  | _ => own_event current total p e
  end.

(** The announcement of a file, written or not. *)
Definition announces (p : PurePath) (e : Event) : Prop :=
  e = EvPrint (MsgProcessing p) \/ e = EvPrintFailed (MsgProcessing p).

(** The events of one file's turn: the clock is read, the file is
    announced, and whatever follows belongs to this file. *)
Definition turn_of (current total : nat) (p : PurePath) (seg : list Event) : Prop :=
  exists now ann rest,
    seg = EvTime now :: ann :: rest
    /\ announces p ann
    /\ Forall (in_turn current total p) rest.




(** The exit status of the child, once seen. *)
Fixpoint exit_status (l : list Event) : option Z :=
  match l with
  | [] => None
  | EvPoll (Some status) :: _ => Some status
  | _ :: l' => exit_status l'
  end.

(** An event that is not the sight of an exit. *)
Definition no_exit (e : Event) : Prop := exit_status [e] = None.

(** The engine commands that were started, in order. *)
Definition popens (l : list Event) : list (list string) :=
  flat_map (fun e => match e with EvPopen cmd => [cmd] | _ => [] end) l.

(** The file the engine is told to write: the last argument of its
    command line, overwritten without asking because of [-y]. *)
Definition overwrite_target (cmd : list string) : string := last cmd "".

(** An event that leaves every file as it is, and hands the engine
    the computed output path as its only target. *)
Definition harmless (video_path : PurePath) (e : Event) : Prop :=
  match e with
  | EvFs op _ _ => op = OpStat
  | EvPopen cmd => overwrite_target cmd = to_string (output_path_of video_path)
  | _ => True
  end.

(** *** The runs of [process_video], case by case *)

(** What the monitoring loop leaves in the trace before it sees the
    child's exit, when nothing raises: one poll and one line read per
    turn, and the progress lines it shows. *)
Fixpoint watching (alive : nat) (lines : list string) : list Event :=
  match alive with
  | O => []
  | S alive' =>
      let line := hd "" lines in
      EvPoll None :: EvReadline line
        :: (if is_progress line then [EvPrint (MsgProgress (PyStr.strip line))] else [])
        ++ watching alive' (List.tl lines)
  end.

(** An event of the monitoring loop while the child is alive. *)
Definition is_watch (e : Event) : Prop :=
  match e with
  | EvPoll None | EvReadline _ | EvPrint (MsgProgress _) => True
  | _ => False
  end.

(** One of the two duration probes of a file. *)
Definition is_probe (video_path : PurePath) (e : Event) : Prop :=
  e = EvRun (primary_cmd (to_string video_path))
  \/ e = EvRun (fallback_cmd (to_string video_path)).

Section Cases.
Variables (env : Env) (video_path : PurePath) (current_file total_files : nat).

Let input : string := to_string video_path.
Let output : string := to_string (output_path_of video_path).

(** Up to the size of the input. *)
Definition measured (now : Q) (ok : bool) : list Event :=
  [EvTime now; EvPrint (MsgProcessing video_path); EvFs OpStat input ok].

(** The three messages before the engine is started. *)
Definition banner (mb : Q) : list Msg :=
  [MsgInputSize mb; MsgFileOf current_file total_files; MsgStarting].

(** Up to the start of the engine. *)
Definition prepared (now : Q) (probes : list Event) (mb : Q) : list Event :=
  measured now true ++ probes
    ++ [EvPrint (MsgInputSize mb);
        EvPrint (MsgFileOf current_file total_files);
        EvPrint MsgStarting].

(** Up to the exit of the engine. *)
Definition engine_ran (now : Q) (probes : list Event) (mb : Q) (process : Proc) : list Event :=
  prepared now probes mb
    ++ [EvPopen (extract_cmd input output)]
    ++ watching (alive_polls process) (stderr_lines process)
    ++ [EvPoll (Some (returncode process))].

(** The statistics printed at the end. *)
Definition report_msgs (now later mb_in mb_out : Q) : list Msg :=
  [MsgCompleted;
   MsgTimeTaken (format_time (later - now));
   MsgAverageSpeed (if Qgt_bool (later - now) 0 then mb_in / (later - now) else 0)%Q;
   MsgOutputSize mb_out].

Definition report (now later mb_in mb_out : Q) : list Event :=
  [EvPrint MsgCompleted;
   EvPrint (MsgTimeTaken (format_time (later - now)));
   EvPrint (MsgAverageSpeed (if Qgt_bool (later - now) 0 then mb_in / (later - now) else 0)%Q);
   EvPrint (MsgOutputSize mb_out)].

(** Messages written one after the other until one is refused. *)
Definition printed_until (shown : list Msg) (refused : Msg) : list Event :=
  map EvPrint shown ++ [EvPrintFailed refused].

(** What makes the monitoring loop stop before the child's exit is
    seen: a line that cannot be decoded or a progress line that cannot
    be shown. *)
Inductive interruption : Event -> LibError -> Prop :=
| line_undecodable (t : nat) (line : string) (e : LibError) :
    decode_error env t line = Some e ->
    interruption EvReadlineFailed e
| progress_refused (t : nat) (line : string) (e : LibError) :
    env_print env t (MsgProgress line) = Some e ->
    interruption (EvPrintFailed (MsgProgress line)) e.

(** The ways a call of [process_video] can go, in the order of the
    source: each constructor is a place where the call ends. *)
Inductive video_run : outcome unit -> list Event -> Prop :=
| announce_failed (now : Q) (t : nat) (e : LibError) :
    env_print env t (MsgProcessing video_path) = Some e ->
    video_run (Raise (exn_of_lib e))
              [EvTime now; EvPrintFailed (MsgProcessing video_path)]
| size_unreadable (now : Q) :
    video_run (Raise OSError) (measured now false)
| probe_raised (now : Q) (probes : list Event) (e : LibError) :
    Forall (is_probe video_path) probes ->
    video_run (Raise (exn_of_lib e)) (measured now true ++ probes)
| banner_failed (now : Q) (probes : list Event) (mb : Q)
                (shown : list Msg) (m : Msg) (unshown : list Msg) (t : nat) (e : LibError) :
    Forall (is_probe video_path) probes ->
    banner mb = shown ++ m :: unshown ->
    env_print env t m = Some e ->
    video_run (Raise (exn_of_lib e))
              (measured now true ++ probes ++ printed_until shown m)
| spawn_failed (now : Q) (probes : list Event) (mb : Q) :
    Forall (is_probe video_path) probes ->
    video_run (Raise OSError)
              (prepared now probes mb ++ [EvSpawnFailed (extract_cmd input output)])
| loop_interrupted (now : Q) (probes : list Event) (mb : Q)
                   (watched : list Event) (stop : Event) (e : LibError) :
    Forall (is_probe video_path) probes ->
    Forall is_watch watched ->
    interruption stop e ->
    video_run (Raise (exn_of_lib e))
              (prepared now probes mb
                 ++ [EvPopen (extract_cmd input output)] ++ watched ++ [stop])
| rest_undecodable (now : Q) (probes : list Event) (mb : Q) (process : Proc)
                   (t : nat) (e : LibError) :
    Forall (is_probe video_path) probes ->
    returncode process <> 0%Z ->
    decode_error env t (PyStr.concat_all (skipn (alive_polls process) (stderr_lines process)))
    = Some e ->
    video_run (Raise (exn_of_lib e))
              (engine_ran now probes mb process ++ [EvReadFailed])
| detail_refused (now : Q) (probes : list Event) (mb : Q) (process : Proc)
                 (t : nat) (e : LibError) :
    Forall (is_probe video_path) probes ->
    returncode process <> 0%Z ->
    let error_message :=
      PyStr.concat_all (skipn (alive_polls process) (stderr_lines process)) in
    env_print env t (MsgFFmpegError error_message) = Some e ->
    video_run (Raise (exn_of_lib e))
              (engine_ran now probes mb process
                 ++ [EvRead error_message; EvPrintFailed (MsgFFmpegError error_message)])
| engine_failed (now : Q) (probes : list Event) (mb : Q) (process : Proc) :
    Forall (is_probe video_path) probes ->
    returncode process <> 0%Z ->
    let error_message :=
      PyStr.concat_all (skipn (alive_polls process) (stderr_lines process)) in
    video_run (Raise (PlainException error_message))
              (engine_ran now probes mb process
                 ++ [EvRead error_message; EvPrint (MsgFFmpegError error_message)])
| output_unreadable (now later : Q) (probes : list Event) (mb : Q) (process : Proc) :
    Forall (is_probe video_path) probes ->
    returncode process = 0%Z ->
    video_run (Raise OSError)
              (engine_ran now probes mb process
                 ++ [EvTime later; EvFs OpStat output false])
| report_failed (now later : Q) (probes : list Event) (mb_in mb_out : Q) (process : Proc)
                (shown : list Msg) (m : Msg) (unshown : list Msg) (t : nat) (e : LibError) :
    Forall (is_probe video_path) probes ->
    returncode process = 0%Z ->
    report_msgs now later mb_in mb_out = shown ++ m :: unshown ->
    env_print env t m = Some e ->
    video_run (Raise (exn_of_lib e))
              (engine_ran now probes mb_in process
                 ++ [EvTime later; EvFs OpStat output true]
                 ++ printed_until shown m)
| completed (now later : Q) (probes : list Event) (mb_in mb_out : Q) (process : Proc) :
    Forall (is_probe video_path) probes ->
    returncode process = 0%Z ->
    video_run (Return tt)
              (engine_ran now probes mb_in process
                 ++ [EvTime later; EvFs OpStat output true]
                 ++ report now later mb_in mb_out).

End Cases.

(** *** Reading a directory snapshot *)



End Scenario.

(** ** The text of an elapsed time *)

From Stdlib Require DecimalString.

Module TimeText.
Local Open Scope string_scope.

(** ["%d" % n] *)
Definition fmt_d (n : Z) : string :=
  DecimalString.NilZero.string_of_int (Z.to_int n).

(** ["%02d" % n]: at least two characters, padded with a zero. *)
Definition fmt_02d (n : Z) : string :=
  let s := fmt_d n in
  if (String.length s <? 2)%nat then "0" ++ s else s.

(** The largest number of days a [timedelta] holds. *)
Definition max_days : Z := 999999999.

(** [str(timedelta(seconds=n))] for a whole number of seconds.  The
    constructor splits [n] into days and the seconds of the last day
    ([divmod], rounding down) and refuses more than [max_days] days
    either way: [None] stands for that OverflowError.  [__str__] then
    writes hours, minutes and seconds, after the days when there are
    any. *)
Definition timedelta_str (n : Z) : option string :=
  let days := (n / 86400)%Z in
  let seconds := (n mod 86400)%Z in
  if (Z.abs days >? max_days)%Z then None
  else
    let mm := (seconds / 60)%Z in
    let ss := (seconds mod 60)%Z in
    let hh := (mm / 60)%Z in
    let mm := (mm mod 60)%Z in
    let s := fmt_d hh ++ ":" ++ fmt_02d mm ++ ":" ++ fmt_02d ss in
    Some (if (days =? 0)%Z then s
          else fmt_d days ++ " day" ++ (if (Z.abs days =? 1)%Z then "" else "s")
                 ++ ", " ++ s).

(** [format_time(seconds)] down to the text: [Normalizer.format_time]
    is its [int(seconds)], this is the rendering of that. *)
Definition format_time_text (seconds : Q) : option string :=
  timedelta_str (Normalizer.format_time seconds).

End TimeText.

(** ** More readings of a trace *)

Module Reading.
Import Pathlib Py Normalizer Scenario.

(** The lines the monitoring loop took from the diagnostic stream. *)
Definition lines_read (l : list Event) : list string :=
  flat_map (fun e => match e with EvReadline line => [line] | _ => [] end) l.


(** How many times "Processing completed successfully!" was printed. *)
Definition completions (l : list Event) : nat :=
  length (flat_map (fun e => match e with EvPrint MsgCompleted => [tt] | _ => [] end) l).

(** Every attempt to start an engine, successful or not. *)
Definition spawn_attempts (l : list Event) : nat :=
  length (flat_map (fun e => match e with
                             | EvPopen _ | EvSpawnFailed _ => [tt]
                             | _ => []
                             end) l).

(** The engine command of a file. *)
Definition engine_cmd (p : PurePath) : list string :=
  extract_cmd (to_string p) (to_string (output_path_of p)).

(** [l] is [m] with some elements left out. *)
Inductive subseq {A : Type} : list A -> list A -> Prop :=
| subseq_nil : subseq [] []
| subseq_skip (x : A) (l m : list A) : subseq l m -> subseq l (x :: m)
| subseq_keep (x : A) (l m : list A) : subseq l m -> subseq (x :: l) (x :: m).

(** A studio shot whose engine is gone: nothing can be run. *)
Definition no_engine : Env :=
  with_popen (with_run studio (fun _ _ => RunRaises LibOSError)) (fun _ _ => None).

End Reading.

(** * Properties *)

Module PyFloatTests.
Import PyFloat.

Example float_plain : of_string "12.5" = Some (Finite (25 # 2)).
Proof. vm_compute. reflexivity. Qed.

Example float_newline :
  of_string (String (ascii_of_nat 10) " 30.000000" ++ String (ascii_of_nat 10) "")
  = Some (Finite 30).
Proof. vm_compute. reflexivity. Qed.

Example float_exp : of_string "1_0.5e-1" = Some (Finite (21 # 20)).
Proof. vm_compute. reflexivity. Qed.

Example float_point_only : of_string "." = None.
Proof. vm_compute. reflexivity. Qed.

Example float_lead_point : of_string ".5" = Some (Finite (1 # 2)).
Proof. vm_compute. reflexivity. Qed.

Example float_trail_point : of_string "5." = Some (Finite 5).
Proof. vm_compute. reflexivity. Qed.

Example float_empty : of_string "" = None.
Proof. vm_compute. reflexivity. Qed.

Example float_na : of_string "N/A" = None.
Proof. vm_compute. reflexivity. Qed.

Example float_bad_exp : of_string "1e" = None.
Proof. vm_compute. reflexivity. Qed.

Example float_double_underscore : of_string "1__0" = None.
Proof. vm_compute. reflexivity. Qed.

Example float_negative : of_string "-5" = Some (Finite (-5)).
Proof. vm_compute. reflexivity. Qed.

Example float_nan : of_string "nan" = Some NaN.
Proof. vm_compute. reflexivity. Qed.

Example float_neg_inf : of_string "-Infinity" = Some (Inf true).
Proof. vm_compute. reflexivity. Qed.

Example float_inner_space : of_string "1 2" = None.
Proof. vm_compute. reflexivity. Qed.

End PyFloatTests.

(** ** Throughput *)

Module Throughput.
Import Py Normalizer.

Lemma Qgt_bool_iff (a b : Q) : Qgt_bool a b = true <-> (b < a)%Q.
Proof.
  unfold Qgt_bool. rewrite negb_true_iff.
  split; intros H.
  - apply Qnot_le_lt. intros Hle. apply Qle_bool_iff in Hle. congruence.
  - destruct (Qle_bool a b) eqn:E; [|reflexivity].
    apply Qle_bool_iff in E. exfalso. exact (Qlt_not_le _ _ H E).
Qed.

Lemma Qgt_bool_false_iff (a b : Q) : Qgt_bool a b = false <-> (a <= b)%Q.
Proof.
  unfold Qgt_bool. rewrite negb_false_iff. apply Qle_bool_iff.
Qed.

(** The division is only reached with a divisor above zero. *)
Lemma py_truediv_pos (a b : Q) (t : nat) :
  (0 < b)%Q -> py_truediv a b t = mkRun (Return (a / b)%Q) t [].
Proof.
  intros Hb. unfold py_truediv.
  destruct (Qeq_bool b 0) eqn:E; [|reflexivity].
  apply Qeq_bool_iff in E. rewrite E in Hb. exfalso. exact (Qlt_irrefl _ Hb).
Qed.

(** C7.  For every input size and elapsed time the average speed is
    computed without a fault: it is the quotient input size / elapsed
    time when the elapsed time is above zero, and exactly 0 when the
    elapsed time is 0 (the division is then never attempted). *)
Theorem average_speed_spec :
  forall (input_size process_time : Q) (t : nat),
    ((0 < process_time)%Q ->
       average_speed input_size process_time t
       = mkRun (Return (input_size / process_time)%Q) t [])
    /\ ((process_time == 0)%Q ->
          average_speed input_size process_time t = mkRun (Return 0%Q) t [])
    /\ (exists speed, average_speed input_size process_time t = mkRun (Return speed) t [])
    /\ result (average_speed input_size process_time t) <> Raise ZeroDivisionError.
Proof.
  intros input_size process_time t.
  assert (Hpos : (0 < process_time)%Q ->
                 average_speed input_size process_time t
                 = mkRun (Return (input_size / process_time)%Q) t []).
  { intros Hp. unfold average_speed.
    rewrite (proj2 (Qgt_bool_iff process_time 0) Hp).
    apply py_truediv_pos; exact Hp. }
  assert (Hnonpos : (process_time <= 0)%Q ->
                    average_speed input_size process_time t = mkRun (Return 0%Q) t []).
  { intros Hp. unfold average_speed.
    rewrite (proj2 (Qgt_bool_false_iff process_time 0) Hp). reflexivity. }
  assert (Hret : exists speed,
             average_speed input_size process_time t = mkRun (Return speed) t []).
  { destruct (Qlt_le_dec 0 process_time) as [Hp|Hp].
    - eexists; apply Hpos; exact Hp.
    - eexists; apply Hnonpos; exact Hp. }
  split; [exact Hpos|]. split; [|split].
  - intros Hz. apply Hnonpos. rewrite Hz. apply Qle_refl.
  - exact Hret.
  - destruct Hret as [speed Hs]. rewrite Hs. discriminate.
Qed.

Lemma average_speed_value (input_size process_time : Q) (t : nat) :
  average_speed input_size process_time t
  = mkRun (Return (if Qgt_bool process_time 0 then input_size / process_time else 0)%Q) t [].
Proof.
  unfold average_speed. destruct (Qgt_bool process_time 0) eqn:E; [|reflexivity].
  apply py_truediv_pos. apply Qgt_bool_iff. exact E.
Qed.

Example average_speed_run :
  average_speed 10 4 initial = mkRun (Return (10 / 4)%Q) initial [].
Proof. reflexivity. Qed.

Example average_speed_zero_time :
  average_speed 10 0 initial = mkRun (Return 0%Q) initial [].
Proof. reflexivity. Qed.

Example average_speed_clock_went_back :
  average_speed 10 (-3) initial = mkRun (Return 0%Q) initial [].
Proof. reflexivity. Qed.

Example py_truediv_zero :
  result (py_truediv 10 0 initial) = Raise ZeroDivisionError.
Proof. reflexivity. Qed.

End Throughput.

(** ** Runs and traces *)

Module Trace.
Import Pathlib Py Normalizer Scenario.
Local Open Scope py_scope.

(** *** The monad *)

Lemma bind_return {A B} (c : M A) (k : A -> M B) (t t' : nat) (a : A) (tr : list Event) :
  c t = mkRun (Return a) t' tr ->
  bind c k t = mkRun (result (k a t')) (clock (k a t')) (tr ++ trace (k a t')).
Proof. intros H. unfold bind, and_then. rewrite H. reflexivity. Qed.

Lemma bind_raise {A B} (c : M A) (k : A -> M B) (t t' : nat) (e : exn) (tr : list Event) :
  c t = mkRun (Raise e) t' tr ->
  bind c k t = mkRun (Raise e) t' tr.
Proof. intros H. unfold bind. rewrite H. reflexivity. Qed.

Lemma trace_bind {A B} (c : M A) (k : A -> M B) (t : nat) :
  trace (bind c k t)
  = trace (c t) ++ match result (c t) with
                   | Return a => trace (k a (clock (c t)))
                   | Raise _ => []
                   end.
Proof.
  unfold bind, and_then. destruct (result (c t)); simpl; [reflexivity|].
  now rewrite app_nil_r.
Qed.

Lemma result_bind {A B} (c : M A) (k : A -> M B) (t : nat) :
  result (bind c k t)
  = match result (c t) with
    | Return a => result (k a (clock (c t)))
    | Raise e => Raise e
    end.
Proof. unfold bind, and_then. destruct (result (c t)); reflexivity. Qed.

Lemma clock_bind {A B} (c : M A) (k : A -> M B) (t : nat) :
  clock (bind c k t)
  = match result (c t) with
    | Return a => clock (k a (clock (c t)))
    | Raise e => clock (c t)
    end.
Proof. unfold bind, and_then. destruct (result (c t)); reflexivity. Qed.

Lemma trace_try {A} (body : M A) (catches : exn -> bool) (handler : exn -> M A) (t : nat) :
  trace (try_except body catches handler t)
  = trace (body t) ++ match result (body t) with
                      | Raise e => if catches e then trace (handler e (clock (body t))) else []
                      | Return _ => []
                      end.
Proof.
  unfold try_except, and_then. destruct (result (body t)) as [a|e].
  - now rewrite app_nil_r.
  - destruct (catches e); simpl; [reflexivity | now rewrite app_nil_r].
Qed.

Lemma result_try {A} (body : M A) (catches : exn -> bool) (handler : exn -> M A) (t : nat) :
  result (try_except body catches handler t)
  = match result (body t) with
    | Raise e => if catches e then result (handler e (clock (body t))) else Raise e
    | Return a => Return a
    end.
Proof.
  unfold try_except, and_then. destruct (result (body t)) as [a|e] eqn:E.
  - exact E.
  - destruct (catches e); [reflexivity | exact E].
Qed.

Lemma clock_try {A} (body : M A) (catches : exn -> bool) (handler : exn -> M A) (t : nat) :
  clock (try_except body catches handler t)
  = match result (body t) with
    | Raise e => if catches e then clock (handler e (clock (body t))) else clock (body t)
    | Return a => clock (body t)
    end.
Proof.
  unfold try_except, and_then. destruct (result (body t)) as [a|e].
  - reflexivity.
  - destruct (catches e); reflexivity.
Qed.

Lemma try_return {A} (body : M A) (catches : exn -> bool) (handler : exn -> M A)
      (t t' : nat) (a : A) (tr : list Event) :
  body t = mkRun (Return a) t' tr ->
  try_except body catches handler t = mkRun (Return a) t' tr.
Proof. intros H. unfold try_except. rewrite H. reflexivity. Qed.

Lemma try_caught {A} (body : M A) (catches : exn -> bool) (handler : exn -> M A)
      (t t' : nat) (e : exn) (tr : list Event) :
  body t = mkRun (Raise e) t' tr ->
  catches e = true ->
  try_except body catches handler t
  = mkRun (result (handler e t')) (clock (handler e t')) (tr ++ trace (handler e t')).
Proof. intros H Hc. unfold try_except, and_then. rewrite H. cbn. rewrite Hc. reflexivity. Qed.

Lemma try_passed {A} (body : M A) (catches : exn -> bool) (handler : exn -> M A)
      (t t' : nat) (e : exn) (tr : list Event) :
  body t = mkRun (Raise e) t' tr ->
  catches e = false ->
  try_except body catches handler t = mkRun (Raise e) t' tr.
Proof. intros H Hc. unfold try_except. rewrite H. cbn. rewrite Hc. reflexivity. Qed.

Ltac run_with H :=
  first [rewrite (bind_return _ _ _ _ _ _ H) | rewrite (bind_raise _ _ _ _ _ _ H)];
  cbn beta; cbn [result clock trace].

Ltac same_trace :=
  unfold report, printed_until, engine_ran, prepared, measured;
  cbn [map];
  repeat rewrite <- app_assoc; cbn [app]; rewrite ?app_nil_r; reflexivity.

(** *** Calls into the world *)

Section Calls.
Variable env : Env.

Lemma time_time_run (t : nat) :
  time_time env t = mkRun (Return (env_time env t)) (S t) [EvTime (env_time env t)].
Proof. reflexivity. Qed.

Lemma get_file_size_run (path : string) (t : nat) :
  get_file_size env path t
  = match env_getsize env t path with
    | Some n => mkRun (Return (inject_Z (Z.of_N n) / inject_Z (1024 * 1024))%Q) (S t)
                      [EvFs OpStat path true]
    | None => mkRun (Raise OSError) (S t) [EvFs OpStat path false]
    end.
Proof.
  unfold get_file_size, os_path_getsize, bind, and_then, tick, emit, ret, raise. simpl.
  destruct (env_getsize env t path); reflexivity.
Qed.

Lemma subprocess_Popen_run (cmd : list string) (t : nat) :
  subprocess_Popen env cmd t
  = match env_popen env t cmd with
    | Some process => mkRun (Return process) (S t) [EvPopen cmd]
    | None => mkRun (Raise OSError) (S t) [EvSpawnFailed cmd]
    end.
Proof.
  unfold subprocess_Popen, bind, and_then, tick, emit, ret, raise. simpl.
  destruct (env_popen env t cmd); reflexivity.
Qed.

Lemma print_ok (m : Msg) (t : nat) :
  env_print env t m = None ->
  print env m t = mkRun (Return tt) t [EvPrint m].
Proof. intros H. unfold print. rewrite H. reflexivity. Qed.

Lemma print_refused (m : Msg) (t : nat) (e : LibError) :
  env_print env t m = Some e ->
  print env m t = mkRun (Raise (exn_of_lib e)) t [EvPrintFailed m].
Proof. intros H. unfold print. rewrite H. reflexivity. Qed.

Lemma stderr_readline_run (lines : list string) (t : nat) :
  stderr_readline env lines t
  = match decode_error env t (hd "" lines) with
    | None => mkRun (Return (hd "" lines, List.tl lines)) t [EvReadline (hd "" lines)]
    | Some e => mkRun (Raise (exn_of_lib e)) t [EvReadlineFailed]
    end.
Proof. reflexivity. Qed.

Lemma stderr_read_run (lines : list string) (t : nat) :
  stderr_read env lines t
  = match decode_error env t (PyStr.concat_all lines) with
    | None => mkRun (Return (PyStr.concat_all lines)) t [EvRead (PyStr.concat_all lines)]
    | Some e => mkRun (Raise (exn_of_lib e)) t [EvReadFailed]
    end.
Proof. reflexivity. Qed.

Lemma decode_error_quiet (t : nat) (data : string) :
  (forall t' data', env_decode env t' data' = None) -> decode_error env t data = None.
Proof. intros H. unfold decode_error. rewrite H. now destruct (String.eqb data ""). Qed.

Lemma lib_not_called (e : LibError) : is_CalledProcessError (exn_of_lib e) = false.
Proof. destruct e; reflexivity. Qed.

Lemma skipn_tl {A} (n : nat) (l : list A) : skipn n (List.tl l) = skipn (S n) l.
Proof. destruct l; [now rewrite skipn_nil | reflexivity]. Qed.

End Calls.

(** The next print, for each of the two answers of the world. *)
Ltac split_print E :=
  match goal with
  | |- context [bind (print ?env ?m) ?k ?t] =>
      destruct (env_print env t m) as [?refusal|] eqn:E;
      [ rewrite (bind_raise (print env m) k t t _ _ (print_refused env m t _ E))
      | rewrite (bind_return (print env m) k t t tt _ (print_ok env m t E)) ];
      cbn beta; cbn [result clock trace]
  end.

(** The next print, known to succeed. *)
Ltac run_print H :=
  match goal with
  | |- context [bind (print ?env ?m) ?k ?t] =>
      rewrite (bind_return (print env m) k t t tt _ (print_ok env m t (H t m)));
      cbn beta; cbn [result clock trace]
  end.

Section Runs.
Variable env : Env.

(** The loop either sees the child's exit, having read one line per
    turn, or is left by an error while the child is alive. *)
Lemma monitor_cases (alive : nat) (status : Z) (lines : list string) (t : nat) :
  monitor env alive status lines t
  = mkRun (Return (skipn alive lines)) t (watching alive lines ++ [EvPoll (Some status)])
  \/ exists (e : LibError) (watched : list Event) (stop : Event),
       monitor env alive status lines t
       = mkRun (Raise (exn_of_lib e)) t (watched ++ [stop])
       /\ Forall is_watch watched
       /\ interruption env stop e.
Proof.
  revert lines. induction alive as [|alive IH]; intros lines.
  - left. reflexivity.
  - cbn [monitor watching].
    rewrite (bind_return _ _ t t tt [EvPoll None]) by reflexivity. cbn beta.
    cbn [result clock trace].
    pose proof (stderr_readline_run env lines t) as Hread.
    destruct (decode_error env t (hd "" lines)) as [e|] eqn:Edec.
    { right. exists e, [EvPoll None], EvReadlineFailed.
      rewrite (bind_raise _ _ _ _ _ _ Hread).
      split; [reflexivity|]. split; [repeat constructor|].
      eapply line_undecodable. exact Edec. }
    rewrite (bind_return _ _ _ _ _ _ Hread). cbn beta. cbn [fst snd result clock trace].
    destruct (is_progress (hd "" lines)) eqn:Eprog.
    + destruct (env_print env t (MsgProgress (PyStr.strip (hd "" lines)))) as [e|] eqn:Eprint.
      { right. exists e, [EvPoll None; EvReadline (hd "" lines)],
                (EvPrintFailed (MsgProgress (PyStr.strip (hd "" lines)))).
        rewrite (bind_raise _ _ _ _ _ _ (print_refused env _ t e Eprint)).
        split; [reflexivity|]. split; [repeat constructor|].
        eapply progress_refused. exact Eprint. }
      rewrite (bind_return _ _ _ _ _ _ (print_ok env _ t Eprint)). cbn beta.
      destruct (IH (List.tl lines)) as [Hok|(e & watched & stop & Hbad & Hw & Hi)].
      * left. rewrite Hok. cbn [result clock trace app]. rewrite skipn_tl. reflexivity.
      * right. exists e.
        exists (EvPoll None :: EvReadline (hd "" lines)
                  :: EvPrint (MsgProgress (PyStr.strip (hd "" lines))) :: watched), stop.
        rewrite Hbad. cbn [result clock trace app].
        split; [reflexivity|]. split; [|exact Hi].
        repeat (constructor; [exact I|]). exact Hw.
    + rewrite (bind_return _ _ t t tt []) by reflexivity. cbn beta.
      destruct (IH (List.tl lines)) as [Hok|(e & watched & stop & Hbad & Hw & Hi)].
      * left. rewrite Hok. cbn [result clock trace app]. rewrite skipn_tl. reflexivity.
      * right. exists e.
        exists (EvPoll None :: EvReadline (hd "" lines) :: watched), stop.
        rewrite Hbad. cbn [result clock trace app].
        split; [reflexivity|]. split; [|exact Hi].
        repeat (constructor; [exact I|]). exact Hw.
Qed.

Lemma quiet_no_interruption (stop : Event) (e : LibError) :
  quiet_stream env -> interruption env stop e -> False.
Proof.
  intros [Hdec Hshow] [t line e' H|t line e' H].
  - rewrite (decode_error_quiet env t line Hdec) in H. discriminate.
  - rewrite Hshow in H. discriminate.
Qed.

(** When nothing raises inside it, the loop ends at the poll that
    reports the exit, having read one line per turn. *)
Lemma monitor_run (alive : nat) (status : Z) (lines : list string) (t : nat) :
  quiet_stream env ->
  monitor env alive status lines t
  = mkRun (Return (skipn alive lines)) t
          (watching alive lines ++ [EvPoll (Some status)]).
Proof.
  intros Hquiet.
  destruct (monitor_cases alive status lines t) as [H|(e & watched & stop & _ & _ & Hi)];
    [exact H|].
  exfalso. exact (quiet_no_interruption stop e Hquiet Hi).
Qed.

Lemma subprocess_run_run (cmd : list string) (t : nat) :
  subprocess_run env cmd t
  = match env_run env t cmd with
    | Completed _ stdout => mkRun (Return stdout) (S t) [EvRun cmd]
    | RunRaises e => mkRun (Raise (exn_of_lib e)) (S t) [EvRun cmd]
    end.
Proof.
  unfold subprocess_run, bind, and_then, tick, emit, ret, raise.
  cbn [result clock trace app].
  destruct (env_run env t cmd); reflexivity.
Qed.

Lemma py_float_run (s : string) (t : nat) :
  py_float s t
  = match PyFloat.of_string s with
    | Some x => mkRun (Return x) t []
    | None => mkRun (Raise ValueError) t []
    end.
Proof. unfold py_float. destruct (PyFloat.of_string s); reflexivity. Qed.

(** The first [try] block of the probe. *)
Lemma primary_run (video_path : PurePath) (t : nat) :
  bind (subprocess_run env (primary_cmd (to_string video_path)))
       (fun stdout => bind (py_float (PyStr.strip stdout)) (fun duration => ret duration)) t
  = match env_run env t (primary_cmd (to_string video_path)) with
    | Completed _ stdout =>
        match PyFloat.of_string (PyStr.strip stdout) with
        | Some d => mkRun (Return d) (S t) [EvRun (primary_cmd (to_string video_path))]
        | None => mkRun (Raise ValueError) (S t) [EvRun (primary_cmd (to_string video_path))]
        end
    | RunRaises e =>
        mkRun (Raise (exn_of_lib e)) (S t) [EvRun (primary_cmd (to_string video_path))]
    end.
Proof.
  pose proof (subprocess_run_run (primary_cmd (to_string video_path)) t) as Hrun.
  destruct (env_run env t (primary_cmd (to_string video_path))) as [s1 out1|e1].
  - rewrite (bind_return _ _ _ _ _ _ Hrun). cbn beta.
    pose proof (py_float_run (PyStr.strip out1) (S t)) as Hf.
    destruct (PyFloat.of_string (PyStr.strip out1)) as [d|].
    + rewrite (bind_return _ _ _ _ _ _ Hf). reflexivity.
    + rewrite (bind_raise _ _ _ _ _ _ Hf). reflexivity.
  - rewrite (bind_raise _ _ _ _ _ _ Hrun). reflexivity.
Qed.

(** The handler of that block: the fallback command and its own [try]. *)
Lemma fallback_run (video_path : PurePath) (t : nat) :
  bind (subprocess_run env (fallback_cmd (to_string video_path)))
       (fun stdout =>
          try_except (py_float (PyStr.strip stdout)) is_ValueError
                     (fun _ => ret PyFloat.zero)) t
  = match env_run env t (fallback_cmd (to_string video_path)) with
    | Completed _ stdout =>
        mkRun (Return (parsed_or PyFloat.zero stdout)) (S t)
              [EvRun (fallback_cmd (to_string video_path))]
    | RunRaises e =>
        mkRun (Raise (exn_of_lib e)) (S t) [EvRun (fallback_cmd (to_string video_path))]
    end.
Proof.
  pose proof (subprocess_run_run (fallback_cmd (to_string video_path)) t) as Hrun.
  destruct (env_run env t (fallback_cmd (to_string video_path))) as [s2 out2|e2].
  - rewrite (bind_return _ _ _ _ _ _ Hrun). cbn beta.
    pose proof (py_float_run (PyStr.strip out2) (S t)) as Hf.
    unfold parsed_or.
    destruct (PyFloat.of_string (PyStr.strip out2)) as [d|].
    + rewrite (try_return _ _ _ _ _ _ _ Hf). reflexivity.
    + rewrite (try_caught _ _ _ _ _ _ _ Hf eq_refl). reflexivity.
  - rewrite (bind_raise _ _ _ _ _ _ Hrun). reflexivity.
Qed.

(** The probe, case by case on what the two commands answer. *)
Lemma get_video_duration_eq (video_path : PurePath) (t : nat) :
  get_video_duration env video_path t
  = let primary := primary_cmd (to_string video_path) in
    let fallback := fallback_cmd (to_string video_path) in
    let second :=
      match env_run env (S t) fallback with
      | Completed _ stdout =>
          mkRun (Return (parsed_or PyFloat.zero stdout)) (S (S t))
                [EvRun primary; EvRun fallback]
      | RunRaises e =>
          mkRun (Raise (exn_of_lib e)) (S (S t)) [EvRun primary; EvRun fallback]
      end in
    match env_run env t primary with
    | Completed _ stdout =>
        match PyFloat.of_string (PyStr.strip stdout) with
        | Some d => mkRun (Return d) (S t) [EvRun primary]
        | None => second
        end
    | RunRaises LibOSError => mkRun (Raise OSError) (S t) [EvRun primary]
    | RunRaises _ => second
    end.
Proof.
  unfold get_video_duration. cbv zeta.
  pose proof (primary_run video_path t) as Hp.
  pose proof (fallback_run video_path (S t)) as Hf.
  assert (Hsecond :
            forall e, (is_ValueError e || is_SubprocessError e) = true ->
             bind (subprocess_run env (primary_cmd (to_string video_path)))
                  (fun stdout => bind (py_float (PyStr.strip stdout))
                                      (fun duration => ret duration)) t
             = mkRun (Raise e) (S t) [EvRun (primary_cmd (to_string video_path))] ->
             get_video_duration env video_path t
             = match env_run env (S t) (fallback_cmd (to_string video_path)) with
               | Completed _ stdout =>
                   mkRun (Return (parsed_or PyFloat.zero stdout)) (S (S t))
                         [EvRun (primary_cmd (to_string video_path));
                          EvRun (fallback_cmd (to_string video_path))]
               | RunRaises e =>
                   mkRun (Raise (exn_of_lib e)) (S (S t))
                         [EvRun (primary_cmd (to_string video_path));
                          EvRun (fallback_cmd (to_string video_path))]
               end).
  { intros e He Hbody. unfold get_video_duration.
    rewrite (try_caught _ _ _ _ _ _ _ Hbody He). rewrite Hf.
    destruct (env_run env (S t) (fallback_cmd (to_string video_path))); reflexivity. }
  fold (get_video_duration env video_path t).
  destruct (env_run env t (primary_cmd (to_string video_path))) as [s1 out1|e1].
  - destruct (PyFloat.of_string (PyStr.strip out1)) as [d|].
    + unfold get_video_duration. apply (try_return _ _ _ _ _ _ _ Hp).
    + apply (Hsecond ValueError eq_refl Hp).
  - destruct e1.
    + unfold get_video_duration. apply (try_passed _ _ _ _ _ _ _ Hp eq_refl).
    + apply (Hsecond ValueError eq_refl Hp).
    + apply (Hsecond SubprocessError eq_refl Hp).
Qed.


(** The probe returns a duration or raises a library error, having
    run its own two commands and nothing else. *)
Lemma get_video_duration_run (video_path : PurePath) (t : nat) :
  exists (t' : nat) (probes : list Event),
    Forall (is_probe video_path) probes
    /\ ((exists d, get_video_duration env video_path t = mkRun (Return d) t' probes)
        \/ (exists e, get_video_duration env video_path t
                      = mkRun (Raise (exn_of_lib e)) t' probes)).
Proof.
  rewrite get_video_duration_eq. cbv zeta.
  assert (Hone : Forall (is_probe video_path) [EvRun (primary_cmd (to_string video_path))]).
  { constructor; [left; reflexivity | constructor]. }
  assert (Htwo : Forall (is_probe video_path)
                        [EvRun (primary_cmd (to_string video_path));
                         EvRun (fallback_cmd (to_string video_path))]).
  { constructor; [left; reflexivity|]. constructor; [right; reflexivity | constructor]. }
  assert (Hsecond : forall (r : Run PyFloat.pyfloat),
             r = match env_run env (S t) (fallback_cmd (to_string video_path)) with
                 | Completed _ stdout =>
                     mkRun (Return (parsed_or PyFloat.zero stdout)) (S (S t))
                           [EvRun (primary_cmd (to_string video_path));
                            EvRun (fallback_cmd (to_string video_path))]
                 | RunRaises e =>
                     mkRun (Raise (exn_of_lib e)) (S (S t))
                           [EvRun (primary_cmd (to_string video_path));
                            EvRun (fallback_cmd (to_string video_path))]
                 end ->
             exists (t' : nat) (probes : list Event),
               Forall (is_probe video_path) probes
               /\ ((exists d, r = mkRun (Return d) t' probes)
                   \/ (exists e, r = mkRun (Raise (exn_of_lib e)) t' probes))).
  { intros r Hr.
    destruct (env_run env (S t) (fallback_cmd (to_string video_path))) as [s2 out2|e2];
      subst r; do 2 eexists; (split; [exact Htwo|]);
      first [left; eexists; reflexivity | right; eexists; reflexivity]. }
  destruct (env_run env t (primary_cmd (to_string video_path))) as [s1 out1|e1].
  - destruct (PyFloat.of_string (PyStr.strip out1)) as [d|].
    + do 2 eexists. split; [exact Hone|]. left; eexists; reflexivity.
    + apply Hsecond. reflexivity.
  - destruct e1.
    + do 2 eexists. split; [exact Hone|]. right; exists LibOSError; reflexivity.
    + apply Hsecond. reflexivity.
    + apply Hsecond. reflexivity.
Qed.

Lemma video_run_trace (video_path : PurePath) (current_file total_files : nat)
      (r : outcome unit) (tr tr' : list Event) :
  video_run env video_path current_file total_files r tr ->
  tr = tr' ->
  video_run env video_path current_file total_files r tr'.
Proof. intros H <-. exact H. Qed.

(** Every call of [process_video] ends at one of the places listed by
    [video_run]. *)
Lemma process_video_run (video_path : PurePath) (current_file total_files t : nat) :
  video_run env video_path current_file total_files
            (result (process_video env video_path current_file total_files t))
            (trace (process_video env video_path current_file total_files t)).
Proof.
  unfold process_video. cbv zeta.
  run_with (time_time_run env t).
  split_print Eann.
  { eapply video_run_trace; [eapply announce_failed; exact Eann | reflexivity]. }
  pose proof (get_file_size_run env (to_string video_path) (S t)) as Hsize.
  destruct (env_getsize env (S t) (to_string video_path)) as [size|].
  2:{ run_with Hsize. apply size_unreadable. }
  run_with Hsize.
  destruct (get_video_duration_run video_path (S (S t)))
    as (t' & probes & Hprobes & [[d Hd]|[e He]]).
  2:{ run_with He. eapply video_run_trace; [apply probe_raised; exact Hprobes|].
      same_trace. }
  run_with Hd.
  set (mb := (inject_Z (Z.of_N size) / inject_Z (1024 * 1024))%Q).
  split_print Emb.
  { eapply video_run_trace;
      [eapply (banner_failed env video_path current_file total_files (env_time env t)
                             probes mb [] _ _ _ _ Hprobes eq_refl Emb)|].
    same_trace. }
  rewrite result_try, trace_try.
  split_print Efile.
  { rewrite lib_not_called.
    eapply video_run_trace;
      [eapply (banner_failed env video_path current_file total_files (env_time env t)
                             probes mb [MsgInputSize mb] _ _ _ _ Hprobes eq_refl Efile)|].
    same_trace. }
  split_print Estart.
  { rewrite lib_not_called.
    eapply video_run_trace;
      [eapply (banner_failed env video_path current_file total_files (env_time env t)
                             probes mb
                             [MsgInputSize mb; MsgFileOf current_file total_files]
                             _ _ _ _ Hprobes eq_refl Estart)|].
    same_trace. }
  pose proof (subprocess_Popen_run env
                (extract_cmd (to_string video_path)
                             (to_string (output_path_of video_path))) t') as Hpopen.
  destruct (env_popen env t' (extract_cmd (to_string video_path)
                                          (to_string (output_path_of video_path))))
    as [process|].
  2:{ run_with Hpopen.
      eapply video_run_trace; [apply spawn_failed; exact Hprobes|]. same_trace. }
  run_with Hpopen.
  destruct (monitor_cases (alive_polls process) (returncode process)
                          (stderr_lines process) (S t'))
    as [Hmon|(e & watched & stop & Hmon & Hwatched & Hstop)].
  2:{ run_with Hmon. rewrite lib_not_called.
      eapply video_run_trace;
        [eapply (loop_interrupted env video_path current_file total_files
                                  (env_time env t) probes mb watched stop e
                                  Hprobes Hwatched Hstop)|].
      same_trace. }
  run_with Hmon.
  destruct (Z.eqb (returncode process) 0) eqn:Eb; cbn [negb].
  - pose proof (proj1 (Z.eqb_eq _ _) Eb) as Estatus.
    run_with (time_time_run env (S t')).
    pose proof (get_file_size_run env (to_string (output_path_of video_path)) (S (S t')))
      as Hout.
    destruct (env_getsize env (S (S t')) (to_string (output_path_of video_path)))
      as [out_size|].
    2:{ run_with Hout.
        eapply video_run_trace;
          [apply (output_unreadable env video_path current_file total_files
                                    (env_time env t) (env_time env (S t')) probes mb
                                    process Hprobes Estatus)|].
        same_trace. }
    run_with Hout.
    run_with (Throughput.average_speed_value
                mb (env_time env (S t') - env_time env t) (S (S (S t')))).
    set (mb_out := (inject_Z (Z.of_N out_size) / inject_Z (1024 * 1024))%Q).
    pose (failed := report_failed env video_path current_file total_files
                                  (env_time env t) (env_time env (S t')) probes
                                  mb mb_out process).
    split_print Edone.
    { rewrite lib_not_called.
      eapply video_run_trace;
        [eapply (failed [] _ _ _ _ Hprobes Estatus eq_refl Edone)|].
      same_trace. }
    split_print Etaken.
    { rewrite lib_not_called.
      eapply video_run_trace;
        [eapply (failed [MsgCompleted] _ _ _ _ Hprobes Estatus eq_refl Etaken)|].
      same_trace. }
    split_print Espeed.
    { rewrite lib_not_called.
      eapply video_run_trace;
        [eapply (failed [MsgCompleted; _] _ _ _ _ Hprobes Estatus eq_refl Espeed)|].
      same_trace. }
    unfold print. 
    destruct (env_print env (S (S (S t'))) (MsgOutputSize mb_out)) as [e|] eqn:Eout;
      cbn [result clock trace].
    { rewrite lib_not_called.
      eapply video_run_trace;
        [eapply (failed [MsgCompleted; _; _] _ _ _ _ Hprobes Estatus eq_refl Eout)|].
      same_trace. }
    eapply video_run_trace;
      [apply (completed env video_path current_file total_files
                        (env_time env t) (env_time env (S t')) probes mb mb_out
                        process Hprobes Estatus)|].
    same_trace.
  - pose proof (proj1 (Z.eqb_neq _ _) Eb) as Estatus.
    pose proof (stderr_read_run env (skipn (alive_polls process) (stderr_lines process))
                                (S t')) as Hread.
    destruct (decode_error env (S t')
                           (PyStr.concat_all
                              (skipn (alive_polls process) (stderr_lines process))))
      as [e|] eqn:Erest.
    { run_with Hread. rewrite lib_not_called.
      eapply video_run_trace;
        [apply (rest_undecodable env video_path current_file total_files
                                 (env_time env t) probes mb process (S t') e
                                 Hprobes Estatus Erest)|].
      same_trace. }
    run_with Hread.
    split_print Edetail.
    { rewrite lib_not_called.
      eapply video_run_trace;
        [apply (detail_refused env video_path current_file total_files
                               (env_time env t) probes mb process _ _
                               Hprobes Estatus Edetail)|].
      same_trace. }
    unfold raise. cbn [result clock trace is_CalledProcessError].
    eapply video_run_trace;
      [apply (engine_failed env video_path current_file total_files
                            (env_time env t) probes mb process Hprobes Estatus)|].
    same_trace.
Qed.

End Runs.

End Trace.

(** ** Duration probe *)

Module Duration.
Import Pathlib Py Normalizer Scenario Reading.

Lemma primary_parsed (env : Env) (video_path : PurePath) (t : nat)
      (status : Z) (stdout : string) (d : PyFloat.pyfloat) :
  env_run env t (primary_cmd (to_string video_path)) = Completed status stdout ->
  PyFloat.of_string (PyStr.strip stdout) = Some d ->
  get_video_duration env video_path t
  = returned_after t d [primary_cmd (to_string video_path)].
Proof.
  intros Hrun Hparse. rewrite Trace.get_video_duration_eq. cbv zeta.
  rewrite Hrun, Hparse. reflexivity.
Qed.

Lemma primary_fell_back (env : Env) (video_path : PurePath) (t : nat)
      (status2 : Z) (stdout2 : string) :
  primary_unusable (env_run env t (primary_cmd (to_string video_path))) = true ->
  env_run env (S t) (fallback_cmd (to_string video_path))
  = Completed status2 stdout2 ->
  get_video_duration env video_path t
  = returned_after t (parsed_or PyFloat.zero stdout2)
                   [primary_cmd (to_string video_path);
                    fallback_cmd (to_string video_path)].
Proof.
  intros Hbad Hrun2. rewrite Trace.get_video_duration_eq. cbv zeta.
  rewrite Hrun2.
  destruct (env_run env t (primary_cmd (to_string video_path)))
    as [status1 stdout1|e]; cbn [primary_unusable] in Hbad.
  - destruct (PyFloat.of_string (PyStr.strip stdout1)); [discriminate|reflexivity].
  - destruct e; [discriminate | reflexivity | reflexivity].
Qed.

Lemma fallback_raised (env : Env) (video_path : PurePath) (t : nat) (e : LibError) :
  primary_unusable (env_run env t (primary_cmd (to_string video_path))) = true ->
  env_run env (S t) (fallback_cmd (to_string video_path)) = RunRaises e ->
  get_video_duration env video_path t
  = mkRun (Raise (exn_of_lib e)) (S (S t))
          [EvRun (primary_cmd (to_string video_path));
           EvRun (fallback_cmd (to_string video_path))].
Proof.
  intros Hbad Hrun2. rewrite Trace.get_video_duration_eq. cbv zeta. rewrite Hrun2.
  destruct (env_run env t (primary_cmd (to_string video_path)))
    as [status1 stdout1|e1]; cbn [primary_unusable] in Hbad.
  - destruct (PyFloat.of_string (PyStr.strip stdout1)); [discriminate | reflexivity].
  - destruct e1; [discriminate | reflexivity | reflexivity].
Qed.

Lemma primary_os_error (env : Env) (video_path : PurePath) (t : nat) :
  env_run env t (primary_cmd (to_string video_path)) = RunRaises LibOSError ->
  get_video_duration env video_path t
  = mkRun (Raise OSError) (S t) [EvRun (primary_cmd (to_string video_path))].
Proof.
  intros Hrun. rewrite Trace.get_video_duration_eq. cbv zeta. rewrite Hrun. reflexivity.
Qed.

Lemma probes_differ (video_path : string) : primary_cmd video_path <> fallback_cmd video_path.
Proof. unfold primary_cmd, fallback_cmd. congruence. Qed.

(** How often the fallback command occurs after one or both probes. *)
Lemma fallback_count_one (video_path : string) :
  run_count (fallback_cmd video_path) [EvRun (primary_cmd video_path)] = 0%nat.
Proof.
  unfold run_count, runs_of. cbn [flat_map app count_occ].
  destruct (list_eq_dec string_dec (primary_cmd video_path) (fallback_cmd video_path))
    as [E|_]; [destruct (probes_differ video_path E) | reflexivity].
Qed.

Lemma fallback_count_two (video_path : string) :
  run_count (fallback_cmd video_path)
            [EvRun (primary_cmd video_path); EvRun (fallback_cmd video_path)] = 1%nat.
Proof.
  unfold run_count, runs_of. cbn [flat_map app count_occ].
  destruct (list_eq_dec string_dec (primary_cmd video_path) (fallback_cmd video_path))
    as [E|_]; [destruct (probes_differ video_path E)|].
  destruct (list_eq_dec string_dec (fallback_cmd video_path) (fallback_cmd video_path))
    as [_|E]; [reflexivity | congruence].
Qed.

(** A primary probe that fails, and is not replaced by the fallback:
    it exits with status 1 and prints a number, which is returned; or
    it cannot be started at all, and the OS error is raised. *)
Lemma failed_primary_is_not_replaced :
  env_run failing_probe initial (primary_cmd (to_string clip)) = Completed 1 "30.5"
  /\ get_video_duration failing_probe clip initial
     = returned_after initial (PyFloat.Finite (61 # 2)) [primary_cmd (to_string clip)]
  /\ run_count (fallback_cmd (to_string clip))
               (trace (get_video_duration failing_probe clip initial)) = 0%nat
  /\ env_run no_engine initial (primary_cmd (to_string clip)) = RunRaises LibOSError
  /\ get_video_duration no_engine clip initial
     = mkRun (Raise OSError) 1 [EvRun (primary_cmd (to_string clip))]
  /\ run_count (fallback_cmd (to_string clip))
               (trace (get_video_duration no_engine clip initial)) = 0%nat.
Proof.
  assert (H1 : get_video_duration failing_probe clip initial
               = returned_after initial (PyFloat.Finite (61 # 2))
                                [primary_cmd (to_string clip)]).
  { apply (primary_parsed failing_probe clip initial 1%Z "30.5"); vm_compute; reflexivity. }
  assert (H2 : get_video_duration no_engine clip initial
               = mkRun (Raise OSError) 1 [EvRun (primary_cmd (to_string clip))]).
  { apply (primary_os_error no_engine clip initial). reflexivity. }
  split; [reflexivity|]. split; [exact H1|]. split.
  { rewrite H1. apply fallback_count_one. }
  split; [reflexivity|]. split; [exact H2|].
  rewrite H2. apply fallback_count_one.
Qed.

(** C1 (amended).  When the primary probe's output does not parse as a
    float, or running it raised a ValueError or a subprocess error,
    the fallback command is run exactly once, right after the primary
    one, and once it has run its parsed output is returned, or exactly
    0.0 when that does not parse either; whatever two probes that ran
    print, the call returns a value.  A primary probe whose output
    parses is returned as it is, whatever its exit status, without the
    fallback being run; an OS error of the primary run is raised
    without the fallback being run; an error of the fallback run is
    raised. *)
Theorem get_video_duration_fallback :
  forall (env : Env) (video_path : PurePath) (t : nat),
    let primary := primary_cmd (to_string video_path) in
    let fallback := fallback_cmd (to_string video_path) in
    let call := get_video_duration env video_path t in
    (forall status2 stdout2,
        primary_unusable (env_run env t primary) = true ->
        env_run env (S t) fallback = Completed status2 stdout2 ->
        call = returned_after t (parsed_or PyFloat.zero stdout2) [primary; fallback]
        /\ (PyFloat.of_string (PyStr.strip stdout2) = None ->
              result call = Return PyFloat.zero)
        /\ run_count fallback (trace call) = 1%nat)
    /\ (forall status1 stdout1 status2 stdout2,
           env_run env t primary = Completed status1 stdout1 ->
           env_run env (S t) fallback = Completed status2 stdout2 ->
           exists d, result call = Return d)
    /\ (forall status1 stdout1 d,
           env_run env t primary = Completed status1 stdout1 ->
           PyFloat.of_string (PyStr.strip stdout1) = Some d ->
           call = returned_after t d [primary]
           /\ run_count fallback (trace call) = 0%nat)
    /\ (env_run env t primary = RunRaises LibOSError ->
          call = mkRun (Raise OSError) (S t) [EvRun primary]
          /\ run_count fallback (trace call) = 0%nat)
    /\ (forall e,
           primary_unusable (env_run env t primary) = true ->
           env_run env (S t) fallback = RunRaises e ->
           call = mkRun (Raise (exn_of_lib e)) (S (S t)) [EvRun primary; EvRun fallback]
           /\ run_count fallback (trace call) = 1%nat).
Proof.
  intros env video_path t primary fallback call. subst primary fallback.
  split; [|split; [|split; [|split]]].
  - intros status2 stdout2 Hbad Hrun2.
    pose proof (primary_fell_back env video_path t status2 stdout2 Hbad Hrun2) as Heq.
    fold call in Heq. split; [exact Heq|]. split.
    + intros Hnone. rewrite Heq. unfold parsed_or. rewrite Hnone. reflexivity.
    + rewrite Heq. apply fallback_count_two.
  - intros status1 stdout1 status2 stdout2 Hrun1 Hrun2.
    destruct (PyFloat.of_string (PyStr.strip stdout1)) as [d|] eqn:Hparse.
    + exists d. unfold call.
      rewrite (primary_parsed env video_path t status1 stdout1 d Hrun1 Hparse).
      reflexivity.
    + eexists. unfold call. rewrite (primary_fell_back env video_path t status2 stdout2).
      * reflexivity.
      * rewrite Hrun1. cbn [primary_unusable]. rewrite Hparse. reflexivity.
      * exact Hrun2.
  - intros status1 stdout1 d Hrun1 Hparse.
    pose proof (primary_parsed env video_path t status1 stdout1 d Hrun1 Hparse) as Heq.
    fold call in Heq. split; [exact Heq|]. rewrite Heq. apply fallback_count_one.
  - intros Hrun1.
    pose proof (primary_os_error env video_path t Hrun1) as Heq.
    fold call in Heq. split; [exact Heq|]. rewrite Heq. apply fallback_count_one.
  - intros e Hbad Hrun2.
    pose proof (fallback_raised env video_path t e Hbad Hrun2) as Heq.
    fold call in Heq. split; [exact Heq|]. rewrite Heq. apply fallback_count_two.
Qed.

Lemma get_video_duration_fallback_witness :
  get_video_duration (probe_env "N/A" "12.5") clip initial
  = returned_after initial (PyFloat.Finite (25 # 2))
                   [primary_cmd (to_string clip); fallback_cmd (to_string clip)]
  /\ get_video_duration failing_probe clip initial
     = returned_after initial (PyFloat.Finite (61 # 2)) [primary_cmd (to_string clip)].
Proof.
  split.
  - destruct (get_video_duration_fallback (probe_env "N/A" "12.5") clip initial)
      as (H & _).
    destruct (H 0%Z "12.5" eq_refl eq_refl) as (Heq & _).
    exact Heq.
  - destruct (get_video_duration_fallback failing_probe clip initial)
      as (_ & _ & H & _).
    destruct (H 1%Z "30.5" (PyFloat.Finite (61 # 2)) eq_refl eq_refl) as (Heq & _).
    exact Heq.
Defined.

Example both_unparseable :
  get_video_duration (probe_env "" "N/A") clip initial
  = returned_after initial PyFloat.zero
                   [primary_cmd (to_string clip); fallback_cmd (to_string clip)].
Proof. vm_compute. reflexivity. Qed.

Example primary_enough :
  get_video_duration (probe_env "30.5" "N/A") clip initial
  = returned_after initial (PyFloat.Finite (61 # 2)) [primary_cmd (to_string clip)].
Proof. vm_compute. reflexivity. Qed.

(** A negative number on the probe's output is returned as it is. *)
Lemma duration_can_be_negative :
  get_video_duration (probe_env "-5" "") clip initial
  = returned_after initial (PyFloat.Finite (-5)) [primary_cmd (to_string clip)]
  /\ PyFloat.is_nonneg (PyFloat.Finite (-5)) = false.
Proof. split; vm_compute; reflexivity. Qed.

Example duration_can_be_nan :
  result (get_video_duration (probe_env "" "nan") clip initial) = Return PyFloat.NaN.
Proof. vm_compute. reflexivity. Qed.

(** C8 (amended).  Whatever the two probes print, once they have run
    the call returns the float parsed from the primary output, else
    the one parsed from the fallback output, else 0.0.  The code
    itself checks no sign, so the result is non-negative provided the
    numbers the probes print are. *)
Theorem get_video_duration_nonneg :
  forall (env : Env) (video_path : PurePath) (t : nat)
         (status1 status2 : Z) (stdout1 stdout2 : string),
    env_run env t (primary_cmd (to_string video_path)) = Completed status1 stdout1 ->
    env_run env (S t) (fallback_cmd (to_string video_path)) = Completed status2 stdout2 ->
    let d := parsed_or (parsed_or PyFloat.zero stdout2) stdout1 in
    result (get_video_duration env video_path t) = Return d
    /\ ((forall x, PyFloat.of_string (PyStr.strip stdout1) = Some x ->
                   PyFloat.is_nonneg x = true) ->
        (forall x, PyFloat.of_string (PyStr.strip stdout2) = Some x ->
                   PyFloat.is_nonneg x = true) ->
        PyFloat.is_nonneg d = true).
Proof.
  intros env video_path t status1 status2 stdout1 stdout2 Hrun1 Hrun2 d.
  unfold d, parsed_or at 1 3.
  destruct (PyFloat.of_string (PyStr.strip stdout1)) as [x|] eqn:Hparse1.
  - split.
    + rewrite (primary_parsed env video_path t status1 stdout1 x Hrun1 Hparse1).
      reflexivity.
    + intros Hpos1 _. apply Hpos1. reflexivity.
  - split.
    + rewrite (primary_fell_back env video_path t status2 stdout2).
      * reflexivity.
      * rewrite Hrun1. cbn [primary_unusable]. rewrite Hparse1. reflexivity.
      * exact Hrun2.
    + intros _ Hpos2. unfold parsed_or.
      destruct (PyFloat.of_string (PyStr.strip stdout2)) as [x|] eqn:Hparse2.
      * apply Hpos2. reflexivity.
      * reflexivity.
Qed.

Lemma get_video_duration_nonneg_witness :
  result (get_video_duration (probe_env "N/A" "12.5") clip initial)
  = Return (parsed_or (parsed_or PyFloat.zero "12.5") "N/A")
  /\ result (get_video_duration (probe_env "-5" "") clip initial)
     = Return (parsed_or (parsed_or PyFloat.zero "") "-5").
Proof.
  split.
  - apply (get_video_duration_nonneg (probe_env "N/A" "12.5") clip initial
             0%Z 0%Z "N/A" "12.5" eq_refl eq_refl).
  - apply (get_video_duration_nonneg (probe_env "-5" "") clip initial
             0%Z 0%Z "-5" "" eq_refl eq_refl).
Defined.

End Duration.

(** ** Paths and the output name *)

Module PathFacts.
Import Pathlib Normalizer.
Local Open Scope string_scope.

Example parse_absolute :
  parse "/videos//sub/./clip.mp4" = mkPath "/" ["videos"; "sub"; "clip.mp4"].
Proof. reflexivity. Qed.

Example parse_two_slashes : parse "//host/share" = mkPath "//" ["host"; "share"].
Proof. reflexivity. Qed.

Example parse_three_slashes : parse "///a" = mkPath "/" ["a"].
Proof. reflexivity. Qed.

Example parse_empty : to_string (parse "") = ".".
Proof. reflexivity. Qed.

Example parse_keeps_dotdot : to_string (parse "a/../b/") = "a/../b".
Proof. reflexivity. Qed.

Example suffix_plain : suffix (parse "/v/Clip.Final.MP4") = ".MP4".
Proof. reflexivity. Qed.

Example suffix_dotfile : suffix (parse "/v/.mp4") = "".
Proof. reflexivity. Qed.

Example suffix_trailing_dot : suffix (parse "/v/clip.") = "".
Proof. reflexivity. Qed.

Example stem_plain : stem (parse "/v/Clip.Final.MP4") = "Clip.Final".
Proof. reflexivity. Qed.

Example truediv_rooted_key : truediv (parse "/a/b") "/c" = parse "/c".
Proof. reflexivity. Qed.

Lemma length_append (a b : string) :
  String.length (a ++ b) = (String.length a + String.length b)%nat.
Proof. induction a as [|c a IH]; simpl; [reflexivity | now rewrite IH]. Qed.

Lemma append_empty_r (a : string) : a ++ "" = a.
Proof. induction a as [|c a IH]; simpl; [reflexivity | now rewrite IH]. Qed.

Lemma append_assoc (a b c : string) : (a ++ b) ++ c = a ++ b ++ c.
Proof. induction a as [|x a IH]; simpl; [reflexivity | now rewrite IH]. Qed.

Lemma append_inj_l (a b c : string) : a ++ b = a ++ c -> b = c.
Proof.
  induction a as [|x a IH]; simpl; intros H; [exact H|].
  injection H as H. exact (IH H).
Qed.

(** *** [split] *)

Lemma split_not_nil (sep : ascii) (s : string) : split sep s <> [].
Proof.
  destruct s as [|c s]; simpl; [discriminate|].
  destruct (Ascii.eqb c sep); [discriminate|].
  destruct (split sep s); discriminate.
Qed.

Lemma split_without_sep (sep : ascii) (s : string) :
  rfind sep s = None -> split sep s = [s].
Proof.
  induction s as [|c s IH]; simpl; intros H; [reflexivity|].
  destruct (rfind sep s) eqn:E; [discriminate|].
  destruct (Ascii.eqb c sep); [discriminate|].
  rewrite (IH eq_refl). reflexivity.
Qed.

Lemma split_pieces_without_sep (sep : ascii) (s : string) :
  Forall (fun c => rfind sep c = None) (split sep s).
Proof.
  induction s as [|c s IH]; simpl.
  - repeat constructor.
  - destruct (Ascii.eqb c sep) eqn:E.
    + constructor; [reflexivity | exact IH].
    + destruct (split sep s) as [|h t] eqn:Es.
      * exfalso. exact (split_not_nil sep s Es).
      * inversion IH as [|? ? Hh Ht]; subst.
        constructor; [|exact Ht].
        simpl. rewrite Hh, E. reflexivity.
Qed.

(** Every path the parser builds is well formed. *)
Lemma parse_wf (s : string) : wf (parse s).
Proof.
  unfold wf, parse. destruct (splitroot s) as [r rel]. simpl.
  apply Forall_forall. intros c Hc.
  apply filter_In in Hc. destruct Hc as [Hin Hkeep].
  unfold keep_component in Hkeep. apply andb_true_iff in Hkeep.
  destruct Hkeep as [H1 H2].
  apply negb_true_iff in H1. apply negb_true_iff in H2.
  apply String.eqb_neq in H1. apply String.eqb_neq in H2.
  repeat split; try assumption.
  pose proof (split_pieces_without_sep slash rel) as Hall.
  rewrite Forall_forall in Hall. exact (Hall c Hin).
Qed.

Lemma rfind_append_none (c : ascii) (a b : string) :
  rfind c a = None -> rfind c b = None -> rfind c (a ++ b) = None.
Proof.
  induction a as [|x a IH]; simpl; intros Ha Hb; [exact Hb|].
  destruct (rfind c a) eqn:E; [discriminate|].
  rewrite (IH eq_refl Hb). exact Ha.
Qed.

Lemma rfind_append_some (c : ascii) (a b : string) (i : nat) :
  rfind c b = Some i -> rfind c (a ++ b) = Some (String.length a + i)%nat.
Proof.
  intros Hb. induction a as [|x a IH]; simpl; [exact Hb|].
  rewrite IH. reflexivity.
Qed.

(** A key without separators, not empty and not ".", is one
    component. *)
Lemma parse_component (c : string) :
  valid_component c -> parse c = mkPath "" [c].
Proof.
  intros (Hne & Hdot & Hsep). unfold parse.
  assert (Hroot : splitroot c = ("", c)).
  { destruct c as [|x c]; [reflexivity|].
    destruct (Ascii.eqb x slash) eqn:E.
    - simpl in Hsep. destruct (rfind slash c); [discriminate|].
      unfold slash in *. rewrite E in Hsep. discriminate.
    - apply Ascii.eqb_neq in E. unfold slash in E.
      destruct x as [[] [] [] [] [] [] [] []]; try reflexivity.
      exfalso. apply E. reflexivity. }
  rewrite Hroot. rewrite (split_without_sep slash c Hsep). simpl.
  unfold keep_component.
  apply String.eqb_neq in Hne. apply String.eqb_neq in Hdot.
  rewrite Hne, Hdot. reflexivity.
Qed.

Lemma truediv_component (p : PurePath) (c : string) :
  valid_component c -> truediv p c = make_child_relpath p c.
Proof.
  intros Hc. unfold truediv. rewrite (parse_component c Hc). reflexivity.
Qed.

Lemma normalized_valid (nm : string) :
  rfind slash nm = None -> valid_component ("normalized_" ++ nm).
Proof.
  intros H. repeat split; try discriminate.
  apply rfind_append_none; [reflexivity | exact H].
Qed.

Lemma last_valid (t : list string) :
  Forall valid_component t -> rfind slash (last t "") = None.
Proof.
  induction 1 as [|c t Hc Ht IH]; [reflexivity|].
  destruct t as [|c' t']; [apply Hc | exact IH].
Qed.

Lemma name_without_sep (p : PurePath) : wf p -> rfind slash (name p) = None.
Proof. intros H. apply last_valid. exact H. Qed.

(** The output path is the input's directory with one more component. *)
Lemma output_path_of_eq (p : PurePath) :
  wf p -> output_path_of p = make_child_relpath (parent p) ("normalized_" ++ name p).
Proof.
  intros Hwf. unfold output_path_of.
  apply truediv_component. apply normalized_valid. apply name_without_sep. exact Hwf.
Qed.

Lemma name_child (dir : PurePath) (c : string) : name (make_child_relpath dir c) = c.
Proof. unfold name, make_child_relpath. simpl. apply last_last. Qed.

Lemma parent_child (dir : PurePath) (c : string) : parent (make_child_relpath dir c) = dir.
Proof.
  unfold parent, make_child_relpath. simpl. rewrite removelast_last.
  destruct dir; reflexivity.
Qed.

Lemma child_wf (dir : PurePath) (c : string) :
  wf dir -> valid_component c -> wf (make_child_relpath dir c).
Proof.
  intros Hd Hc. unfold wf, make_child_relpath. simpl.
  apply Forall_app. split; [exact Hd | repeat constructor; apply Hc].
Qed.

Lemma child_of_parent (p : PurePath) :
  tail p <> [] -> p = make_child_relpath (parent p) (name p).
Proof.
  intros H. destruct p as [r t]. unfold make_child_relpath, parent, name. simpl in *.
  f_equal. apply app_removelast_last. exact H.
Qed.

Lemma name_empty_iff (p : PurePath) : wf p -> (name p = "" <-> tail p = []).
Proof.
  intros Hwf. split.
  - intros Hn. destruct (tail p) as [|c t] eqn:E; [reflexivity|].
    exfalso. unfold wf in Hwf. rewrite Forall_forall in Hwf.
    assert (Hin : In (name p) (tail p)).
    { unfold name. rewrite E.
      destruct (exists_last (l := c :: t)) as (t' & x & Hx); [discriminate|].
      rewrite Hx. rewrite last_last. apply in_or_app. right. left. reflexivity. }
    destruct (Hwf _ Hin) as (Hne & _). exact (Hne Hn).
  - intros Ht. unfold name. rewrite Ht. reflexivity.
Qed.

(** *** [str] of a path below a directory *)

Lemma join_snoc (t : list string) (c : string) :
  t <> [] -> PyStr.join "/" (t ++ [c])%list = PyStr.join "/" t ++ "/" ++ c.
Proof.
  induction t as [|a t IH]; intros Hne; [congruence|].
  destruct t as [|b t].
  - reflexivity.
  - change (PyStr.join "/" ((a :: b :: t) ++ [c])%list)
      with (a ++ "/" ++ PyStr.join "/" ((b :: t) ++ [c])%list).
    rewrite IH by discriminate.
    change (PyStr.join "/" (a :: b :: t)) with (a ++ "/" ++ PyStr.join "/" (b :: t)).
    rewrite !append_assoc. reflexivity.
Qed.

Lemma to_string_nonempty (p : PurePath) :
  tail p <> [] -> to_string p = root p ++ PyStr.join "/" (tail p).
Proof.
  intros H. unfold to_string.
  destruct (tail p) as [|c t]; [congruence|].
  destruct (root p); reflexivity.
Qed.

Lemma to_string_child (dir : PurePath) (c : string) :
  to_string (make_child_relpath dir c) = dir_prefix dir ++ c.
Proof.
  rewrite to_string_nonempty.
  - unfold make_child_relpath, dir_prefix. cbn [root tail].
    destruct (tail dir) as [|a t].
    + reflexivity.
    + rewrite join_snoc by discriminate. rewrite !append_assoc. reflexivity.
  - unfold make_child_relpath. cbn [tail]. destruct (tail dir); discriminate.
Qed.

(** *** Stem and suffix *)

Lemma substring_all (s : string) : substring 0 (String.length s) s = s.
Proof. induction s as [|c s IH]; simpl; [reflexivity | now rewrite IH]. Qed.

Lemma substring_cut (i : nat) (s : string) :
  (i <= String.length s)%nat ->
  substring 0 i s ++ substring i (String.length s - i) s = s.
Proof.
  revert s. induction i as [|i IH]; intros s Hi.
  - rewrite Nat.sub_0_r, substring_all. destruct s; reflexivity.
  - destruct s as [|c s]; simpl in Hi; [lia|].
    simpl. rewrite IH by lia. reflexivity.
Qed.

Lemma rfind_lt (c : ascii) (s : string) (i : nat) :
  rfind c s = Some i -> (i < String.length s)%nat.
Proof.
  revert i. induction s as [|a s IH]; simpl; intros i H; [discriminate|].
  destruct (rfind c s) as [j|].
  - injection H as <-. specialize (IH j eq_refl). lia.
  - destruct (Ascii.eqb a c); [|discriminate]. injection H as <-. lia.
Qed.

Lemma suffix_start_lt (nm : string) (i : nat) :
  suffix_start nm = Some i -> (0 < i /\ i < String.length nm - 1)%nat.
Proof.
  unfold suffix_start. destruct (rfind dot nm) as [j|]; [|discriminate].
  destruct ((0 <? j) && (j <? String.length nm - 1))%nat eqn:E; [|discriminate].
  intros H. injection H as <-.
  apply andb_true_iff in E. destruct E as [E1 E2].
  apply Nat.ltb_lt in E1. apply Nat.ltb_lt in E2. lia.
Qed.

(** [stem + suffix == name], as pathlib promises. *)
Lemma stem_suffix (nm : string) : stem_of_name nm ++ suffix_of_name nm = nm.
Proof.
  unfold stem_of_name, suffix_of_name.
  destruct (suffix_start nm) as [i|] eqn:E.
  - apply substring_cut. apply suffix_start_lt in E. lia.
  - apply append_empty_r.
Qed.

Lemma substring_skip (pre s : string) (i m : nat) :
  substring (String.length pre + i) m (pre ++ s) = substring i m s.
Proof. induction pre as [|c pre IH]; simpl; [reflexivity | exact IH]. Qed.

(** A name that has a suffix keeps it under any prefix. *)
Lemma suffix_under_prefix (pre nm : string) :
  suffix_of_name nm <> "" -> suffix_of_name (pre ++ nm) = suffix_of_name nm.
Proof.
  unfold suffix_of_name.
  destruct (suffix_start nm) as [i|] eqn:E; [|congruence]. intros _.
  pose proof (suffix_start_lt nm i E) as [Hi1 Hi2].
  assert (Hr : rfind dot nm = Some i).
  { unfold suffix_start in E. destruct (rfind dot nm) as [j|]; [|discriminate].
    destruct ((0 <? j) && (j <? String.length nm - 1))%nat; [|discriminate].
    exact E. }
  unfold suffix_start.
  rewrite (rfind_append_some dot pre nm i Hr), length_append.
  replace ((0 <? String.length pre + i)
           && (String.length pre + i <? String.length pre + String.length nm - 1))%nat
    with true.
  - replace (String.length pre + String.length nm - (String.length pre + i))%nat
      with (String.length nm - i)%nat by lia.
    apply substring_skip.
  - symmetry. apply andb_true_iff. split; apply Nat.ltb_lt; lia.
Qed.

(** C5.  For an input <dir>/<stem><ext> the output path is
    <dir>/normalized_<stem><ext>: the same directory, the one fixed
    prefix, the extension kept.  The rule is a function of the input
    path alone, so a second run on the same input names the same
    output, which is never normalized_normalized_<stem><ext>. *)
Theorem output_naming :
  forall (dir : PurePath) (nm : string),
    valid_component nm ->
    let video_path := make_child_relpath dir nm in
    let out := output_path_of video_path in
    nm = stem video_path ++ suffix video_path
    /\ out = make_child_relpath dir ("normalized_" ++ stem video_path ++ suffix video_path)
    /\ parent out = parent video_path
    /\ to_string video_path = dir_prefix dir ++ stem video_path ++ suffix video_path
    /\ to_string out
       = dir_prefix dir ++ "normalized_" ++ stem video_path ++ suffix video_path
    /\ (suffix video_path <> "" -> suffix out = suffix video_path)
    /\ name out <> "normalized_normalized_" ++ stem video_path ++ suffix video_path.
Proof.
  intros dir nm Hnm video_path out.
  assert (Hname : name video_path = nm) by apply name_child.
  assert (Hsplit : stem video_path ++ suffix video_path = nm).
  { unfold stem, suffix. rewrite Hname. apply stem_suffix. }
  assert (Hout : out = make_child_relpath dir ("normalized_" ++ nm)).
  { unfold out, output_path_of. rewrite Hname.
    unfold video_path. rewrite parent_child.
    apply truediv_component. apply normalized_valid. apply Hnm. }
  rewrite Hsplit.
  split; [|split; [|split; [|split; [|split; [|split]]]]].
  - reflexivity.
  - exact Hout.
  - rewrite Hout. unfold video_path. rewrite !parent_child. reflexivity.
  - apply to_string_child.
  - rewrite Hout. apply to_string_child.
  - intros Hsuf. rewrite Hout. unfold suffix in *. rewrite name_child.
    rewrite Hname in *. apply (suffix_under_prefix "normalized_" nm). exact Hsuf.
  - rewrite Hout, name_child. intros Heq.
    apply (f_equal String.length) in Heq. simpl in Heq. lia.
Qed.

Lemma output_naming_witness :
  output_path_of (parse "/videos/clip.mp4") = parse "/videos/normalized_clip.mp4".
Proof.
  destruct (output_naming (parse "/videos") "clip.mp4") as (_ & H & _).
  - repeat split; discriminate.
  - exact H.
Defined.

Example hidden_file_output :
  to_string (output_path_of (parse "a/b/.hidden")) = "a/b/normalized_.hidden".
Proof. reflexivity. Qed.

Example prefixed_input_output :
  to_string (output_path_of (parse "/v/normalized_clip.mkv"))
  = "/v/normalized_normalized_clip.mkv".
Proof. reflexivity. Qed.

End PathFacts.


(** ** One file: the invoker *)

(** ** One file: the invoker *)

Module Invoker.
Import Pathlib Py Normalizer Scenario.

(** *** Phases *)




Lemma watching_is_watch (alive : nat) (lines : list string) :
  Forall is_watch (watching alive lines).
Proof.
  revert lines. induction alive as [|alive IH]; intros lines; [constructor|].
  cbn [watching]. constructor; [exact I|]. constructor; [exact I|].
  apply Forall_app. split; [|apply IH].
  destruct (is_progress (hd "" lines)); repeat constructor.
Qed.








(** *** Exit status *)

Lemma exit_status_app (a b : list Event) :
  exit_status (a ++ b)
  = match exit_status a with
    | Some status => Some status
    | None => exit_status b
    end.
Proof.
  induction a as [|e a IH]; [reflexivity|].
  destruct e as [| | | | |[status|]| | | | | |]; cbn [app exit_status]; try exact IH.
  reflexivity.
Qed.

Lemma exit_status_none (l : list Event) : Forall no_exit l -> exit_status l = None.
Proof.
  induction 1 as [|e l He _ IH]; [reflexivity|].
  destruct e as [| | | | |[status|]| | | | | |]; try exact IH. discriminate He.
Qed.

Lemma no_exit_probes (p : PurePath) (probes : list Event) :
  Forall (is_probe p) probes -> Forall no_exit probes.
Proof.
  intros H. eapply Forall_impl; [|exact H]. intros e [->| ->]; reflexivity.
Qed.

Lemma no_exit_watched (l : list Event) : Forall is_watch l -> Forall no_exit l.
Proof.
  intros H. eapply Forall_impl; [|exact H].
  intros e He. destruct e as [| | | | |[s|]| | |m| | |]; try contradiction; reflexivity.
Qed.

Lemma no_exit_printed_until (shown : list Msg) (m : Msg) :
  Forall no_exit (printed_until shown m).
Proof.
  unfold printed_until. apply Forall_app. split.
  - induction shown; constructor; [reflexivity | assumption].
  - constructor; [reflexivity | constructor].
Qed.

Lemma exit_status_prepared (p : PurePath) (i n : nat) (now : Q) (probes : list Event) (mb : Q) :
  Forall (is_probe p) probes -> exit_status (prepared p i n now probes mb) = None.
Proof.
  intros H. apply exit_status_none. unfold prepared, measured.
  apply Forall_app. split; [repeat constructor|].
  apply Forall_app. split; [exact (no_exit_probes p probes H) | repeat constructor].
Qed.

Lemma exit_status_engine_ran (p : PurePath) (i n : nat) (now : Q) (probes : list Event)
      (mb : Q) (process : Proc) (after : list Event) :
  Forall (is_probe p) probes ->
  exit_status (engine_ran p i n now probes mb process ++ after)
  = Some (returncode process).
Proof.
  intros H. unfold engine_ran.
  rewrite exit_status_app, exit_status_app, (exit_status_prepared p i n now probes mb H).
  cbn [app exit_status].
  rewrite exit_status_app,
    (exit_status_none _ (no_exit_watched _ (watching_is_watch _ _))).
  reflexivity.
Qed.

(** *** Events of a turn *)

Lemma own_event_in_turn (i n : nat) (p : PurePath) (e : Event) :
  own_event i n p e -> in_turn i n p e.
Proof.
  destruct e as [| | | | | | | |m|m| |]; try (intros H; exact H);
    destruct m; intros H; try exact H; contradiction.
Qed.

Lemma own_probes (i n : nat) (p : PurePath) (probes : list Event) :
  Forall (is_probe p) probes -> Forall (own_event i n p) probes.
Proof.
  intros H. eapply Forall_impl; [|exact H].
  intros e [->| ->]; [left | right]; reflexivity.
Qed.

Lemma own_watched (i n : nat) (p : PurePath) (l : list Event) :
  Forall is_watch l -> Forall (own_event i n p) l.
Proof.
  intros H. eapply Forall_impl; [|exact H].
  intros e He. destruct e as [| | | | |[s|]| | |m| | |]; try contradiction; try exact I.
  destruct m; try contradiction. exact I.
Qed.

Lemma own_interruption (env : Env) (i n : nat) (p : PurePath) (stop : Event) (e : LibError) :
  interruption env stop e -> own_event i n p stop.
Proof. intros [t line e' _|t line e' _]; exact I. Qed.

Lemma own_printed_until (i n : nat) (p : PurePath)
      (msgs shown : list Msg) (m : Msg) (unshown : list Msg) :
  msgs = shown ++ m :: unshown ->
  Forall (own_msg i n) msgs ->
  Forall (own_event i n p) (printed_until shown m).
Proof.
  intros -> H. apply Forall_app in H. destruct H as [Hshown Hrest].
  unfold printed_until. apply Forall_app. split.
  - induction Hshown; constructor; assumption.
  - constructor; [|constructor]. apply Forall_inv in Hrest. exact Hrest.
Qed.

Lemma own_banner (i n : nat) (mb : Q) : Forall (own_msg i n) (banner i n mb).
Proof. repeat constructor. Qed.

Lemma own_report_msgs (i n : nat) (now later mb_in mb_out : Q) :
  Forall (own_msg i n) (report_msgs now later mb_in mb_out).
Proof. repeat constructor. Qed.

Ltac own_events :=
  repeat first
    [ apply Forall_nil
    | eapply own_printed_until;
      [eassumption | first [apply own_banner | apply own_report_msgs]]
    | apply Forall_cons
    | apply Forall_app; split
    | apply own_probes; assumption
    | apply own_watched; assumption
    | apply own_watched; apply watching_is_watch
    | eapply own_interruption; eassumption
    | exact I
    | reflexivity
    | split; [reflexivity | first [left; reflexivity | right; reflexivity]]
    | split; reflexivity ].

(** Whichever way a call goes: the clock is read, the file announced,
    and the rest are events of this file. *)
Lemma video_run_own (env : Env) (p : PurePath) (i n : nat)
      (r : outcome unit) (tr : list Event) :
  video_run env p i n r tr ->
  exists now ann rest,
    tr = EvTime now :: ann :: rest
    /\ announces p ann
    /\ Forall (own_event i n p) rest.
Proof.
  intros H.
  destruct H as [now t e Hann
                |now
                |now probes e Hp
                |now probes mb shown m unshown t e Hp Hmsgs Hrefused
                |now probes mb Hp
                |now probes mb watched stop e Hp Hw Hstop
                |now probes mb process t e Hp Hst Hrest
                |now probes mb process t e Hp Hst error_message Hrefused
                |now probes mb process Hp Hst
                |now later probes mb process Hp Hst
                |now later probes mb_in mb_out process shown m unshown t e Hp Hst Hmsgs Hrefused
                |now later probes mb_in mb_out process Hp Hst];
    exists now; do 2 eexists;
    (split; [unfold engine_ran, prepared, measured; cbn [app]; reflexivity|]);
    (split; [first [left; reflexivity | right; reflexivity]|]);
    unfold report; own_events.
Qed.

Lemma video_run_turn (env : Env) (p : PurePath) (i n : nat)
      (r : outcome unit) (tr : list Event) :
  video_run env p i n r tr -> turn_of i n p tr.
Proof.
  intros H. destruct (video_run_own env p i n r tr H) as (now & ann & rest & Htr & Hann & Hrest).
  exists now, ann, rest. split; [exact Htr|]. split; [exact Hann|].
  eapply Forall_impl; [|exact Hrest]. apply own_event_in_turn.
Qed.

(** Nothing in a turn writes or removes a file, and the engine is
    given the computed output path as its target. *)
Lemma turn_harmless (p : PurePath) (i n : nat) (seg : list Event) :
  turn_of i n p seg -> Forall (harmless p) seg.
Proof.
  intros (now & ann & rest & -> & Hann & Hrest).
  constructor; [exact I|]. constructor; [destruct Hann as [->| ->]; exact I|].
  eapply Forall_impl; [|exact Hrest].
  intros e He. destruct e as [| | | | | | | |m|m| |]; try exact I.
  - cbn [in_turn own_event] in He. exact (proj1 He).
  - cbn [in_turn own_event] in He. subst cmd. reflexivity.
Qed.

Lemma not_plain_lib (e : LibError) (msg : string) :
  Raise (exn_of_lib e) = (Raise (PlainException msg) : outcome unit) -> False.
Proof. destruct e; discriminate. Qed.

Lemma engine_ran_split (p : PurePath) (i n : nat) (now : Q) (probes : list Event)
      (mb : Q) (process : Proc) (after : list Event) :
  engine_ran p i n now probes mb process ++ after
  = (prepared p i n now probes mb
       ++ [EvPopen (extract_cmd (to_string p) (to_string (output_path_of p)))]
       ++ watching (alive_polls process) (stderr_lines process))
      ++ EvPoll (Some (returncode process)) :: after.
Proof. unfold engine_ran. repeat rewrite <- app_assoc. reflexivity. Qed.

(** The facts about the engine's exit, for any way a call goes. *)
Lemma video_run_outcome (env : Env) (p : PurePath) (i n : nat)
      (res : outcome unit) (tr : list Event) :
  video_run env p i n res tr ->
  (forall status,
      exit_status tr = Some status -> status <> 0%Z ->
      exists before,
        (exists msg,
            res = Raise (PlainException msg)
            /\ tr = before ++ [EvPoll (Some status); EvRead msg;
                               EvPrint (MsgFFmpegError msg)])
        \/ (exists e t msg,
               res = Raise (exn_of_lib e)
               /\ decode_error env t msg = Some e
               /\ tr = before ++ [EvPoll (Some status); EvReadFailed])
        \/ (exists e t msg,
               res = Raise (exn_of_lib e)
               /\ env_print env t (MsgFFmpegError msg) = Some e
               /\ tr = before ++ [EvPoll (Some status); EvRead msg;
                                  EvPrintFailed (MsgFFmpegError msg)]))
  /\ (forall msg,
        res = Raise (PlainException msg) ->
        exists status before,
          status <> 0%Z
          /\ exit_status tr = Some status
          /\ tr = before ++ [EvPoll (Some status); EvRead msg; EvPrint (MsgFFmpegError msg)])
  /\ (exit_status tr = Some 0%Z ->
        (exists before now later mb_in mb_out,
            res = Return tt
            /\ tr = before ++ [EvTime later;
                               EvFs OpStat (to_string (output_path_of p)) true]
                          ++ report now later mb_in mb_out)
        \/ (exists before later,
               res = Raise OSError
               /\ tr = before ++ [EvTime later;
                                  EvFs OpStat (to_string (output_path_of p)) false])
        \/ (exists before now later mb_in mb_out shown m unshown e t,
               res = Raise (exn_of_lib e)
               /\ report_msgs now later mb_in mb_out = shown ++ m :: unshown
               /\ env_print env t m = Some e
               /\ tr = before ++ [EvTime later;
                                  EvFs OpStat (to_string (output_path_of p)) true]
                             ++ printed_until shown m))
  /\ (res = Return tt -> exit_status tr = Some 0%Z).
Proof.
  intros H.
  assert (Hearly : forall (res' : outcome unit) (tr' : list Event),
             exit_status tr' = None ->
             (forall msg, res' = Raise (PlainException msg) -> False) ->
             res' <> Return tt ->
             (forall status,
                 exit_status tr' = Some status -> status <> 0%Z ->
                 exists before,
                   (exists msg,
                       res' = Raise (PlainException msg)
                       /\ tr' = before ++ [EvPoll (Some status); EvRead msg;
                                           EvPrint (MsgFFmpegError msg)])
                   \/ (exists e t msg,
                          res' = Raise (exn_of_lib e)
                          /\ decode_error env t msg = Some e
                          /\ tr' = before ++ [EvPoll (Some status); EvReadFailed])
                   \/ (exists e t msg,
                          res' = Raise (exn_of_lib e)
                          /\ env_print env t (MsgFFmpegError msg) = Some e
                          /\ tr' = before ++ [EvPoll (Some status); EvRead msg;
                                              EvPrintFailed (MsgFFmpegError msg)]))
             /\ (forall msg,
                    res' = Raise (PlainException msg) ->
                    exists status before,
                      status <> 0%Z
                      /\ exit_status tr' = Some status
                      /\ tr' = before ++ [EvPoll (Some status); EvRead msg;
                                          EvPrint (MsgFFmpegError msg)])
             /\ (exit_status tr' = Some 0%Z ->
                   (exists before now later mb_in mb_out,
                       res' = Return tt
                       /\ tr' = before ++ [EvTime later;
                                           EvFs OpStat (to_string (output_path_of p)) true]
                                      ++ report now later mb_in mb_out)
                   \/ (exists before later,
                          res' = Raise OSError
                          /\ tr' = before ++ [EvTime later;
                                              EvFs OpStat (to_string (output_path_of p))
                                                   false])
                   \/ (exists before now later mb_in mb_out shown m unshown e t,
                          res' = Raise (exn_of_lib e)
                          /\ report_msgs now later mb_in mb_out = shown ++ m :: unshown
                          /\ env_print env t m = Some e
                          /\ tr' = before ++ [EvTime later;
                                              EvFs OpStat (to_string (output_path_of p))
                                                   true]
                                         ++ printed_until shown m))
             /\ (res' = Return tt -> exit_status tr' = Some 0%Z)).
  { intros res' tr' Hnone Hplain Hret. rewrite Hnone.
    split; [|split; [|split]].
    - intros status Hs. discriminate Hs.
    - intros msg Hmsg. destruct (Hplain msg Hmsg).
    - intros Hs. discriminate Hs.
    - intros Hr. destruct (Hret Hr). }
  destruct H as [now t e Hann
                |now
                |now probes e Hp
                |now probes mb shown m unshown t e Hp Hmsgs Hrefused
                |now probes mb Hp
                |now probes mb watched stop e Hp Hw Hstop
                |now probes mb process t e Hp Hst Hrest
                |now probes mb process t e Hp Hst error_message Hrefused
                |now probes mb process Hp Hst
                |now later probes mb process Hp Hst
                |now later probes mb_in mb_out process shown m unshown t e Hp Hst Hmsgs Hrefused
                |now later probes mb_in mb_out process Hp Hst].
  - apply Hearly; [reflexivity | intros msg; apply not_plain_lib | discriminate].
  - apply Hearly; [reflexivity | discriminate | discriminate].
  - apply Hearly; [|intros msg; apply not_plain_lib | discriminate].
    unfold measured. cbn [app exit_status].
    apply exit_status_none. exact (no_exit_probes p probes Hp).
  - apply Hearly; [|intros msg; apply not_plain_lib | discriminate].
    unfold measured. cbn [app exit_status].
    apply exit_status_none. apply Forall_app.
    split; [exact (no_exit_probes p probes Hp) | apply no_exit_printed_until].
  - apply Hearly; [|discriminate | discriminate].
    rewrite exit_status_app, (exit_status_prepared p i n now probes mb Hp). reflexivity.
  - apply Hearly; [|intros msg; apply not_plain_lib | discriminate].
    rewrite exit_status_app, (exit_status_prepared p i n now probes mb Hp).
    cbn [app exit_status].
    apply exit_status_none. apply Forall_app. split; [exact (no_exit_watched watched Hw)|].
    constructor; [|constructor]. destruct Hstop; reflexivity.
  - rewrite (exit_status_engine_ran p i n now probes mb process _ Hp).
    split; [|split; [|split]].
    + intros status Hs _. injection Hs as <-.
      eexists. right. left. exists e, t. eexists.
      split; [reflexivity|]. split; [exact Hrest|]. apply engine_ran_split.
    + intros msg Hmsg. destruct (not_plain_lib e msg Hmsg).
    + intros Hs. injection Hs as Hs. contradiction.
    + discriminate.
  - rewrite (exit_status_engine_ran p i n now probes mb process _ Hp).
    split; [|split; [|split]].
    + intros status Hs _. injection Hs as <-.
      eexists. right. right. exists e, t, error_message.
      split; [reflexivity|]. split; [exact Hrefused|]. apply engine_ran_split.
    + intros msg Hmsg. destruct (not_plain_lib e msg Hmsg).
    + intros Hs. injection Hs as Hs. contradiction.
    + discriminate.
  - rewrite (exit_status_engine_ran p i n now probes mb process _ Hp).
    split; [|split; [|split]].
    + intros status Hs _. injection Hs as <-.
      eexists. left. exists error_message.
      split; [reflexivity|]. apply engine_ran_split.
    + intros msg Hmsg. injection Hmsg as <-.
      exists (returncode process). eexists.
      split; [exact Hst|]. split; [reflexivity | apply engine_ran_split].
    + intros Hs. injection Hs as Hs. contradiction.
    + discriminate.
  - rewrite (exit_status_engine_ran p i n now probes mb process _ Hp).
    split; [|split; [|split]].
    + intros status Hs Hne. injection Hs as <-. contradiction.
    + discriminate.
    + intros _. right. left. do 2 eexists. split; reflexivity.
    + discriminate.
  - rewrite (exit_status_engine_ran p i n now probes mb_in process _ Hp).
    split; [|split; [|split]].
    + intros status Hs Hne. injection Hs as <-. contradiction.
    + intros msg Hmsg. destruct (not_plain_lib e msg Hmsg).
    + intros _. right. right.
      exists (engine_ran p i n now probes mb_in process), now, later, mb_in, mb_out,
             shown, m, unshown, e, t.
      split; [reflexivity|]. split; [exact Hmsgs|]. split; [exact Hrefused | reflexivity].
    + intros Hr. destruct e; discriminate Hr.
  - rewrite (exit_status_engine_ran p i n now probes mb_in process _ Hp).
    split; [|split; [|split]].
    + intros status Hs Hne. injection Hs as <-. contradiction.
    + discriminate.
    + intros _. left. do 5 eexists. split; reflexivity.
    + intros _. rewrite Hst. reflexivity.
Qed.

(** With exit status 0 and the output file gone, the call raises. *)
Lemma zero_exit_can_raise :
  exit_status (trace (process_video lost_output clip 1 1 initial)) = Some 0%Z
  /\ result (process_video lost_output clip 1 1 initial) = Raise OSError.
Proof. split; vm_compute; reflexivity. Qed.

(** C6 (amended).  The invoker raises the engine failure, carrying what
    was left on the diagnostic stream, only when the child has exited
    with a non-zero status; and after such an exit it does raise it,
    unless reading what is left or printing it raises, in which case
    that error is raised instead.  On exit status 0 it returns
    normally with the full report provided the size of the output file
    can be read and the four lines of the report printed; otherwise
    the error of that read or print is what it raises.  It never
    removes or writes a file itself, so nothing is cleaned up. *)
Theorem engine_outcome :
  forall (env : Env) (p : PurePath) (i n t : nat),
    let r := process_video env p i n t in
    (forall status,
        exit_status (trace r) = Some status -> status <> 0%Z ->
        exists before,
          (exists msg,
              result r = Raise (PlainException msg)
              /\ trace r = before ++ [EvPoll (Some status); EvRead msg;
                                     EvPrint (MsgFFmpegError msg)])
          \/ (exists e t' msg,
                 result r = Raise (exn_of_lib e)
                 /\ decode_error env t' msg = Some e
                 /\ trace r = before ++ [EvPoll (Some status); EvReadFailed])
          \/ (exists e t' msg,
                 result r = Raise (exn_of_lib e)
                 /\ env_print env t' (MsgFFmpegError msg) = Some e
                 /\ trace r = before ++ [EvPoll (Some status); EvRead msg;
                                        EvPrintFailed (MsgFFmpegError msg)]))
    /\ (forall msg,
          result r = Raise (PlainException msg) ->
          exists status before,
            status <> 0%Z
            /\ exit_status (trace r) = Some status
            /\ trace r
               = before ++ [EvPoll (Some status); EvRead msg;
                            EvPrint (MsgFFmpegError msg)])
    /\ (exit_status (trace r) = Some 0%Z ->
          (exists before now later mb_in mb_out,
              result r = Return tt
              /\ trace r
                 = before ++ [EvTime later;
                              EvFs OpStat (to_string (output_path_of p)) true]
                          ++ report now later mb_in mb_out)
          \/ (exists before later,
                 result r = Raise OSError
                 /\ trace r
                    = before ++ [EvTime later;
                                 EvFs OpStat (to_string (output_path_of p)) false])
          \/ (exists before now later mb_in mb_out shown m unshown e t',
                 result r = Raise (exn_of_lib e)
                 /\ report_msgs now later mb_in mb_out = shown ++ m :: unshown
                 /\ env_print env t' m = Some e
                 /\ trace r
                    = before ++ [EvTime later;
                                 EvFs OpStat (to_string (output_path_of p)) true]
                             ++ printed_until shown m))
    /\ (result r = Return tt -> exit_status (trace r) = Some 0%Z)
    /\ Forall (harmless p) (trace r).
Proof.
  intros env p i n t r.
  pose proof (Trace.process_video_run env p i n t) as Hrun. fold r in Hrun.
  destruct (video_run_outcome env p i n _ _ Hrun) as (H1 & H2 & H3 & H4).
  split; [exact H1|]. split; [exact H2|]. split; [exact H3|]. split; [exact H4|].
  apply (turn_harmless p i n). apply (video_run_turn env p i n (result r)). exact Hrun.
Qed.

Example engine_failure_run :
  result (process_video studio (parse "/videos/b.mkv") 2 3 initial)
  = Raise (PlainException "b.mkv: Invalid data")
  /\ exit_status (trace (process_video studio (parse "/videos/b.mkv") 2 3 initial))
     = Some 1%Z.
Proof. split; vm_compute; reflexivity. Qed.

Lemma engine_outcome_witness :
  exists status before,
    status <> 0%Z
    /\ exit_status (trace (process_video studio b_mkv 2 3 initial)) = Some status
    /\ trace (process_video studio b_mkv 2 3 initial)
       = before ++ [EvPoll (Some status); EvRead "b.mkv: Invalid data";
                    EvPrint (MsgFFmpegError "b.mkv: Invalid data")].
Proof.
  destruct (engine_outcome studio b_mkv 2 3 initial) as (_ & H & _).
  apply (H "b.mkv: Invalid data"). vm_compute. reflexivity.
Defined.

(** *** The output is another file *)

Lemma prefixed_longer (nm : string) :
  String.length ("normalized_" ++ nm) = (11 + String.length nm)%nat.
Proof. reflexivity. Qed.

Lemma prefixed_differs (nm : string) : ("normalized_" ++ nm)%string <> nm.
Proof.
  intros H. apply (f_equal String.length) in H.
  rewrite prefixed_longer in H. lia.
Qed.

(** C10.  For an input path with a non-empty file name the output path
    is another path: its file name is the input's with eleven more
    characters in front.  The engine is never told to write over the
    input, and the only thing the invoker itself does to files is to
    read their size. *)
Theorem output_is_not_input :
  forall (p : PurePath),
    wf p -> name p <> "" ->
    output_path_of p <> p
    /\ String.length (name (output_path_of p)) = (11 + String.length (name p))%nat
    /\ to_string (output_path_of p) <> to_string p
    /\ (forall (env : Env) (i n t : nat) (e : Event),
           In e (trace (process_video env p i n t)) ->
           match e with
           | EvFs op _ _ => op = OpStat
           | EvPopen cmd => overwrite_target cmd <> to_string p
           | _ => True
           end).
Proof.
  intros p Hwf Hname.
  assert (Htail : tail p <> []).
  { intros Ht. apply Hname. apply (PathFacts.name_empty_iff p Hwf). exact Ht. }
  pose proof (PathFacts.output_path_of_eq p Hwf) as Hout.
  pose proof (PathFacts.child_of_parent p Htail) as Hp.
  assert (Hstr : to_string (output_path_of p) <> to_string p).
  { pose proof (PathFacts.to_string_child (parent p) (name p)) as Hin.
    rewrite <- Hp in Hin.
    rewrite Hout, PathFacts.to_string_child, Hin.
    intros Heq. apply PathFacts.append_inj_l in Heq.
    exact (prefixed_differs _ Heq). }
  split; [|split; [|split]].
  - intros Heq. apply Hstr. rewrite Heq. reflexivity.
  - rewrite Hout, PathFacts.name_child. apply prefixed_longer.
  - exact Hstr.
  - intros env i n t e Hin.
    pose proof (turn_harmless p i n _
                  (video_run_turn env p i n _ _ (Trace.process_video_run env p i n t)))
      as Hall.
    rewrite Forall_forall in Hall. specialize (Hall e Hin).
    destruct e; try exact I.
    + exact Hall.
    + cbn [harmless] in Hall. rewrite Hall. exact Hstr.
Qed.

Lemma output_is_not_input_witness :
  output_path_of clip <> clip
  /\ to_string (output_path_of clip) <> to_string clip.
Proof.
  destruct (output_is_not_input clip) as (H1 & _ & H2 & _).
  - repeat constructor; discriminate.
  - discriminate.
  - split; [exact H1 | exact H2].
Defined.

End Invoker.

(** ** The batch *)

Module Batch.
Import Pathlib Py Normalizer Scenario.
Local Open Scope py_scope.

(** *** Reading turns *)









(** *** One file *)

Section Loop.
Variable env : Env.

(** The two prints of the handler: either both are written, or the
    first one that is refused raises. *)
Lemma handler_run (p : PurePath) (e : exn) (t : nat) :
  bind (print env (MsgErrorProcessing p e)) (fun _ => print env (MsgFullDetails e)) t
  = match env_print env t (MsgErrorProcessing p e) with
    | Some refusal =>
        mkRun (Raise (exn_of_lib refusal)) t [EvPrintFailed (MsgErrorProcessing p e)]
    | None =>
        match env_print env t (MsgFullDetails e) with
        | Some refusal =>
            mkRun (Raise (exn_of_lib refusal)) t
                  [EvPrint (MsgErrorProcessing p e); EvPrintFailed (MsgFullDetails e)]
        | None =>
            mkRun (Return tt) t
                  [EvPrint (MsgErrorProcessing p e); EvPrint (MsgFullDetails e)]
        end
    end.
Proof.
  unfold bind, and_then, print.
  destruct (env_print env t (MsgErrorProcessing p e)); cbn [result clock trace];
    [reflexivity|].
  destruct (env_print env t (MsgFullDetails e)); reflexivity.
Qed.

Lemma handler_clock (p : PurePath) (e : exn) (t : nat) :
  clock (bind (print env (MsgErrorProcessing p e)) (fun _ => print env (MsgFullDetails e)) t)
  = t.
Proof.
  rewrite handler_run.
  destruct (env_print env t (MsgErrorProcessing p e)); [reflexivity|].
  destruct (env_print env t (MsgFullDetails e)); reflexivity.
Qed.



(** The per-file boundary: an error of [process_video] is handed to
    the handler, whose two prints decide how the turn ends. *)
Lemma process_one_run (total i : nat) (p : PurePath) (t : nat) :
  result (process_one env total i p t)
  = match result (process_video env p i total t) with
    | Return _ => Return tt
    | Raise e =>
        result (bind (print env (MsgErrorProcessing p e))
                     (fun _ => print env (MsgFullDetails e))
                     (clock (process_video env p i total t)))
    end
  /\ clock (process_one env total i p t) = clock (process_video env p i total t)
  /\ trace (process_one env total i p t)
     = trace (process_video env p i total t)
         ++ match result (process_video env p i total t) with
            | Return _ => []
            | Raise e =>
                trace (bind (print env (MsgErrorProcessing p e))
                            (fun _ => print env (MsgFullDetails e))
                            (clock (process_video env p i total t)))
            end.
Proof.
  unfold process_one.
  rewrite Trace.result_try, Trace.clock_try, Trace.trace_try.
  destruct (result (process_video env p i total t)) as [[]|e]; cbn [is_Exception].
  - repeat split; reflexivity.
  - split; [reflexivity|]. split; [apply handler_clock | reflexivity].
Qed.






(** *** All files *)

Lemma process_all_cons (total i : nat) (p : PurePath) (rest : list PurePath) (t : nat) :
  result (process_all env total i (p :: rest) t)
  = match result (process_one env total i p t) with
    | Return _ =>
        result (process_all env total (S i) rest (clock (process_video env p i total t)))
    | Raise e => Raise e
    end
  /\ trace (process_all env total i (p :: rest) t)
     = trace (process_one env total i p t)
         ++ match result (process_one env total i p t) with
            | Return _ =>
                trace (process_all env total (S i) rest
                                   (clock (process_video env p i total t)))
            | Raise _ => []
            end.
Proof.
  cbn [process_all]. rewrite Trace.result_bind, Trace.trace_bind.
  destruct (process_one_run total i p t) as (_ & -> & _). split; reflexivity.
Qed.


(** *** Discovery and [main] *)

Lemma scandir_snapshot_run (directory_path : PurePath) (t : nat) :
  scandir_snapshot env directory_path t
  = match env_snapshot env t directory_path with
    | Some Glob.Unreadable =>
        mkRun (Raise OSError) (S t) [EvFs OpScandir (to_string directory_path) false]
    | snapshot =>
        mkRun (Return snapshot) (S t)
              [EvFs OpScandir (to_string directory_path)
                    (match snapshot with
                     | Some (Glob.Dir _) => true
                     | _ => false
                     end)]
    end.
Proof.
  unfold scandir_snapshot, bind, tick, emit, ret, raise, and_then.
  cbn [result clock trace].
  destruct (env_snapshot env t directory_path) as [[|entries|]|]; reflexivity.
Qed.

Lemma get_video_files_run (directory : string) (recursive : bool) (t : nat) :
  get_video_files env directory recursive t
  = match env_snapshot env t (parse directory) with
    | Some Glob.Unreadable =>
        mkRun (Raise OSError) (S t) [EvFs OpScandir (to_string (parse directory)) false]
    | snapshot =>
        mkRun (Return (filter is_video
                              ((if recursive then Glob.rglob_star else Glob.glob_star)
                                 (parse directory) snapshot)))
              (S t)
              [EvFs OpScandir (to_string (parse directory))
                    (match snapshot with
                     | Some (Glob.Dir _) => true
                     | _ => false
                     end)]
    end.
Proof.
  unfold get_video_files. cbv zeta.
  pose proof (scandir_snapshot_run (parse directory) t) as Hscan.
  destruct (env_snapshot env t (parse directory)) as [[|entries|]|];
    first [rewrite (Trace.bind_return _ _ _ _ _ _ Hscan)
          | rewrite (Trace.bind_raise _ _ _ _ _ _ Hscan)];
    cbn beta; destruct recursive; reflexivity.
Qed.

Lemma get_video_files_clock (directory : string) (recursive : bool) (t : nat) :
  clock (get_video_files env directory recursive t) = S t.
Proof.
  rewrite get_video_files_run.
  destruct (env_snapshot env t (parse directory)) as [[|entries|]|]; reflexivity.
Qed.

Lemma get_video_files_trace (directory : string) (recursive : bool) (t : nat) :
  exists ok, trace (get_video_files env directory recursive t)
             = [EvFs OpScandir (to_string (parse directory)) ok].
Proof.
  rewrite get_video_files_run.
  destruct (env_snapshot env t (parse directory)) as [[|entries|]|];
    eexists; reflexivity.
Qed.

(** [main], case by case: its first print, discovery, its second
    print, and then the loop. *)
Lemma main_cases (directory_answer recursive_answer : string) (t : nat) :
  let video_directory := env_abspath env directory_answer in
  let recursive := String.eqb (PyStr.lower recursive_answer) "y" in
  let found := get_video_files env video_directory recursive t in
  let run := main env directory_answer recursive_answer t in
  match env_print env t (MsgScanning video_directory) with
  | Some refusal =>
      run = mkRun (Raise (exn_of_lib refusal)) t
                  [EvPrintFailed (MsgScanning video_directory)]
  | None =>
      match result found with
      | Raise e =>
          run = mkRun (Raise e) (S t) (EvPrint (MsgScanning video_directory) :: trace found)
      | Return video_files =>
          let total := length video_files in
          match env_print env (S t) (MsgFound total) with
          | Some refusal =>
              run = mkRun (Raise (exn_of_lib refusal)) (S t)
                          (EvPrint (MsgScanning video_directory) :: trace found
                             ++ [EvPrintFailed (MsgFound total)])
          | None =>
              let loop := process_all env total 1 video_files (S t) in
              run = mkRun (result loop) (clock loop)
                          ((EvPrint (MsgScanning video_directory) :: trace found
                              ++ [EvPrint (MsgFound total)])
                             ++ trace loop)
          end
      end
  end.
Proof.
  intros video_directory recursive found run.
  unfold run, main. fold video_directory. fold recursive. cbv zeta.
  pose proof (get_video_files_clock video_directory recursive t) as Hclock.
  fold found in Hclock.
  destruct (env_print env t (MsgScanning video_directory)) as [refusal|] eqn:Escan.
  { rewrite (Trace.bind_raise _ _ _ _ _ _
               (Trace.print_refused env _ t refusal Escan)). reflexivity. }
  rewrite (Trace.bind_return _ _ _ _ _ _ (Trace.print_ok env _ t Escan)).
  cbn beta. cbn [result clock trace].
  fold found.
  destruct found as [res c tr] eqn:Hfound. cbn [result clock trace] in *. subst c.
  destruct res as [video_files|e].
  2:{ rewrite (Trace.bind_raise _ _ _ _ _ _ Hfound). reflexivity. }
  rewrite (Trace.bind_return _ _ _ _ _ _ Hfound). cbn beta. cbn [result clock trace].
  destruct (env_print env (S t) (MsgFound (length video_files))) as [refusal|] eqn:Efound.
  { rewrite (Trace.bind_raise _ _ _ _ _ _
               (Trace.print_refused env _ (S t) refusal Efound)).
    cbn [app]. reflexivity. }
  rewrite (Trace.bind_return _ _ _ _ _ _ (Trace.print_ok env _ (S t) Efound)).
  cbn beta. cbn [result clock trace app].
  rewrite <- app_assoc. reflexivity.
Qed.

End Loop.



Lemma studio_prints : prints_succeed studio.
Proof. intros t m. reflexivity. Qed.




Example studio_failures :
  failures (trace (process_all studio 3 1 [a_mp4; b_mkv; c_avi] initial))
  = [(b_mkv, PlainException "b.mkv: Invalid data")].
Proof. vm_compute. reflexivity. Qed.






Example studio_order :
  processing_order (trace (main studio "/videos" "n" initial)) = [a_mp4; b_mkv; c_avi].
Proof. vm_compute. reflexivity. Qed.

Example studio_order_recursive :
  map to_string (processing_order (trace (main studio "/videos" "Y" initial)))
  = ["/videos/a.mp4"; "/videos/b.mkv"; "/videos/c.avi"; "/videos/sub/d.MP4"].
Proof. vm_compute. reflexivity. Qed.

(** A root that does not exist makes discovery return an empty list. *)
Lemma missing_root_is_no_error :
  env_snapshot studio initial (parse "/missing") = None
  /\ result (get_video_files studio "/missing" false initial) = Return []
  /\ result (main studio "/missing" "n" initial) = Return tt.
Proof. repeat split; vm_compute; reflexivity. Qed.

(** C2 (amended).  When the root does not exist or is not a directory,
    discovery raises nothing: it returns the empty list, and [main],
    its two prints being written, reports 0 files and ends normally.
    What does abort the batch at discovery is the OS error raised when
    the root cannot be examined: [main] has no handler around
    discovery, so the error ends it before any file is begun. *)
Theorem discovery_without_directory :
  forall (env : Env) (directory : string) (recursive : bool) (t : nat),
    (env_snapshot env t (parse directory) = None
     \/ env_snapshot env t (parse directory) = Some Glob.File ->
     get_video_files env directory recursive t
     = mkRun (Return []) (S t) [EvFs OpScandir (to_string (parse directory)) false]
     /\ (forall directory_answer recursive_answer,
            env_abspath env directory_answer = directory ->
            env_print env t (MsgScanning directory) = None ->
            env_print env (S t) (MsgFound 0) = None ->
            main env directory_answer recursive_answer t
            = mkRun (Return tt) (S t)
                    [EvPrint (MsgScanning directory);
                     EvFs OpScandir (to_string (parse directory)) false;
                     EvPrint (MsgFound 0)]))
    /\ (env_snapshot env t (parse directory) = Some Glob.Unreadable ->
        get_video_files env directory recursive t
        = mkRun (Raise OSError) (S t) [EvFs OpScandir (to_string (parse directory)) false]
        /\ (forall directory_answer recursive_answer,
               env_abspath env directory_answer = directory ->
               env_print env t (MsgScanning directory) = None ->
               main env directory_answer recursive_answer t
               = mkRun (Raise OSError) (S t)
                       [EvPrint (MsgScanning directory);
                        EvFs OpScandir (to_string (parse directory)) false])).
Proof.
  intros env directory recursive t. split.
  - intros Hnodir.
    assert (Hfiles : forall rec,
               get_video_files env directory rec t
               = mkRun (Return []) (S t)
                       [EvFs OpScandir (to_string (parse directory)) false]).
    { intros rec. rewrite get_video_files_run.
      destruct Hnodir as [-> | ->]; destruct rec; reflexivity. }
    split; [apply Hfiles|].
    intros directory_answer recursive_answer Habs Hscan Hprint.
    pose proof (main_cases env directory_answer recursive_answer t) as Hmain.
    cbv zeta in Hmain. rewrite Habs in Hmain.
    rewrite Hscan, Hfiles in Hmain. cbn [result trace length] in Hmain.
    rewrite Hprint in Hmain. exact Hmain.
  - intros Hlocked.
    assert (Hfiles : forall rec,
               get_video_files env directory rec t
               = mkRun (Raise OSError) (S t)
                       [EvFs OpScandir (to_string (parse directory)) false]).
    { intros rec. rewrite get_video_files_run, Hlocked. reflexivity. }
    split; [apply Hfiles|].
    intros directory_answer recursive_answer Habs Hscan.
    pose proof (main_cases env directory_answer recursive_answer t) as Hmain.
    cbv zeta in Hmain. rewrite Habs in Hmain.
    rewrite Hscan, Hfiles in Hmain. exact Hmain.
Qed.

Lemma discovery_without_directory_witness :
  get_video_files studio "/missing" true initial
  = mkRun (Return []) 1 [EvFs OpScandir "/missing" false]
  /\ main studio "/locked" "n" initial
     = mkRun (Raise OSError) 1
             [EvPrint (MsgScanning "/locked"); EvFs OpScandir "/locked" false].
Proof.
  split.
  - destruct (discovery_without_directory studio "/missing" true initial) as (H & _).
    destruct H as (H & _); [left; reflexivity | exact H].
  - destruct (discovery_without_directory studio "/locked" false initial) as (_ & H).
    destruct H as (_ & H); [reflexivity|].
    apply (H "/locked" "n"); reflexivity.
Defined.

End Batch.

(** ** Discovery *)

Module Discovery.
Import Pathlib Py Normalizer Scenario Glob.


Lemma eqb_eq (p q : PurePath) : eqb p q = true <-> p = q.
Proof.
  unfold eqb. destruct p as [r1 t1], q as [r2 t2]. cbn [root tail].
  destruct (list_eq_dec string_dec t1 t2) as [Ht|Ht].
  - rewrite andb_true_r, String.eqb_eq. split; [intros ->; now subst | congruence].
  - rewrite andb_false_r. split; [discriminate | congruence].
Qed.







Lemma is_video_iff (f : PurePath) :
  is_video f = true <-> In (PyStr.lower (suffix f)) video_extensions.
Proof.
  unfold is_video. rewrite existsb_exists. split.
  - intros (x & Hx & Heq). apply String.eqb_eq in Heq. now subst.
  - intros H. eexists. split; [exact H | apply String.eqb_refl].
Qed.




Example discovery_recursive_run :
  result (get_video_files studio "/videos" true initial)
  = Return [a_mp4; b_mkv; c_avi; parse "/videos/sub/d.MP4"].
Proof. vm_compute. reflexivity. Qed.

Example discovery_skips_dotfile :
  is_video (parse "/videos/.mp4") = false.
Proof. reflexivity. Qed.

End Discovery.

(** ** File size and elapsed time *)

Module Metrics.
Import Py Normalizer TimeText.


Lemma quot_nonneg (a : Z) (b : positive) :
  (0 <= a)%Z ->
  (Z.quot a (Zpos b) * Zpos b <= a < (Z.quot a (Zpos b) + 1) * Zpos b)%Z.
Proof.
  intros Ha.
  pose proof (Z.quot_rem' a (Zpos b)) as Hq.
  pose proof (Z.rem_bound_pos a (Zpos b) Ha (Pos2Z.is_pos b)) as Hr.
  nia.
Qed.

Lemma quot_nonpos (a : Z) (b : positive) :
  (a <= 0)%Z ->
  ((Z.quot a (Zpos b) - 1) * Zpos b < a <= Z.quot a (Zpos b) * Zpos b)%Z.
Proof.
  intros Ha.
  pose proof (Z.quot_rem' a (Zpos b)) as Hq.
  assert (Hb : (Zpos b <> 0)%Z) by discriminate.
  assert (Hr' : (- Zpos b < Z.rem a (Zpos b) <= 0)%Z).
  { pose proof (Z.rem_bound_pos (- a) (Zpos b) ltac:(lia) (Pos2Z.is_pos b)) as Hr.
    rewrite Z.rem_opp_l in Hr by exact Hb. lia. }
  nia.
Qed.

(** X2.  [format_time] keeps the whole seconds and drops the fraction,
    rounding towards zero: down for a time that is not negative, up
    for one that is. *)
Theorem format_time_truncates :
  forall (seconds : Q),
    ((0 <= seconds)%Q ->
       (inject_Z (format_time seconds) <= seconds)%Q
       /\ (seconds < inject_Z (format_time seconds) + 1)%Q)
    /\ ((seconds <= 0)%Q ->
          (inject_Z (format_time seconds) - 1 < seconds)%Q
          /\ (seconds <= inject_Z (format_time seconds))%Q).
Proof.
  intros [a b]. unfold format_time. cbn [Qnum Qden]. split; intros Hs.
  - assert (Ha : (0 <= a)%Z).
    { unfold Qle in Hs. cbn in Hs. lia. }
    pose proof (quot_nonneg a b Ha) as Hq.
    unfold Qle, Qlt, Qplus, inject_Z. cbn [Qnum Qden]. split; lia.
  - assert (Ha : (a <= 0)%Z).
    { unfold Qle in Hs. cbn in Hs. lia. }
    pose proof (quot_nonpos a b Ha) as Hq.
    unfold Qle, Qlt, Qminus, Qplus, Qopp, inject_Z. cbn [Qnum Qden]. split; lia.
Qed.

Example format_time_fraction : format_time (599 # 10) = 59%Z.
Proof. reflexivity. Qed.

Example format_time_negative_fraction : format_time (-5 # 2) = (-2)%Z.
Proof. reflexivity. Qed.

(** *** The rendered text *)

Lemma fmt_02d_length (m : Z) : (0 <= m < 60)%Z -> String.length (fmt_02d m) = 2%nat.
Proof.
  intros Hm.
  assert (Hall : forallb (fun k => Nat.eqb (String.length (fmt_02d (Z.of_nat k))) 2)
                         (seq 0 60) = true) by (vm_compute; reflexivity).
  rewrite forallb_forall in Hall.
  specialize (Hall (Z.to_nat m)). rewrite Z2Nat.id in Hall by lia.
  apply Nat.eqb_eq. apply Hall. apply in_seq. lia.
Qed.

Lemma fmt_d_length (h : Z) :
  (0 <= h < 24)%Z ->
  String.length (fmt_d h) = (if (h <? 10)%Z then 1 else 2)%nat.
Proof.
  intros Hh.
  assert (Hall : forallb (fun k => Nat.eqb (String.length (fmt_d (Z.of_nat k)))
                                           (if (Z.of_nat k <? 10)%Z then 1 else 2))
                         (seq 0 24) = true) by (vm_compute; reflexivity).
  rewrite forallb_forall in Hall.
  specialize (Hall (Z.to_nat h)). rewrite Z2Nat.id in Hall by lia.
  apply Nat.eqb_eq. apply Hall. apply in_seq. lia.
Qed.

(** Within a day, the text is hours, minutes and seconds alone. *)
Lemma timedelta_str_within_day (n : Z) :
  (0 <= n < 86400)%Z ->
  timedelta_str n
  = Some (fmt_d (n / 3600) ++ ":" ++ fmt_02d (n / 60 mod 60) ++ ":" ++ fmt_02d (n mod 60))%string.
Proof.
  intros Hn. unfold timedelta_str.
  rewrite (Z.div_small n 86400) by lia.
  rewrite (Z.mod_small n 86400) by lia.
  cbv zeta. change (Z.abs 0 >? max_days)%Z with false. cbn [Z.eqb].
  rewrite Z.div_div by lia. reflexivity.
Qed.

(** X3.  For an elapsed time from zero to under a day [format_time]
    gives hours, minutes and seconds with two-digit minutes and
    seconds and no padding of the hours: seven characters (H:MM:SS)
    under ten hours, eight from ten hours on. *)
Theorem format_time_text_length :
  forall (seconds : Q),
    (0 <= seconds)%Q -> (seconds < 86400)%Q ->
    exists text,
      format_time_text seconds = Some text
      /\ ((seconds < 36000)%Q -> String.length text = 7%nat)
      /\ ((36000 <= seconds)%Q -> String.length text = 8%nat).
Proof.
  intros [a b] Hlo Hhi. unfold format_time_text, format_time. cbn [Qnum Qden].
  assert (Ha : (0 <= a)%Z) by (unfold Qle in Hlo; cbn in Hlo; lia).
  pose proof (quot_nonneg a b Ha) as Hq.
  set (n := Z.quot a (Zpos b)) in *.
  assert (Hn : (0 <= n < 86400)%Z).
  { unfold Qlt in Hhi. cbn in Hhi. nia. }
  rewrite (timedelta_str_within_day n Hn). eexists. split; [reflexivity|].
  assert (Hh : (0 <= n / 3600 < 24)%Z).
  { split; [apply Z.div_pos; lia|]. apply Z.div_lt_upper_bound; lia. }
  assert (Hm : (0 <= n / 60 mod 60 < 60)%Z) by (apply Z.mod_pos_bound; lia).
  assert (Hs : (0 <= n mod 60 < 60)%Z) by (apply Z.mod_pos_bound; lia).
  rewrite !PathFacts.length_append, (fmt_02d_length _ Hm), (fmt_02d_length _ Hs),
    (fmt_d_length _ Hh).
  cbn [String.length].
  split; intros Hs36.
  - assert (Hlt : (n / 3600 < 10)%Z).
    { apply Z.div_lt_upper_bound; [lia|]. unfold Qlt in Hs36. cbn in Hs36. nia. }
    rewrite (proj2 (Z.ltb_lt _ _) Hlt). reflexivity.
  - assert (Hge : (10 <= n / 3600)%Z).
    { apply Z.div_le_lower_bound; [lia|]. unfold Qle in Hs36. cbn in Hs36. nia. }
    rewrite (proj2 (Z.ltb_ge _ _) Hge). reflexivity.
Qed.

Lemma format_time_text_length_witness :
  exists text,
    format_time_text (599 # 10) = Some text
    /\ ((599 # 10 < 36000)%Q -> String.length text = 7%nat)
    /\ ((36000 <= 599 # 10)%Q -> String.length text = 8%nat).
Proof.
  apply (format_time_text_length (599 # 10)).
  - unfold Qle. cbn. lia.
  - unfold Qlt. cbn. lia.
Defined.

Example format_time_text_short : format_time_text (599 # 10) = Some "0:00:59"%string.
Proof. vm_compute. reflexivity. Qed.

Example format_time_text_long : format_time_text 45296 = Some "12:34:56"%string.
Proof. vm_compute. reflexivity. Qed.

Example format_time_text_days : format_time_text 200000 = Some "2 days, 7:33:20"%string.
Proof. vm_compute. reflexivity. Qed.

Example format_time_text_clock_back : format_time_text (-1) = Some "-1 day, 23:59:59"%string.
Proof. vm_compute. reflexivity. Qed.

(** X4.  Outside that range the text of the time within the day is
    kept and the days are written in front of it, "day" in the
    singular for one day either way; a number of seconds below zero
    counts as whole days back plus a time of day. *)
Theorem timedelta_str_days :
  forall (n : Z),
    (n / 86400 <> 0)%Z ->
    (Z.abs (n / 86400) <= max_days)%Z ->
    exists time_of_day,
      timedelta_str (n mod 86400) = Some time_of_day
      /\ String.length time_of_day = (if (n mod 86400 <? 36000)%Z then 7 else 8)%nat
      /\ timedelta_str n
         = Some (fmt_d (n / 86400) ++ " day"
                   ++ (if (Z.abs (n / 86400) =? 1)%Z then "" else "s")
                   ++ ", " ++ time_of_day)%string.
Proof.
  intros n Hdays Hmax.
  assert (Hrange : (0 <= n mod 86400 < 86400)%Z) by (apply Z.mod_pos_bound; lia).
  rewrite (timedelta_str_within_day _ Hrange). eexists. split; [reflexivity|]. split.
  - set (m := (n mod 86400)%Z) in *.
    assert (Hh : (0 <= m / 3600 < 24)%Z).
    { split; [apply Z.div_pos; lia|]. apply Z.div_lt_upper_bound; lia. }
    assert (Hm : (0 <= m / 60 mod 60 < 60)%Z) by (apply Z.mod_pos_bound; lia).
    assert (Hs : (0 <= m mod 60 < 60)%Z) by (apply Z.mod_pos_bound; lia).
    rewrite !PathFacts.length_append, (fmt_02d_length _ Hm), (fmt_02d_length _ Hs),
      (fmt_d_length _ Hh).
    cbn [String.length].
    destruct (Z.ltb_spec m 36000) as [Hlt|Hge].
    + assert (Hlt' : (m / 3600 < 10)%Z) by (apply Z.div_lt_upper_bound; lia).
      rewrite (proj2 (Z.ltb_lt _ _) Hlt'). reflexivity.
    + assert (Hge' : (10 <= m / 3600)%Z) by (apply Z.div_le_lower_bound; lia).
      rewrite (proj2 (Z.ltb_ge _ _) Hge'). reflexivity.
  - unfold timedelta_str. cbv zeta.
    assert (Hgt : (Z.abs (n / 86400) >? max_days)%Z = false).
    { rewrite Z.gtb_ltb. apply Z.ltb_ge. exact Hmax. }
    rewrite Hgt. rewrite (proj2 (Z.eqb_neq _ _) Hdays).
    rewrite Z.div_div by lia. reflexivity.
Qed.

Lemma timedelta_str_days_witness :
  timedelta_str (-1) = Some "-1 day, 23:59:59"%string.
Proof.
  destruct (timedelta_str_days (-1)) as (tod & Htod & _ & H).
  - discriminate.
  - discriminate.
  - rewrite H. vm_compute in Htod. injection Htod as <-. reflexivity.
Defined.

End Metrics.

(** ** The operator's answer *)

Module Answers.
Import Pathlib Py Normalizer Scenario.

Lemma lower_char_is_y (c : ascii) :
  PyStr.lower_char c = "y"%char <-> c = "y"%char \/ c = "Y"%char.
Proof.
  split.
  - destruct c as [[] [] [] [] [] [] [] []]; vm_compute; intros H;
      first [left; reflexivity | right; reflexivity | discriminate H].
  - intros [->| ->]; reflexivity.
Qed.

Lemma lower_is_y (answer : string) :
  PyStr.lower answer = "y" <-> answer = "y" \/ answer = "Y".
Proof.
  split.
  - destruct answer as [|c [|c' rest]]; cbn [PyStr.lower]; intros H; try discriminate.
    injection H as H. apply lower_char_is_y in H. destruct H as [->| ->]; auto.
  - intros [->| ->]; reflexivity.
Qed.

(** X5.  Sub-directories are searched only when the answer to the
    second prompt is exactly "y" or "Y".  Any other answer, "yes" and
    " y" included, runs the batch as "n" does. *)
Theorem recursive_only_on_y :
  forall (env : Env) (directory_answer recursive_answer : string) (t : nat),
    (recursive_answer = "y" \/ recursive_answer = "Y" ->
       main env directory_answer recursive_answer t = main env directory_answer "y" t)
    /\ (recursive_answer <> "y" -> recursive_answer <> "Y" ->
          main env directory_answer recursive_answer t = main env directory_answer "n" t).
Proof.
  intros env directory_answer recursive_answer t. split.
  - intros H. apply lower_is_y in H. unfold main. rewrite H. reflexivity.
  - intros H1 H2.
    assert (H : String.eqb (PyStr.lower recursive_answer) "y" = false).
    { apply String.eqb_neq. intros H. apply lower_is_y in H. tauto. }
    unfold main. rewrite H. reflexivity.
Qed.

Example answer_yes_is_no :
  processing_order (trace (main studio "/videos" "yes" initial)) = [a_mp4; b_mkv; c_avi].
Proof. vm_compute. reflexivity. Qed.

End Answers.

(** ** More on the duration probe *)

Module ProbeFacts.
Import Pathlib Py Normalizer Scenario Reading.

(** X6.  When the primary probe's output parses, that value is
    returned after this one command: the fallback is not run, and the
    exit status of the probe plays no part. *)
Theorem primary_probe_suffices :
  forall (env : Env) (video_path : PurePath) (t : nat)
         (status : Z) (stdout : string) (d : PyFloat.pyfloat),
    env_run env t (primary_cmd (to_string video_path)) = Completed status stdout ->
    PyFloat.of_string (PyStr.strip stdout) = Some d ->
    get_video_duration env video_path t
    = mkRun (Return d) (S t) [EvRun (primary_cmd (to_string video_path))]
    /\ run_count (fallback_cmd (to_string video_path))
                 (trace (get_video_duration env video_path t)) = 0%nat.
Proof.
  intros env video_path t status stdout d Hrun Hparse.
  assert (Heq : get_video_duration env video_path t
                = mkRun (Return d) (S t) [EvRun (primary_cmd (to_string video_path))]).
  { rewrite Trace.get_video_duration_eq. cbv zeta. rewrite Hrun, Hparse. reflexivity. }
  split; [exact Heq|]. rewrite Heq. unfold run_count, runs_of.
  cbn [trace flat_map app count_occ].
  destruct (list_eq_dec string_dec (primary_cmd (to_string video_path))
                        (fallback_cmd (to_string video_path))) as [E|_];
    [unfold primary_cmd, fallback_cmd in E; congruence | reflexivity].
Qed.

Lemma primary_probe_suffices_witness :
  get_video_duration
    failing_probe
    clip initial
  = mkRun (Return (PyFloat.Finite (61 # 2))) 1 [EvRun (primary_cmd (to_string clip))].
Proof.
  destruct (primary_probe_suffices
              failing_probe
              clip initial 1%Z "30.5" (PyFloat.Finite (61 # 2)) eq_refl)
    as (H & _).
  - vm_compute. reflexivity.
  - exact H.
Defined.

(** X7.  When the primary command cannot be run at all (an OS error,
    as when the engine is missing), the error leaves the probe at
    once: no fallback is tried and no 0.0 is returned. *)
Theorem probe_os_error_propagates :
  forall (env : Env) (video_path : PurePath) (t : nat),
    env_run env t (primary_cmd (to_string video_path)) = RunRaises LibOSError ->
    get_video_duration env video_path t
    = mkRun (Raise OSError) (S t) [EvRun (primary_cmd (to_string video_path))].
Proof.
  intros env video_path t Hrun.
  rewrite Trace.get_video_duration_eq. cbv zeta. rewrite Hrun. reflexivity.
Qed.

Lemma probe_os_error_propagates_witness :
  get_video_duration no_engine clip initial
  = mkRun (Raise OSError) 1 [EvRun (primary_cmd (to_string clip))].
Proof. apply (probe_os_error_propagates no_engine clip initial). reflexivity. Defined.

(** X8.  The 0.0 of the fallback stands for output that does not
    parse, not for a command that fails to run: when running the
    fallback raises, whatever the error (a decoding ValueError
    included), it is raised by the probe. *)
Theorem fallback_error_propagates :
  forall (env : Env) (video_path : PurePath) (t : nat) (e : LibError),
    primary_unusable (env_run env t (primary_cmd (to_string video_path))) = true ->
    env_run env (S t) (fallback_cmd (to_string video_path)) = RunRaises e ->
    get_video_duration env video_path t
    = mkRun (Raise (exn_of_lib e)) (S (S t))
            [EvRun (primary_cmd (to_string video_path));
             EvRun (fallback_cmd (to_string video_path))].
Proof.
  intros env video_path t e Hbad Hrun2.
  rewrite Trace.get_video_duration_eq. cbv zeta. rewrite Hrun2.
  destruct (env_run env t (primary_cmd (to_string video_path)))
    as [status1 stdout1|e1]; cbn [primary_unusable] in Hbad.
  - destruct (PyFloat.of_string (PyStr.strip stdout1)); [discriminate | reflexivity].
  - destruct e1; [discriminate | reflexivity | reflexivity].
Qed.

Lemma fallback_error_propagates_witness :
  get_video_duration
    (with_run studio (fun t _ => match t with
                                 | O => Completed 0 "N/A"
                                 | _ => RunRaises LibValueError
                                 end))
    clip initial
  = mkRun (Raise ValueError) 2
          [EvRun (primary_cmd (to_string clip)); EvRun (fallback_cmd (to_string clip))].
Proof.
  apply (fallback_error_propagates
           (with_run studio (fun t _ => match t with
                                        | O => Completed 0 "N/A"
                                        | _ => RunRaises LibValueError
                                        end))
           clip initial LibValueError).
  - vm_compute. reflexivity.
  - reflexivity.
Defined.

End ProbeFacts.

(** ** More on one file *)

Module FileFacts.
Import Pathlib Py Normalizer Scenario Reading.
Local Open Scope py_scope.

(** X9.  When the size of the input cannot be read, [process_video],
    having announced the file, raises that OSError after two
    interactions, the clock and the size read: nothing is probed and
    no engine is started. *)
Theorem unreadable_input_stops :
  forall (env : Env) (video_path : PurePath) (current_file total_files t : nat),
    env_print env (S t) (MsgProcessing video_path) = None ->
    env_getsize env (S t) (to_string video_path) = None ->
    process_video env video_path current_file total_files t
    = mkRun (Raise OSError) (S (S t))
            [EvTime (env_time env t);
             EvPrint (MsgProcessing video_path);
             EvFs OpStat (to_string video_path) false].
Proof.
  intros env video_path current_file total_files t Hann Hsize.
  unfold process_video. cbv zeta.
  Trace.run_with (Trace.time_time_run env t).
  Trace.run_with (Trace.print_ok env _ (S t) Hann).
  pose proof (Trace.get_file_size_run env (to_string video_path) (S t)) as Hrun.
  rewrite Hsize in Hrun.
  Trace.run_with Hrun. reflexivity.
Qed.

Lemma unreadable_input_stops_witness :
  result (process_video (with_getsize studio (fun _ _ => None)) clip 1 1 initial)
  = Raise OSError.
Proof.
  rewrite (unreadable_input_stops (with_getsize studio (fun _ _ => None))
             clip 1 1 initial eq_refl eq_refl).
  reflexivity.
Defined.

Lemma spawn_attempts_probes (p : PurePath) (probes : list Event) :
  Forall (is_probe p) probes -> spawn_attempts probes = 0%nat.
Proof.
  unfold spawn_attempts. induction 1 as [|e l He _ IH]; [reflexivity|].
  destruct He as [->| ->]; exact IH.
Qed.

(** X10.  The duration is computed before the engine is started and
    an error of the probe is not caught: when the probe raises,
    [process_video] raises the same error and makes no attempt to
    start the engine. *)
Theorem probe_error_stops :
  forall (env : Env) (video_path : PurePath) (current_file total_files t : nat)
         (size : N) (e : exn),
    env_print env (S t) (MsgProcessing video_path) = None ->
    env_getsize env (S t) (to_string video_path) = Some size ->
    result (get_video_duration env video_path (S (S t))) = Raise e ->
    let run := process_video env video_path current_file total_files t in
    result run = Raise e
    /\ trace run
       = [EvTime (env_time env t);
          EvPrint (MsgProcessing video_path);
          EvFs OpStat (to_string video_path) true]
           ++ trace (get_video_duration env video_path (S (S t)))
    /\ spawn_attempts (trace run) = 0%nat.
Proof.
  intros env video_path current_file total_files t size e Hann Hsize Hprobe run.
  assert (Hrun : run
                 = mkRun (Raise e)
                         (clock (get_video_duration env video_path (S (S t))))
                         ([EvTime (env_time env t);
                           EvPrint (MsgProcessing video_path);
                           EvFs OpStat (to_string video_path) true]
                            ++ trace (get_video_duration env video_path (S (S t))))).
  { unfold run, process_video. cbv zeta.
    Trace.run_with (Trace.time_time_run env t).
    Trace.run_with (Trace.print_ok env _ (S t) Hann).
    pose proof (Trace.get_file_size_run env (to_string video_path) (S t)) as Hs.
    rewrite Hsize in Hs.
    Trace.run_with Hs.
    destruct (get_video_duration env video_path (S (S t))) as [r c tr] eqn:Hd.
    cbn [result] in Hprobe. subst r.
    Trace.run_with Hd. reflexivity. }
  rewrite Hrun. cbn [result trace]. split; [reflexivity|]. split; [reflexivity|].
  destruct (Trace.get_video_duration_run env video_path (S (S t)))
    as (t' & probes & Hprobes & [[d Hd]|[e' Hd]]);
    rewrite Hd; cbn [trace app];
    apply (spawn_attempts_probes video_path probes Hprobes).
Qed.

Lemma probe_error_stops_witness :
  result (process_video no_engine clip 1 1 initial) = Raise OSError
  /\ spawn_attempts (trace (process_video no_engine clip 1 1 initial)) = 0%nat.
Proof.
  destruct (probe_error_stops no_engine clip 1 1 initial 10485760%N OSError)
    as (H1 & _ & H2).
  - reflexivity.
  - reflexivity.
  - vm_compute. reflexivity.
  - split; [exact H1 | exact H2].
Defined.

End FileFacts.

(** ** The monitoring loop *)

Module LoopFacts.
Import Pathlib Py Normalizer Scenario Reading.











Example monitor_short_stream :
  lines_read (trace (monitor studio 3 0 ["frame=1"; "done"] initial))
  = ["frame=1"; "done"; ""].
Proof. reflexivity. Qed.

Example monitor_interrupted :
  monitor garbled 3 0 ["frame=1"; "done"] initial
  = mkRun (Raise ValueError) initial [EvPoll None; EvReadlineFailed].
Proof. reflexivity. Qed.

(** *** Which lines are progress *)

Lemma prefix_iff (a b : string) :
  prefix a b = true <-> exists post, b = (a ++ post)%string.
Proof.
  revert b. induction a as [|x a IH]; intros b.
  - destruct b; cbn [prefix];
      (split; [intros _; eexists; reflexivity | reflexivity]).
  - destruct b as [|y b]; cbn [prefix].
    + split; [discriminate | intros [post H]; discriminate H].
    + destruct (ascii_dec x y) as [->|Hne].
      * rewrite IH. split.
        -- intros [post ->]. exists post. reflexivity.
        -- intros [post H]. injection H as ->. exists post. reflexivity.
      * split; [discriminate|]. intros [post H]. injection H as H _. congruence.
Qed.

Lemma contains_step (needle hay : string) :
  PyStr.contains needle hay
  = prefix needle hay
    || match hay with
       | String _ hay' => PyStr.contains needle hay'
       | EmptyString => false
       end.
Proof. destruct hay; reflexivity. Qed.

(** [needle in hay] holds exactly when [hay] is some text, the needle,
    and some text. *)
Lemma contains_iff (needle hay : string) :
  PyStr.contains needle hay = true
  <-> exists pre post, hay = (pre ++ needle ++ post)%string.
Proof.
  induction hay as [|c hay IH]; rewrite contains_step, orb_true_iff, prefix_iff.
  - split.
    + intros [[post H]|H]; [|discriminate]. exists "", post. exact H.
    + intros (pre & post & H). left. destruct pre as [|x pre]; [|discriminate].
      exists post. exact H.
  - rewrite IH. split.
    + intros [[post H]|(pre & post & H)].
      * exists "", post. exact H.
      * exists (String c pre), post. cbn [append]. now rewrite H.
    + intros (pre & post & H). destruct pre as [|x pre].
      * left. exists post. exact H.
      * right. cbn [append] in H. injection H as _ H. exists pre, post. exact H.
Qed.

(** X12.  A line read from the engine is shown as progress exactly
    when "frame=" or "time=" occurs somewhere in it; the test for a
    non-empty line adds nothing. *)
Theorem is_progress_iff :
  forall (line : string),
    is_progress line = true
    <-> (exists pre post, line = (pre ++ "frame=" ++ post)%string)
        \/ (exists pre post, line = (pre ++ "time=" ++ post)%string).
Proof.
  intros line. unfold is_progress.
  rewrite andb_true_iff, orb_true_iff, !contains_iff, negb_true_iff. split.
  - intros [_ H]. exact H.
  - intros H. split; [|exact H].
    apply String.eqb_neq. intros ->.
    destruct H as [(pre & post & H)|(pre & post & H)];
      destruct pre; discriminate H.
Qed.

Example progress_inside_word : is_progress "keyframe=3" = true.
Proof. reflexivity. Qed.

Example progress_case_matters : is_progress "Frame= 3 Time= 4" = false.
Proof. reflexivity. Qed.

End LoopFacts.

(** ** More on the batch *)

Module BatchFacts.
Import Pathlib Py Normalizer Scenario Reading.

Lemma flat_map_none {A B} (f : A -> list B) (Q : A -> Prop) (l : list A) :
  (forall x, Q x -> f x = []) -> Forall Q l -> flat_map f l = [].
Proof.
  intros Hf. induction 1 as [|x l Hx _ IH]; [reflexivity|].
  cbn [flat_map]. rewrite (Hf x Hx), IH. reflexivity.
Qed.


Lemma popens_app (a b : list Event) : popens (a ++ b) = popens a ++ popens b.
Proof. apply flat_map_app. Qed.

(** *** Engines started *)

Lemma popens_probes (p : PurePath) (probes : list Event) :
  Forall (is_probe p) probes -> popens probes = [].
Proof.
  intros H. unfold popens. apply (flat_map_none _ (is_probe p)); [|exact H].
  intros e [->| ->]; reflexivity.
Qed.

Lemma popens_watched (l : list Event) : Forall is_watch l -> popens l = [].
Proof.
  intros H. unfold popens. apply (flat_map_none _ is_watch); [|exact H].
  intros e He. destruct e as [| | | | |[s|]| | |m| | |]; try contradiction; reflexivity.
Qed.

Lemma popens_printed_until (shown : list Msg) (m : Msg) :
  popens (printed_until shown m) = [].
Proof.
  unfold printed_until. rewrite popens_app. cbn [popens flat_map app].
  rewrite app_nil_r. induction shown as [|x shown IH]; [reflexivity | exact IH].
Qed.

Lemma popens_interruption (env : Env) (stop : Event) (e : LibError) :
  interruption env stop e -> popens [stop] = [].
Proof. intros [t line e' _|t line e' _]; reflexivity. Qed.

Lemma popens_prepared (p : PurePath) (i n : nat) (now : Q) (probes : list Event) (mb : Q) :
  Forall (is_probe p) probes -> popens (prepared p i n now probes mb) = [].
Proof.
  intros H. unfold prepared, measured. rewrite !popens_app, (popens_probes p probes H).
  reflexivity.
Qed.

Lemma popens_engine_ran (p : PurePath) (i n : nat) (now : Q) (probes : list Event)
      (mb : Q) (process : Proc) :
  Forall (is_probe p) probes ->
  popens (engine_ran p i n now probes mb process) = [engine_cmd p].
Proof.
  intros H. unfold engine_ran.
  rewrite !popens_app, (popens_prepared p i n now probes mb H),
    (popens_watched _ (Invoker.watching_is_watch _ _)).
  reflexivity.
Qed.

(** A call starts its own engine command, at most once. *)
Lemma video_run_popens (env : Env) (p : PurePath) (i n : nat)
      (r : outcome unit) (tr : list Event) :
  video_run env p i n r tr ->
  popens tr = [] \/ popens tr = [engine_cmd p].
Proof.
  intros H.
  destruct H as [now t e Hann
                |now
                |now probes e Hp
                |now probes mb shown m unshown t e Hp Hmsgs Hrefused
                |now probes mb Hp
                |now probes mb watched stop e Hp Hw Hstop
                |now probes mb process t e Hp Hst Hrest
                |now probes mb process t e Hp Hst error_message Hrefused
                |now probes mb process Hp Hst
                |now later probes mb process Hp Hst
                |now later probes mb_in mb_out process shown m unshown t e Hp Hst Hmsgs Hrefused
                |now later probes mb_in mb_out process Hp Hst].
  - left. reflexivity.
  - left. reflexivity.
  - left. unfold measured. rewrite popens_app, (popens_probes p probes Hp). reflexivity.
  - left. unfold measured.
    rewrite !popens_app, (popens_probes p probes Hp), popens_printed_until. reflexivity.
  - left. rewrite popens_app, (popens_prepared p i n now probes mb Hp). reflexivity.
  - right.
    rewrite !popens_app, (popens_prepared p i n now probes mb Hp),
      (popens_watched watched Hw), (popens_interruption env stop e Hstop).
    reflexivity.
  - right. rewrite popens_app, (popens_engine_ran p i n now probes mb process Hp).
    reflexivity.
  - right. rewrite popens_app, (popens_engine_ran p i n now probes mb process Hp).
    reflexivity.
  - right. rewrite popens_app, (popens_engine_ran p i n now probes mb process Hp).
    reflexivity.
  - right. rewrite popens_app, (popens_engine_ran p i n now probes mb process Hp).
    reflexivity.
  - right.
    rewrite !popens_app, (popens_engine_ran p i n now probes mb_in process Hp),
      popens_printed_until.
    reflexivity.
  - right. rewrite popens_app, (popens_engine_ran p i n now probes mb_in process Hp).
    reflexivity.
Qed.

(** *** Completions *)







Section Loop.
Variable env : Env.


Lemma handler_popens (p : PurePath) (e : exn) (t : nat) :
  popens (trace (bind (print env (MsgErrorProcessing p e))
                      (fun _ => print env (MsgFullDetails e)) t)) = [].
Proof.
  rewrite Batch.handler_run.
  destruct (env_print env t (MsgErrorProcessing p e)); [reflexivity|].
  destruct (env_print env t (MsgFullDetails e)); reflexivity.
Qed.

Lemma process_one_popens (total i : nat) (p : PurePath) (t : nat) :
  popens (trace (process_one env total i p t)) = []
  \/ popens (trace (process_one env total i p t)) = [engine_cmd p].
Proof.
  destruct (Batch.process_one_run env total i p t) as (_ & _ & ->).
  rewrite popens_app.
  assert (Hnone : popens (match result (process_video env p i total t) with
                          | Return _ => []
                          | Raise e =>
                              trace (bind (print env (MsgErrorProcessing p e))
                                          (fun _ => print env (MsgFullDetails e))
                                          (clock (process_video env p i total t)))
                          end) = []).
  { destruct (result (process_video env p i total t)); [reflexivity|].
    apply handler_popens. }
  rewrite Hnone, app_nil_r.
  exact (video_run_popens env p i total _ _ (Trace.process_video_run env p i total t)).
Qed.

Lemma subseq_skip_all {A} (l : list A) : subseq [] l.
Proof. induction l; constructor; assumption. Qed.

(** The loop starts engines for files of its list only, in order, at
    most one each. *)
Lemma process_all_popens (total : nat) (files : list PurePath) (i t : nat) :
  subseq (popens (trace (process_all env total i files t))) (map engine_cmd files).
Proof.
  revert i t. induction files as [|p rest IH]; intros i t.
  - constructor.
  - destruct (Batch.process_all_cons env total i p rest t) as (_ & ->).
    rewrite popens_app. cbn [map].
    assert (Hrest : subseq (popens (match result (process_one env total i p t) with
                                    | Return _ =>
                                        trace (process_all
                                                 env total (S i) rest
                                                 (clock (process_video env p i total t)))
                                    | Raise _ => []
                                    end))
                           (map engine_cmd rest)).
    { destruct (result (process_one env total i p t)); [apply IH|].
      apply subseq_skip_all. }
    destruct (process_one_popens total i p t) as [-> | ->].
    + apply subseq_skip. exact Hrest.
    + apply subseq_keep. exact Hrest.
Qed.



End Loop.



Example studio_accounting :
  completions (trace (main studio "/videos" "n" initial)) = 2%nat
  /\ length (failures (trace (main studio "/videos" "n" initial))) = 1%nat.
Proof. split; vm_compute; reflexivity. Qed.

(** A completion can be printed and a failure recorded for the same
    file: here the last line of the report cannot be written. *)
Example completed_and_failed :
  let env := with_print studio
               (fun _ m => match m with
                           | MsgOutputSize _ => Some LibOSError
                           | _ => None
                           end) in
  completions (trace (process_one env 1 1 a_mp4 initial)) = 1%nat
  /\ failures (trace (process_one env 1 1 a_mp4 initial)) = [(a_mp4, OSError)].
Proof. split; vm_compute; reflexivity. Qed.

(** X14.  [main] starts an engine only for files discovery returned,
    with the command built from that file, in discovery order and at
    most once per file: the commands started are the commands of the
    discovered files with some left out.  When discovery raises, no
    engine is started at all. *)
Theorem engines_started :
  forall (env : Env) (directory_answer recursive_answer : string) (t : nat),
    let found := get_video_files env (env_abspath env directory_answer)
                                 (String.eqb (PyStr.lower recursive_answer) "y") t in
    (forall video_files,
        result found = Return video_files ->
        subseq (popens (trace (main env directory_answer recursive_answer t)))
               (map engine_cmd video_files))
    /\ (forall e,
          result found = Raise e ->
          popens (trace (main env directory_answer recursive_answer t)) = []).
Proof.
  intros env directory_answer recursive_answer t found.
  pose proof (Batch.main_cases env directory_answer recursive_answer t) as Hmain.
  cbv zeta in Hmain. fold found in Hmain.
  destruct (Batch.get_video_files_trace
              env (env_abspath env directory_answer)
              (String.eqb (PyStr.lower recursive_answer) "y") t) as (ok & Htrace).
  fold found in Htrace.
  destruct (env_print env t (MsgScanning (env_abspath env directory_answer))).
  { rewrite Hmain. cbn [trace popens flat_map app].
    split; intros; [apply subseq_skip_all | reflexivity]. }
  destruct (result found) as [files|e0].
  - split; [|discriminate].
    intros video_files Hfiles. injection Hfiles as <-.
    destruct (env_print env (S t) (MsgFound (length files))).
    + rewrite Hmain, Htrace. cbn [trace popens flat_map app]. apply subseq_skip_all.
    + rewrite Hmain, Htrace. cbn [trace]. rewrite popens_app.
      cbn [popens flat_map app]. apply process_all_popens.
  - split; [discriminate|].
    intros e _. rewrite Hmain, Htrace. reflexivity.
Qed.

Lemma engines_started_witness :
  subseq (popens (trace (main studio "/videos" "n" initial)))
         (map engine_cmd [a_mp4; b_mkv; c_avi])
  /\ popens (trace (main studio "/locked" "n" initial)) = [].
Proof.
  split.
  - destruct (engines_started studio "/videos" "n" initial) as (H & _).
    apply H. reflexivity.
  - destruct (engines_started studio "/locked" "n" initial) as (_ & H).
    apply (H OSError). reflexivity.
Defined.

Example studio_engines :
  popens (trace (main studio "/videos" "n" initial))
  = [engine_cmd a_mp4; engine_cmd b_mkv; engine_cmd c_avi].
Proof. vm_compute. reflexivity. Qed.

End BatchFacts.

(** ** More on the output name *)

Module NamingFacts.
Import Pathlib Py Normalizer Scenario.
Local Open Scope string_scope.

Lemma Forall_removelast {A} (P : A -> Prop) (l : list A) :
  Forall P l -> Forall P (removelast l).
Proof.
  induction 1 as [|x l Hx Hl IH]; [constructor|].
  destruct l as [|y l]; [constructor|].
  change (removelast (x :: y :: l)) with (x :: removelast (y :: l)).
  constructor; assumption.
Qed.

Lemma parent_wf (p : PurePath) : wf p -> wf (parent p).
Proof. unfold wf, parent. cbn [tail]. apply Forall_removelast. Qed.

Lemma output_wf (p : PurePath) : wf p -> wf (output_path_of p).
Proof.
  intros Hwf. rewrite (PathFacts.output_path_of_eq p Hwf).
  apply PathFacts.child_wf; [apply parent_wf; exact Hwf|].
  apply PathFacts.normalized_valid. apply PathFacts.name_without_sep. exact Hwf.
Qed.

Lemma video_has_suffix (p : PurePath) : is_video p = true -> suffix p <> "".
Proof.
  intros Hv Hs. apply Discovery.is_video_iff in Hv. rewrite Hs in Hv.
  cbn in Hv. repeat (destruct Hv as [Hv|Hv]; [discriminate Hv|]). exact Hv.
Qed.

(** X15.  The output of a video is a video in the same directory: it
    keeps the suffix, so a later discovery in that directory returns
    the outputs of an earlier run along with the inputs. *)
Theorem outputs_are_videos :
  forall (p : PurePath),
    wf p -> is_video p = true ->
    is_video (output_path_of p) = true
    /\ suffix (output_path_of p) = suffix p
    /\ parent (output_path_of p) = parent p.
Proof.
  intros p Hwf Hvideo.
  pose proof (PathFacts.output_path_of_eq p Hwf) as Hout.
  assert (Hsuffix : suffix (output_path_of p) = suffix p).
  { rewrite Hout. unfold suffix at 1. rewrite PathFacts.name_child.
    apply (PathFacts.suffix_under_prefix "normalized_" (name p)).
    apply (video_has_suffix p Hvideo). }
  split; [|split].
  - unfold is_video in *. rewrite Hsuffix. exact Hvideo.
  - exact Hsuffix.
  - rewrite Hout. apply PathFacts.parent_child.
Qed.

Lemma outputs_are_videos_witness :
  is_video (output_path_of clip) = true.
Proof.
  destruct (outputs_are_videos clip) as (H & _).
  - repeat constructor; discriminate.
  - reflexivity.
  - exact H.
Defined.

Example studio_second_run :
  filter is_video (Glob.glob_star (parse "/videos")
                     (Some (Glob.Dir [("a.mp4", Glob.File);
                                      ("normalized_a.mp4", Glob.File)])))
  = [a_mp4; output_path_of a_mp4].
Proof. reflexivity. Qed.

(** X16.  The prefix is added to whatever the name is: naming the
    output of an output stacks it, normalized_normalized_<name>, in
    the directory of the first input. *)
Theorem prefix_stacks :
  forall (p : PurePath),
    wf p ->
    output_path_of (output_path_of p)
    = make_child_relpath (parent p) ("normalized_normalized_" ++ name p).
Proof.
  intros p Hwf.
  rewrite (PathFacts.output_path_of_eq (output_path_of p) (output_wf p Hwf)).
  rewrite (PathFacts.output_path_of_eq p Hwf).
  rewrite PathFacts.parent_child, PathFacts.name_child. reflexivity.
Qed.

Lemma prefix_stacks_witness :
  to_string (output_path_of (output_path_of clip))
  = "/videos/normalized_normalized_clip.mp4".
Proof.
  rewrite (prefix_stacks clip).
  - reflexivity.
  - repeat constructor; discriminate.
Defined.

(** X17.  Two different inputs never share an output: the output
    path determines the input path. *)
Theorem output_injective :
  forall (p q : PurePath),
    wf p -> wf q ->
    output_path_of p = output_path_of q ->
    p = q.
Proof.
  intros p q Hp Hq Heq.
  rewrite (PathFacts.output_path_of_eq p Hp), (PathFacts.output_path_of_eq q Hq) in Heq.
  unfold make_child_relpath, parent in Heq. cbn [root tail] in Heq.
  injection Heq as Hroot Htail.
  apply app_inj_tail in Htail. destruct Htail as [Hinit Hlast].
  apply (PathFacts.append_inj_l "normalized_") in Hlast.
  assert (Htails : tail p = tail q).
  { destruct (list_eq_dec string_dec (tail p) []) as [Hnil|Hne].
    - rewrite Hnil. symmetry. apply (PathFacts.name_empty_iff q Hq).
      rewrite <- Hlast. apply (PathFacts.name_empty_iff p Hp). exact Hnil.
    - assert (Hne' : tail q <> []).
      { intros Hnil. apply Hne. apply (PathFacts.name_empty_iff p Hp).
        rewrite Hlast. apply (PathFacts.name_empty_iff q Hq). exact Hnil. }
      rewrite (app_removelast_last "" Hne), (app_removelast_last "" Hne').
      unfold name in Hlast. rewrite Hinit, Hlast. reflexivity. }
  destruct p, q. cbn [root tail] in *. congruence.
Qed.

Lemma output_injective_witness :
  clip = parse "/videos/./clip.mp4".
Proof.
  apply (output_injective clip (parse "/videos/./clip.mp4")).
  - repeat constructor; discriminate.
  - repeat constructor; discriminate.
  - reflexivity.
Defined.

End NamingFacts.

(** ** The engine's run, in a given world *)

Module EngineFacts.
Import Pathlib Py Normalizer Scenario Reading.
Local Open Scope py_scope.

Lemma quiet_of (env : Env) : prints_succeed env -> stream_decodes env -> quiet_stream env.
Proof. intros Hprints Hdec. split; [exact Hdec | intros t line; apply Hprints]. Qed.

Section Started.
Variables (env : Env) (video_path : PurePath) (current_file total_files t : nat).
Variables (size : N) (d : PyFloat.pyfloat) (t' : nat) (probes : list Event).
Variable process : Proc.

Hypothesis Hprints : prints_succeed env.
Hypothesis Hdecodes : stream_decodes env.
Hypothesis Hsize : env_getsize env (S t) (to_string video_path) = Some size.
Hypothesis Hprobe : get_video_duration env video_path (S (S t)) = mkRun (Return d) t' probes.
Hypothesis Hpopen : env_popen env t' (engine_cmd video_path) = Some process.

(** A call whose engine starts, in a world where every print is
    written and the diagnostic stream decodes: what it does is decided
    by the exit status and by the size read of the output. *)
Lemma started_run :
  let started := env_time env t in
  let finished := env_time env (S t') in
  let mb_in := (inject_Z (Z.of_N size) / inject_Z (1024 * 1024))%Q in
  let error_message :=
    PyStr.concat_all (skipn (alive_polls process) (stderr_lines process)) in
  process_video env video_path current_file total_files t
  = if Z.eqb (returncode process) 0
    then
      match env_getsize env (S (S t')) (to_string (output_path_of video_path)) with
      | Some out_size =>
          mkRun (Return tt) (S (S (S t')))
                (engine_ran video_path current_file total_files started probes mb_in process
                   ++ [EvTime finished;
                       EvFs OpStat (to_string (output_path_of video_path)) true;
                       EvPrint MsgCompleted;
                       EvPrint (MsgTimeTaken (format_time (finished - started)));
                       EvPrint (MsgAverageSpeed
                                  (if Qgt_bool (finished - started) 0
                                   then mb_in / (finished - started) else 0)%Q);
                       EvPrint (MsgOutputSize
                                  (inject_Z (Z.of_N out_size) / inject_Z (1024 * 1024))%Q)])
      | None =>
          mkRun (Raise OSError) (S (S (S t')))
                (engine_ran video_path current_file total_files started probes mb_in process
                   ++ [EvTime finished;
                       EvFs OpStat (to_string (output_path_of video_path)) false])
      end
    else
      mkRun (Raise (PlainException error_message)) (S t')
            (engine_ran video_path current_file total_files started probes mb_in process
               ++ [EvRead error_message; EvPrint (MsgFFmpegError error_message)]).
Proof.
  intros started finished mb_in error_message.
  unfold process_video. cbv zeta.
  Trace.run_with (Trace.time_time_run env t).
  Trace.run_print Hprints.
  pose proof (Trace.get_file_size_run env (to_string video_path) (S t)) as Hs.
  rewrite Hsize in Hs.
  Trace.run_with Hs. Trace.run_with Hprobe. Trace.run_print Hprints.
  fold (engine_cmd video_path).
  match goal with
  | |- context [try_except ?b ?c ?h t'] => set (body := b)
  end.
  pose proof (Trace.subprocess_Popen_run env (engine_cmd video_path) t') as Hstart.
  rewrite Hpopen in Hstart.
  pose proof (Trace.monitor_run env (alive_polls process) (returncode process)
                                (stderr_lines process) (S t')
                                (quiet_of env Hprints Hdecodes)) as Hmon.
  destruct (Z.eqb (returncode process) 0) eqn:Eb.
  - pose proof (Trace.get_file_size_run env (to_string (output_path_of video_path))
                                        (S (S t'))) as Hso.
    destruct (env_getsize env (S (S t')) (to_string (output_path_of video_path)))
      as [out_size|].
    + eassert (Hbody : body t' = _).
      { unfold body. Trace.run_print Hprints. Trace.run_print Hprints.
        Trace.run_with Hstart. Trace.run_with Hmon.
        rewrite Eb. cbn [negb].
        Trace.run_with (Trace.time_time_run env (S t')). Trace.run_with Hso.
        Trace.run_with (Throughput.average_speed_value
                          (inject_Z (Z.of_N size) / inject_Z (1024 * 1024))
                          (env_time env (S t') - env_time env t) (S (S (S t')))).
        Trace.run_print Hprints. Trace.run_print Hprints. Trace.run_print Hprints.
        rewrite (Trace.print_ok env _ _ (Hprints _ _)).
        cbn [result clock trace]. reflexivity. }
      rewrite (Trace.try_return _ _ _ _ _ _ _ Hbody). cbn [result clock trace].
      f_equal. unfold engine_cmd, started, finished, mb_in.
      unfold engine_ran, prepared, measured.
      repeat rewrite <- app_assoc. cbn [app]. reflexivity.
    + eassert (Hbody : body t' = _).
      { unfold body. Trace.run_print Hprints. Trace.run_print Hprints.
        Trace.run_with Hstart. Trace.run_with Hmon.
        rewrite Eb. cbn [negb].
        Trace.run_with (Trace.time_time_run env (S t')). Trace.run_with Hso.
        reflexivity. }
      rewrite (Trace.try_passed _ _ _ _ _ _ _ Hbody eq_refl). cbn [result clock trace].
      f_equal. unfold engine_cmd, started, finished, mb_in.
      unfold engine_ran, prepared, measured.
      repeat rewrite <- app_assoc. cbn [app]. reflexivity.
  - pose proof (Trace.stderr_read_run
                  env (skipn (alive_polls process) (stderr_lines process)) (S t'))
      as Hread.
    rewrite (Trace.decode_error_quiet env _ _ Hdecodes) in Hread.
    eassert (Hbody : body t' = _).
    { unfold body. Trace.run_print Hprints. Trace.run_print Hprints.
      Trace.run_with Hstart. Trace.run_with Hmon.
      rewrite Eb. cbn [negb].
      Trace.run_with Hread. Trace.run_print Hprints.
      unfold raise. cbn [result clock trace]. reflexivity. }
    rewrite (Trace.try_passed _ _ _ _ _ _ _ Hbody eq_refl). cbn [result clock trace].
    f_equal. unfold engine_cmd, started, mb_in, error_message.
    unfold engine_ran, prepared, measured.
    repeat rewrite <- app_assoc. cbn [app]. reflexivity.
Qed.

End Started.

(** X18.  When the engine exits with a status other than 0, and what
    is left on the diagnostic stream can be read and printed, the
    error raised carries what the monitoring loop had not yet read,
    and only that: lines read while the child was alive are not part
    of the detail, which is empty when the loop has read them all. *)
Theorem engine_failure_detail :
  forall (env : Env) (video_path : PurePath) (current_file total_files t : nat)
         (size : N) (d : PyFloat.pyfloat) (t' : nat) (probes : list Event)
         (process : Proc),
    prints_succeed env ->
    stream_decodes env ->
    env_getsize env (S t) (to_string video_path) = Some size ->
    get_video_duration env video_path (S (S t)) = mkRun (Return d) t' probes ->
    env_popen env t' (engine_cmd video_path) = Some process ->
    returncode process <> 0%Z ->
    result (process_video env video_path current_file total_files t)
    = Raise (PlainException
               (PyStr.concat_all (skipn (alive_polls process) (stderr_lines process))))
    /\ ((length (stderr_lines process) <= alive_polls process)%nat ->
        result (process_video env video_path current_file total_files t)
        = Raise (PlainException "")).
Proof.
  intros env video_path current_file total_files t size d t' probes process
         Hprints Hdecodes Hsize Hprobe Hpopen Hstatus.
  pose proof (started_run env video_path current_file total_files t size d t' probes
                          process Hprints Hdecodes Hsize Hprobe Hpopen) as Hrun.
  cbv zeta in Hrun. rewrite Hrun.
  rewrite (proj2 (Z.eqb_neq _ _) Hstatus). cbn [result].
  split; [reflexivity|].
  intros Hall. rewrite skipn_all2 by exact Hall. reflexivity.
Qed.

Lemma studio_decodes : stream_decodes studio.
Proof. intros t data. reflexivity. Qed.

Lemma engine_failure_detail_witness :
  result (process_video studio b_mkv 2 3 initial)
  = Raise (PlainException "b.mkv: Invalid data").
Proof.
  destruct (engine_failure_detail
              studio b_mkv 2 3 initial 10485760%N (PyFloat.Finite 30) 3
              [EvRun (primary_cmd (to_string b_mkv))]
              (studio_engine (engine_cmd b_mkv)))
    as (H & _).
  - exact Batch.studio_prints.
  - exact studio_decodes.
  - reflexivity.
  - vm_compute. reflexivity.
  - reflexivity.
  - discriminate.
  - rewrite H. reflexivity.
Defined.

(** X19.  On success, every print being written and the diagnostic
    stream decoding, the time taken runs from the entry into
    [process_video], before the size read and the probing, to the
    first clock reading after the engine's exit was seen; the speed is
    the input size over that whole time, and the sizes printed are the
    two byte counts over 2^20. *)
Theorem success_report :
  forall (env : Env) (video_path : PurePath) (current_file total_files t : nat)
         (size out_size : N) (d : PyFloat.pyfloat) (t' : nat) (probes : list Event)
         (process : Proc),
    prints_succeed env ->
    stream_decodes env ->
    env_getsize env (S t) (to_string video_path) = Some size ->
    get_video_duration env video_path (S (S t)) = mkRun (Return d) t' probes ->
    env_popen env t' (engine_cmd video_path) = Some process ->
    returncode process = 0%Z ->
    env_getsize env (S (S t')) (to_string (output_path_of video_path)) = Some out_size ->
    let started := env_time env t in
    let finished := env_time env (S t') in
    let mb_in := (inject_Z (Z.of_N size) / inject_Z (1024 * 1024))%Q in
    let mb_out := (inject_Z (Z.of_N out_size) / inject_Z (1024 * 1024))%Q in
    process_video env video_path current_file total_files t
    = mkRun (Return tt) (S (S (S t')))
            (engine_ran video_path current_file total_files started probes mb_in process
               ++ [EvTime finished;
                   EvFs OpStat (to_string (output_path_of video_path)) true;
                   EvPrint MsgCompleted;
                   EvPrint (MsgTimeTaken (format_time (finished - started)));
                   EvPrint (MsgAverageSpeed
                              (if Qgt_bool (finished - started) 0
                               then mb_in / (finished - started) else 0)%Q);
                   EvPrint (MsgOutputSize mb_out)]).
Proof.
  intros env video_path current_file total_files t size out_size d t' probes process
         Hprints Hdecodes Hsize Hprobe Hpopen Hstatus Hout started finished mb_in mb_out.
  pose proof (started_run env video_path current_file total_files t size d t' probes
                          process Hprints Hdecodes Hsize Hprobe Hpopen) as Hrun.
  cbv zeta in Hrun. rewrite Hrun.
  rewrite (proj2 (Z.eqb_eq _ _) Hstatus), Hout. reflexivity.
Qed.

Lemma success_report_witness :
  result (process_video studio a_mp4 1 3 initial) = Return tt
  /\ In (EvPrint (MsgTimeTaken 4)) (trace (process_video studio a_mp4 1 3 initial)).
Proof.
  rewrite (success_report studio a_mp4 1 3 initial 10485760%N 10485760%N
             (PyFloat.Finite 30) 3 [EvRun (primary_cmd (to_string a_mp4))]
             (studio_engine (engine_cmd a_mp4))).
  - split; [reflexivity|]. cbn [trace]. apply in_or_app. right.
    right. right. right. left. reflexivity.
  - exact Batch.studio_prints.
  - exact studio_decodes.
  - reflexivity.
  - vm_compute. reflexivity.
  - reflexivity.
  - reflexivity.
  - reflexivity.
Defined.

End EngineFacts.

(** ** More on discovery *)

Module DiscoveryFacts.
Import Pathlib Py Normalizer Scenario Glob.







End DiscoveryFacts.
